(** * Session pattern generator and merge-and-save: a shallow embedding

    The development embeds, function by function,

    - [core/scheduler.py]: the pure date-pattern enumerators;
    - [screens/schedule.py]: the session writers built around
      [_merge_and_save] (drop holidays, delete collisions, insert, shortfall
      notice) and the simple-pattern button of [render];
    - [screens/schedule - Copy (3).py]: the variant of the same screen whose
      [_merge_and_save] also runs the faculty clash check;
    - the rest of these files that the session writers touch: the date
      helpers of [core/scheduler.py], the academic-year helpers of
      [core/db.py], and the other buttons of the two screens (A/B pattern,
      tail weeks, add and delete one day, repair, delete in range).

    Python values are modelled as follows.  A [datetime.date] is its
    proleptic Gregorian ordinal ([date.toordinal()]), an integer between
    [1] (0001-01-01) and [3652059] (9999-12-31); arithmetic that leaves this
    range raises [OverflowError], as CPython does.  Python [int]s are [Z];
    [date(y, m, d)] takes C [int]s, and [sqlite3] binds an integer only if
    it fits SQLite's 64-bit [INTEGER].  The ids, years and semesters the
    screens pass around are read from the database; the lecture and studio
    counts of a row are the caller's, and the bulk insert of
    [screens/schedule.py] raises [OverflowError] on one that does not fit.
    A Python [set] of integers or dates is a [gset Z].  Code that can raise
    returns an [outcome]; [while] loops run on an iteration budget that the
    theorems show to suffice.

    The database is a record of tables, each a list of rows in rowid
    order; SQL statements are list comprehensions over them, [NULL] is
    [None].  The two screens name some tables differently ([roles] and
    [faculty_roles], [subject_alloc] and [subject_faculty_map]); the record
    has all of them, with the columns the modelled statements read, and a
    table a screen finds missing behaves as an empty one behind the
    [try]/[except] around its query.  Text is [string]; the slot and kind
    texts the screens produce are ASCII, on which Python's [str.lower] and
    SQLite's [LOWER] agree.

    Definitions come first, then the theorems, grouped by subject. *)

From Stdlib Require Import ZArith List Bool Lia Ascii String Sorted Permutation.
From stdpp Require Import base decidable option list sorting gmap sets strings pretty.

Import ListNotations.
Local Open Scope Z_scope.

(** ** Outcomes of Python code *)

Inductive exn : Set :=
| OverflowError   (* date value out of range; int too large to convert *)
| ValueError      (* year out of range for date(y, m, d) *)
| IndexError      (* list index out of range *)
| TypeError.      (* boolean value of NA is ambiguous *)

(** [Diverged] is what a loop of the model answers when its iteration
    budget is used up; the theorems show that the budgets handed out below
    are never exhausted. *)
Inductive outcome (A : Type) : Type :=
| Return (a : A)
| Raise (e : exn)
| Diverged.

Arguments Return {A} a.
Arguments Raise {A} e.
Arguments Diverged {A}.

Definition obind {A B : Type} (m : outcome A) (k : A -> outcome B) : outcome B :=
  match m with
  | Return a => k a
  | Raise e => Raise e
  | Diverged => Diverged
  end.

Declare Scope py_scope.
Delimit Scope py_scope with py.
Notation "'do' x <- m ; k" := (obind m (fun x => k))
  (at level 10, x name, m at level 100, k at level 200) : py_scope.
Local Open Scope py_scope.

(** ** [datetime.date] *)

Module PyDate.

Definition date : Type := Z.

Definition MINORD : Z := 1.
(** [date.max.toordinal()], that is 9999-12-31. *)
Definition MAXORD : Z := 3652059.

Definition in_range (o : Z) : bool := (MINORD <=? o) && (o <=? MAXORD).

(** The ordinals that are dates. *)
Definition valid (d : date) : Prop := MINORD <= d <= MAXORD.

(** [d + timedelta(days=n)] *)
Definition add_days (d : date) (n : Z) : outcome date :=
  if in_range (d + n) then Return (d + n) else Raise OverflowError.

(** [(a - b).days] *)
Definition days_between (a b : date) : Z := a - b.

(** [d.weekday()]: 0 is Monday, 6 is Sunday. *)
Definition weekday (d : date) : Z := (d + 6) mod 7.

Definition is_leap (y : Z) : bool :=
  (y mod 4 =? 0) && (negb (y mod 100 =? 0) || (y mod 400 =? 0)).

Definition days_before_year (y : Z) : Z :=
  let p := y - 1 in p * 365 + p / 4 - p / 100 + p / 400.

Definition days_in_month (y m : Z) : Z :=
  if m =? 2 then (if is_leap y then 29 else 28)
  else if (m =? 4) || (m =? 6) || (m =? 9) || (m =? 11) then 30
  else 31.

Fixpoint days_before_month_aux (y : Z) (k : nat) : Z :=
  match k with
  | O => 0
  | S k' => days_before_month_aux y k' + days_in_month y (Z.of_nat k)
  end.

(** Number of days of year [y] before the first day of month [m]. *)
Definition days_before_month (y m : Z) : Z :=
  days_before_month_aux y (Z.to_nat (m - 1)).

(** The values of a C [int], to which [date(y, m, d)] converts its
    arguments before it looks at them. *)
Definition c_int (z : Z) : bool := (-2147483648 <=? z) && (z <=? 2147483647).

(** [date(y, m, d)]: [OverflowError] for an argument that is no C [int],
    [ValueError] for one that is out of range. *)
Definition mk (y m d : Z) : outcome date :=
  if negb (c_int y && c_int m && c_int d) then Raise OverflowError
  else if (1 <=? y) && (y <=? 9999) && (1 <=? m) && (m <=? 12)
          && (1 <=? d) && (d <=? days_in_month y m)
  then Return (days_before_year y + days_before_month y m + d)
  else Raise ValueError.

End PyDate.

Import PyDate.

(** ** [core/scheduler.py] *)

Module Scheduler.

(** [_normalize_holidays]: the iterable becomes a set of dates. *)
Definition _normalize_holidays (holidays : list date) : gset Z :=
  list_to_set holidays.

Definition keep (wset holi : gset Z) (d : date) : bool :=
  bool_decide (weekday d ∈ wset) && bool_decide (d ∉ holi).

(** The [while d <= end] loop shared by [generate_simple_pattern] and
    [backfill_last_weeks]. *)
Fixpoint simple_loop (fuel : nat) (end_ : date) (wd_set holi : gset Z)
         (d : date) (days : list date) : outcome (list date) :=
  match fuel with
  | O => Diverged
  | S fuel' =>
      if d <=? end_ then
        let days' := if keep wd_set holi d then days ++ [d] else days in
        do d' <- add_days d 1;
        simple_loop fuel' end_ wd_set holi d' days'
      else Return days
  end.

(** One iteration per day of [start..end_] and a last test of the guard. *)
Definition span_fuel (start end_ : date) : nat := S (Z.to_nat (end_ - start + 1)).

Definition generate_simple_pattern (start end_ : date)
           (weekday_indices : list Z) (holidays : list date) : outcome (list date) :=
  if start >? end_ then Return []
  else
    let wd_set : gset Z := list_to_set weekday_indices in
    let holi := _normalize_holidays holidays in
    simple_loop (span_fuel start end_) end_ wd_set holi start [].

Fixpoint alternating_loop (fuel : nat) (start end_ : date) (a_set b_set holi : gset Z)
         (d : date) (out : list date) : outcome (list date) :=
  match fuel with
  | O => Diverged
  | S fuel' =>
      if d <=? end_ then
        let week_index := days_between d start / 7 in
        let use_A := week_index mod 2 =? 0 in
        let wset := if use_A then a_set else b_set in
        let out' := if keep wset holi d then out ++ [d] else out in
        do d' <- add_days d 1;
        alternating_loop fuel' start end_ a_set b_set holi d' out'
      else Return out
  end.

Definition generate_alternating_pattern (start end_ : date)
           (weekA_weekdays weekB_weekdays : list Z) (holidays : list date)
  : outcome (list date) :=
  if start >? end_ then Return []
  else
    let holi := _normalize_holidays holidays in
    let a_set : gset Z := list_to_set weekA_weekdays in
    let b_set : gset Z := list_to_set weekB_weekdays in
    alternating_loop (span_fuel start end_) start end_ a_set b_set holi start [].

Definition backfill_last_weeks (start end_ : date) (weeks_tail : Z)
           (tail_weekdays : list Z) (holidays : list date) : outcome (list date) :=
  if (start >? end_) || (weeks_tail <=? 0) then Return []
  else
    let holi := _normalize_holidays holidays in
    let wset : gset Z := list_to_set tail_weekdays in
    let tail_days := weeks_tail * 7 in
    do back <- add_days end_ (- (tail_days - 1));
    let tail_start := Z.max start back in
    simple_loop (span_fuel tail_start end_) end_ wset holi tail_start [].

(** The test [generate_alternating_pattern] applies to day [d]. *)
Definition keep_alt (start : date) (a_set b_set holi : gset Z) (d : date) : bool :=
  keep (if (days_between d start / 7) mod 2 =? 0 then a_set else b_set) holi d.


(** The days [d, d+1, ..., d+n-1], the range the loops walk through. *)
Fixpoint days_from (d : date) (n : nat) : list date :=
  match n with
  | O => []
  | S n' => d :: days_from (d + 1) n'
  end.

End Scheduler.

(** ** Text *)

Module Text.

(** [str.lower] and SQLite's [LOWER] on ASCII text. *)
Definition lower_char (c : ascii) : ascii :=
  let n := nat_of_ascii c in
  if ((65 <=? n) && (n <=? 90))%nat then ascii_of_nat (n + 32) else c.

Fixpoint lower (s : string) : string :=
  match s with
  | EmptyString => EmptyString
  | String c s' => String (lower_char c) (lower s')
  end.

(** [str(n)] and [f"{n}"] for an [int]. *)
Definition str_int (n : Z) : string := pretty n.

(** [str(x)] for a text that may be [None]. *)
Definition str_opt (x : option string) : string :=
  match x with Some s => s | None => "None" end.

Fixpoint zeros (k : nat) : string :=
  match k with O => "" | S k' => String "0" (zeros k') end.

(** ["%0<width>d" % n] for [0 <= n]. *)
Definition zero_pad (width : nat) (n : Z) : string :=
  let s := pretty n in zeros (width - String.length s) +:+ s.

End Text.

(** ** [date.isoformat] *)

Module Iso.

(** [_ord2ymd] of CPython's [datetime]. *)
Definition ord2ymd (ordinal : Z) : Z * Z * Z :=
  let n := ordinal - 1 in
  let n400 := n / 146097 in
  let n := n mod 146097 in
  let year := n400 * 400 + 1 in
  let n100 := n / 36524 in
  let n := n mod 36524 in
  let n4 := n / 1461 in
  let n := n mod 1461 in
  let n1 := n / 365 in
  let n := n mod 365 in
  let year := year + n100 * 100 + n4 * 4 + n1 in
  if (n1 =? 4) || (n100 =? 4) then (year - 1, 12, 31)
  else
    let leapyear := (n1 =? 3) && (negb (n4 =? 24) || (n100 =? 3)) in
    let month := Z.shiftr (n + 50) 5 in
    let preceding :=
      PyDate.days_before_month_aux 1 (Z.to_nat (month - 1))
      + (if (month >? 2) && leapyear then 1 else 0) in
    if preceding >? n then
      let month := month - 1 in
      let preceding :=
        preceding
        - (PyDate.days_in_month 1 month
           + (if (month =? 2) && leapyear then 1 else 0)) in
      (year, month, n - preceding + 1)
    else (year, month, n - preceding + 1).

Definition isoformat (d : date) : string :=
  let '(y, m, dd) := ord2ymd d in
  Text.zero_pad 4 y +:+ "-" +:+ Text.zero_pad 2 m +:+ "-" +:+ Text.zero_pad 2 dd.

End Iso.

(** ** The database *)

Module Db.

(** A row of [subject_sessions] without its [id].  [session_date] is kept
    as the date whose ISO text the column holds; ISO texts of dates compare
    as the dates do. *)
Record Session : Type := {
  subject_id : Z;
  topic_id : option Z;
  session_date : date;
  slot : string;
  kind : string;
  lectures : Z;
  studios : Z;
  lecture_notes : string;
  studio_notes : string;
  assignment_id : option Z;
  due_date : option date;
  completed : string;
  degree_id : option Z;
  batch_year : option Z;
  semester : option Z;
  branch_id : option Z;
  branch_head_faculty_id : option Z
}.

Record Criteria : Type := {
  sc_id : Z;
  sc_degree_id : Z;
  sc_semester : Z;
  sc_code : option string;
  sc_name : option string;
  sc_lectures : option Z;
  sc_studios : option Z;
  subject_in_charge_id : option Z
}.

Record Subject : Type := {
  s_degree_id : option Z;
  s_semester : option Z;
  s_code : option string;
  s_name : option string
}.

Record Alloc : Type := {
  alloc_id : Z;
  a_degree_id : Z;
  a_batch_year : Z;
  a_semester : Z;
  a_subject_id : Z;
  a_topic_id : option Z;
  a_branch_id : option Z;
  sic_faculty_id : option Z
}.

Record FacultyMap : Type := {
  m_subject_id : Z;
  m_faculty_id : Z;
  m_kind : string
}.

(** A row of [notifications]; [id] and [created_at] are not read by the
    screens modelled here. *)
Record Notification : Type := {
  n_subject_id : Z;
  n_message : string;
  seen_by_faculty_id : option Z
}.

(** The tables the session writers only read. *)
Record Catalog : Type := {
  holidays : list date;
  subject_criteria : list Criteria;
  subjects : list Subject;
  roles : list (string * Z);            (* roles(role, faculty_id) *)
  faculty_roles : list (string * Z);    (* faculty_roles(role_name, faculty_id) *)
  faculty : list (Z * string);          (* faculty(id, name) *)
  subject_faculty_map : list FacultyMap;
  branches : list (Z * option Z);       (* branches(id, branch_head_faculty_id) *)
  subject_alloc : list Alloc;
  notifications_table : bool;           (* the table exists *)
  notifications_seen_by : bool          (* it has the seen_by_faculty_id column *)
}.

Record t : Type := {
  catalog : Catalog;
  subject_sessions : list (Z * Session);  (* (id, row), in rowid order *)
  sessions_seq : Z;                       (* largest id handed out so far *)
  notifications : list Notification
}.

Definition ifnull (x : option Z) (d : Z) : Z :=
  match x with Some v => v | None => d end.

Definition coalesce_text (x : option string) (d : string) : string :=
  match x with Some v => v | None => d end.

(** [col = ?] for a nullable integer column and an integer parameter. *)
Definition col_eq (col : option Z) (v : Z) : bool :=
  match col with Some c => c =? v | None => false end.

(** [IFNULL(col,-1) = IFNULL(?,-1)] *)
Definition null_eq (col param : option Z) : bool :=
  ifnull col (-1) =? ifnull param (-1).

(** [col BETWEEN ? AND ?] on dates *)
Definition between (d lo hi : date) : bool := (lo <=? d) && (d <=? hi).

(** [LOWER(col) = LOWER(?)] *)
Definition lower_eq (col param : string) : bool :=
  String.eqb (Text.lower col) (Text.lower param).

Definition sessions (db : t) : list Session := map snd (subject_sessions db).

(** [DELETE FROM subject_sessions WHERE p] *)
Definition delete_sessions (p : Session -> bool) (db : t) : t :=
  {| catalog := catalog db;
     subject_sessions := List.filter (fun x => negb (p (snd x))) (subject_sessions db);
     sessions_seq := sessions_seq db;
     notifications := notifications db |}.

Fixpoint number_from (k : Z) (rows : list Session) : list (Z * Session) :=
  match rows with
  | [] => []
  | r :: rows' => (k, r) :: number_from (k + 1) rows'
  end.

(** The next AUTOINCREMENT id: one more than every id in use or used. *)
Definition next_id (db : t) : Z :=
  fold_right Z.max (sessions_seq db) (map fst (subject_sessions db)) + 1.

(** [executemany("INSERT INTO subject_sessions(...) VALUES(...)", rows)] *)
Definition insert_sessions (rows : list Session) (db : t) : t :=
  match rows with
  | [] => db
  | _ =>
      {| catalog := catalog db;
         subject_sessions := subject_sessions db ++ number_from (next_id db) rows;
         sessions_seq := next_id db + Z.of_nat (length rows) - 1;
         notifications := notifications db |}
  end.

(** The integers [sqlite3] can bind: SQLite's 64-bit [INTEGER]. *)
Definition sqlite_int (z : Z) : bool :=
  (-9223372036854775808 <=? z) && (z <=? 9223372036854775807).

(** The counts of a tuple are integers the caller supplies (a widget, the
    editor, a CSV file); its other integers are ids, years and semesters
    that the screens read from the database. *)
Definition bindable (s : Session) : bool :=
  sqlite_int (lectures s) && sqlite_int (studios s).

(** [exec_many] with the [INSERT] into [subject_sessions]: [executemany]
    raises [OverflowError] at the first tuple with an integer it cannot
    bind, and [get_conn] then closes the connection without a commit. *)
Definition exec_many_insert (tuples : list Session) (db : t) : t * outcome unit :=
  if forallb bindable tuples then (insert_sessions tuples db, Return tt)
  else (db, Raise OverflowError).

Definition insert_notifications (rows : list Notification) (db : t) : t :=
  {| catalog := catalog db;
     subject_sessions := subject_sessions db;
     sessions_seq := sessions_seq db;
     notifications := notifications db ++ rows |}.

(** [SELECT ... FROM subject_criteria WHERE id=? LIMIT 1] *)
Definition criteria_of (db : t) (sid : Z) : option Criteria :=
  List.find (fun c => sc_id c =? sid) (subject_criteria (catalog db)).

Definition sum (l : list Z) : Z := fold_right Z.add 0 l.

End Db.

Import Db.

(** ** Row dicts *)

(** The [dict] rows the screens hand to [_merge_and_save]: the keys every
    caller sets.  [r_topic_id] and [r_degree_id] are [None] where the
    caller's dict has no such key (the callers of the Copy (3) screen).
    The ids of a row are values the screens read from the database.
    [r_lectures], [r_studios] and [r_assignment_id] are what the caller
    got from a widget, from the editor or from an imported CSV file. *)
Record Row : Type := {
  r_subject_id : Z;
  r_topic_id : option Z;
  r_session_date : date;
  r_slot : string;
  r_kind : string;
  r_lectures : Z;
  r_studios : Z;
  r_lecture_notes : string;
  r_studio_notes : string;
  r_assignment_id : option Z;
  r_due_date : option date;
  r_completed : string;
  r_degree_id : option Z
}.

(** [sorted(set(ids))] *)
Definition sorted_set (ids : list Z) : list Z := merge_sort Z.le (remove_dups ids).

(** Iteration over [set(ids)]: each id once.  CPython walks the set in
    hash-table order; the model lists the ids in ascending order, and the
    statements about [_notify_faculty] are made up to the order of the rows
    it writes. *)
Definition set_order (ids : list Z) : list Z := sorted_set ids.

(** Python truth value of an [int]. *)
Definition truthy (n : Z) : bool := negb (n =? 0).

(** ** [screens/schedule.py] *)

Module Schedule.

(** [_holidays_between] *)
Definition _holidays_between (db : Db.t) (sd ed : date) : list date :=
  merge_sort Z.le (List.filter (fun h => between h sd ed) (holidays (catalog db))).

(** [_subject_targets]: the query selects [lectures] and [studios] first,
    so the two column searches stop at these. *)
Definition _subject_targets (db : Db.t) (subject_id : Z) : Z * Z :=
  match criteria_of db subject_id with
  | None => (0, 0)
  | Some c => (ifnull (sc_lectures c) 0, ifnull (sc_studios c) 0)
  end.

(** [_notify_faculty] *)
Definition _notify_faculty (faculty_ids : list Z) (subject_id : Z) (message : string)
           (db : Db.t) : Db.t :=
  if negb (notifications_table (catalog db)) then db
  else if notifications_seen_by (catalog db) then
    let rows :=
      map (fun fid => {| n_subject_id := subject_id; n_message := message;
                         seen_by_faculty_id := Some fid |})
          (set_order faculty_ids) in
    match rows with
    | [] => db
    | _ => insert_notifications rows db
    end
  else
    insert_notifications
      [{| n_subject_id := subject_id; n_message := message;
          seen_by_faculty_id := None |}] db.

(** [_alloc_id_for] *)
Definition _alloc_id_for (db : Db.t) (degree_id batch_year abs_sem subject_id : Z)
           (topic_id branch_id : option Z) : option Z :=
  match List.filter
          (fun a => (a_degree_id a =? degree_id) && (a_batch_year a =? batch_year)
                    && (a_semester a =? abs_sem) && (a_subject_id a =? subject_id)
                    && null_eq (a_topic_id a) topic_id
                    && null_eq (a_branch_id a) branch_id)
          (subject_alloc (catalog db)) with
  | [] => None
  | a :: _ => Some (alloc_id a)
  end.

(** First component of [_people_for_alloc], the subject-in-charge. *)
Definition _people_for_alloc (db : Db.t) (alloc : Z) : option Z :=
  if negb (truthy alloc) then None
  else
    match List.filter (fun a => alloc_id a =? alloc) (subject_alloc (catalog db)) with
    | [] => None
    | a :: _ => sic_faculty_id a
    end.

(** The row dict with the stamps [_merge_and_save] adds to it. *)
Record Payload : Type := {
  p_row : Row;
  p_degree_id : Z;
  p_batch_year : Z;
  p_semester : Z;
  p_branch_id : option Z
}.

Definition stamp (batch_year sem_abs : Z) (branch_id : option Z) (r : Row) : Payload :=
  {| p_row := r;
     p_degree_id := ifnull (r_degree_id r) 0;
     p_batch_year := batch_year;
     p_semester := sem_abs;
     p_branch_id := branch_id |}.

(** The tuple [_save_sessions_bulk] builds for a row without an
    assignment id. *)
Definition to_session (p : Payload) : Session :=
  let r := p_row p in
  {| subject_id := r_subject_id r;
     topic_id := r_topic_id r;
     session_date := r_session_date r;
     slot := Text.lower (r_slot r);
     kind := Text.lower (r_kind r);
     lectures := r_lectures r;
     studios := r_studios r;
     lecture_notes := r_lecture_notes r;
     studio_notes := r_studio_notes r;
     assignment_id := None;
     due_date := r_due_date r;
     completed := r_completed r;
     degree_id := Some (p_degree_id p);
     batch_year := Some (p_batch_year p);
     semester := Some (p_semester p);
     branch_id := p_branch_id p;
     branch_head_faculty_id := None |}.

(** The tuple built for a row.  For an assignment id, an integer, the test
    [r.get("assignment_id") not in (None, "", pd.NA)] compares it with
    [pd.NA]; the comparison gives [pd.NA], whose truth value raises
    [TypeError]. *)
Definition session_tuple (p : Payload) : outcome Session :=
  match r_assignment_id (p_row p) with
  | None => Return (to_session p)
  | Some _ => Raise TypeError
  end.

(** A list comprehension [[f(x) for x in l]] whose element can raise. *)
Fixpoint comprehension {A B : Type} (f : A -> outcome B) (l : list A) : outcome (list B) :=
  match l with
  | [] => Return []
  | x :: l' =>
      do y <- f x;
      do ys <- comprehension f l';
      Return (y :: ys)
  end.

(** [_save_sessions_bulk]: the tuples are all built before [exec_many] is
    called. *)
Definition _save_sessions_bulk (rows : list Payload) (db : Db.t) : Db.t * outcome unit :=
  match rows with
  | [] => (db, Return tt)
  | _ =>
      match comprehension session_tuple rows with
      | Return tuples => exec_many_insert tuples db
      | Raise e => (db, Raise e)
      | Diverged => (db, Diverged)
      end
  end.

(** The [WHERE] clause of the collision delete issued for row [p]. *)
Definition collides (batch_year sem_abs : Z) (branch_id : option Z)
           (p : Payload) (s : Session) : bool :=
  (subject_id s =? r_subject_id (p_row p))
  && null_eq (topic_id s) (r_topic_id (p_row p))
  && col_eq (Db.batch_year s) batch_year
  && col_eq (semester s) sem_abs
  && null_eq (Db.branch_id s) branch_id
  && (session_date s =? r_session_date (p_row p))
  && lower_eq (slot s) (Text.lower (r_slot (p_row p))).

Definition delete_collisions (batch_year sem_abs : Z) (branch_id : option Z)
           (ins : list Payload) (db : Db.t) : Db.t :=
  fold_left (fun db p => delete_sessions (collides batch_year sem_abs branch_id p) db)
            ins db.

(** The re-read sums of the shortfall check. *)
Definition planned (db : Db.t) (subject_id batch_year sem_abs : Z)
           (branch_id : option Z) (sd ed : date) : Z * Z :=
  let rows :=
    List.filter
      (fun s => (Db.subject_id s =? subject_id)
                && col_eq (Db.batch_year s) batch_year
                && col_eq (semester s) sem_abs
                && null_eq (Db.branch_id s) branch_id
                && between (session_date s) sd ed)
      (sessions db) in
  (Db.sum (map lectures rows), Db.sum (map studios rows)).

Definition principal_id (db : Db.t) : list Z :=
  match List.filter (fun r => String.eqb (Text.lower (fst r)) "principal")
                    (roles (catalog db)) with
  | [] => []
  | r :: _ => [snd r]
  end.

Definition branch_head_of (db : Db.t) (branch_id : option Z) : list Z :=
  match branch_id with
  | None => []
  | Some b =>
      match List.filter (fun r => fst r =? b) (branches (catalog db)) with
      | (_, Some f) :: _ => [f]
      | _ => []
      end
  end.

Definition subject_code_of (db : Db.t) (subject_id : Z) : string :=
  match criteria_of db subject_id with
  | None => ""
  | Some c => coalesce_text (sc_code c) ""
  end.

(** [COALESCE(s.name, sc.code)] over the left join of the criteria row
    with [subjects]. *)
Definition subject_name_of (db : Db.t) (subject_id : Z) : string :=
  match criteria_of db subject_id with
  | None => ""
  | Some c =>
      let joined :=
        List.filter
          (fun s => col_eq (s_degree_id s) (sc_degree_id c)
                    && col_eq (s_semester s) (sc_semester c)
                    && lower_eq (coalesce_text (s_code s) "") (coalesce_text (sc_code c) ""))
          (subjects (catalog db)) in
      Text.str_opt
        match joined with
        | [] => sc_code c
        | s :: _ => match s_name s with Some n => Some n | None => sc_code c end
        end
  end.

Definition shortfall_message (action_label subject_code subject_name : string)
           (batch_year sem_abs need_lect need_stud : Z) : string :=
  "[" +:+ action_label +:+ "] Targets short in " +:+ subject_code +:+ " "
  +:+ subject_name +:+ " (batch " +:+ Text.str_int batch_year +:+ ", sem "
  +:+ Text.str_int sem_abs +:+ "): Lectures short " +:+ Text.str_int need_lect
  +:+ ", Studios short " +:+ Text.str_int need_stud +:+ ".".

(** The rows that survive the holiday filter, stamped. *)
Definition stamped_batch (db : Db.t) (sd ed : date) (rows : list Row)
           (batch_year sem_abs : Z) (branch_id : option Z) : list Payload :=
  let holi : gset Z := list_to_set (_holidays_between db sd ed) in
  map (stamp batch_year sem_abs branch_id)
      (List.filter (fun r => bool_decide (r_session_date r ∉ holi)) rows).

(** The subject-in-charge of the allocation found for the first saved
    row. *)
Definition sic_recipient (db : Db.t) (p0 : Payload) (subject_id batch_year sem_abs : Z)
           (branch_id : option Z) : list Z :=
  match _alloc_id_for db (p_degree_id p0) batch_year sem_abs subject_id
                      (r_topic_id (p_row p0)) branch_id with
  | Some a =>
      if truthy a then
        match _people_for_alloc db a with
        | Some f => if truthy f then [f] else []
        | None => []
        end
      else []
  | None => []
  end.

(** Recipients of the shortfall notice: principal, branch head,
    subject-in-charge, in the order the code appends them. *)
Definition recipients_for (db : Db.t) (p0 : Payload) (subject_id batch_year sem_abs : Z)
           (branch_id : option Z) : list Z :=
  (principal_id db ++ branch_head_of db branch_id)
  ++ sic_recipient db p0 subject_id batch_year sem_abs branch_id.

(** The shortfall check at the end of [_merge_and_save]; [ins] is the
    stamped batch just saved. *)
Definition shortfall_check (subject_id : Z) (sd ed : date) (ins : list Payload)
           (batch_year sem_abs : Z) (branch_id : option Z) (action_label : string)
           (db : Db.t) : Db.t * outcome unit :=
  let '(reqL, reqS) := _subject_targets db subject_id in
  if truthy reqL || truthy reqS then
    let '(curL, curS) := planned db subject_id batch_year sem_abs branch_id sd ed in
    let need_lect := Z.max 0 (reqL - curL) in
    let need_stud := Z.max 0 (reqS - curS) in
    if truthy need_lect || truthy need_stud then
      match ins with
      | [] => (db, Raise IndexError)          (* ins[0] *)
      | p0 :: _ =>
          (_notify_faculty
             (recipients_for db p0 subject_id batch_year sem_abs branch_id) subject_id
             (shortfall_message action_label (subject_code_of db subject_id)
                                (subject_name_of db subject_id)
                                batch_year sem_abs need_lect need_stud) db,
           Return tt)
      end
    else (db, Return tt)
  else (db, Return tt).

(** [_merge_and_save] *)
Definition _merge_and_save (subject_id : Z) (sd ed : date) (rows : list Row)
           (batch_year sem_abs : Z) (branch_id branch_head_id : option Z)
           (action_label : string) (db : Db.t) : Db.t * outcome unit :=
  match rows with
  | [] => (db, Return tt)
  | _ =>
      let ins := stamped_batch db sd ed rows batch_year sem_abs branch_id in
      let db := delete_collisions batch_year sem_abs branch_id ins db in
      match _save_sessions_bulk ins db with
      | (db, Return _) =>
          shortfall_check subject_id sd ed ins batch_year sem_abs branch_id action_label db
      | (db, Raise e) => (db, Raise e)
      | (db, Diverged) => (db, Diverged)
      end
  end.

(** *** The pattern buttons of [render] *)

(** What [render] has in scope when a button handler runs. *)
Record Screen : Type := {
  scr_subject_id : Z;
  scr_topic_id : option Z;
  scr_degree_id : Z;
  scr_batch_year : Z;
  scr_sem_choice : Z;
  scr_branch_id : option Z;
  scr_sd : date;
  scr_ed : date;
  scr_pick_weeks_count : Z
}.

Definition mon_to_sat : list string := ["Mon"; "Tue"; "Wed"; "Thu"; "Fri"; "Sat"].

(** [l.index(x)] for an [x] that is in [l]. *)
Fixpoint index_of (x : string) (l : list string) : option Z :=
  match l with
  | [] => None
  | y :: l' => if String.eqb x y then Some 0
               else match index_of x l' with Some i => Some (i + 1) | None => None end
  end.

(** [{mon_to_sat.index(d) for d in weekdays if d in mon_to_sat}] *)
Definition picks_of (weekdays : list string) : gset Z :=
  list_to_set (omap (fun d => index_of d mon_to_sat) weekdays).

Definition in_kinds (kind a b : string) : Z :=
  if String.eqb kind a || String.eqb kind b then 1 else 0.

Definition new_row (scr : Screen) (slot kind : string) (d : date) : Row :=
  {| r_subject_id := scr_subject_id scr;
     r_topic_id := scr_topic_id scr;
     r_session_date := d;
     r_slot := slot;
     r_kind := kind;
     r_lectures := in_kinds kind "lecture" "both";
     r_studios := in_kinds kind "studio" "both";
     r_lecture_notes := "";
     r_studio_notes := "";
     r_assignment_id := None;
     r_due_date := None;
     r_completed := "";
     r_degree_id := Some (scr_degree_id scr) |}.

Fixpoint generate_loop (fuel : nat) (last : date) (picks holi : gset Z)
         (mk : date -> Row) (d : date) (rows : list Row) : outcome (list Row) :=
  match fuel with
  | O => Diverged
  | S fuel' =>
      if d <=? last then
        let rows' :=
          if bool_decide (weekday d ∈ picks) && bool_decide (d ∉ holi)
          then rows ++ [mk d] else rows in
        do d' <- add_days d 1;
        generate_loop fuel' last picks holi mk d' rows'
      else Return rows
  end.

(** [_generate_simple], a closure of [render]; [holi] is the holiday set
    [render] read for the window. *)
Definition _generate_simple (scr : Screen) (holi : gset Z)
           (weekdays : list string) (slot kind : string) : outcome (list Row) :=
  do limit_ed <- add_days (scr_sd scr) (scr_pick_weeks_count scr * 7 - 1);
  let last := Z.min (scr_ed scr) limit_ed in
  generate_loop (Scheduler.span_fuel (scr_sd scr) last) last
                (picks_of weekdays) holi (new_row scr slot kind) (scr_sd scr) [].

(** The handler of the "Generate" button in simple mode; [render] stops
    before it when the start date is after the end date. *)
Definition simple_go (scr : Screen) (weekdays : list string) (slot kind : string)
           (db : Db.t) : Db.t * outcome unit :=
  if scr_sd scr >? scr_ed scr then (db, Return tt)
  else
    let holi : gset Z := list_to_set (_holidays_between db (scr_sd scr) (scr_ed scr)) in
    match _generate_simple scr holi weekdays slot kind with
    | Return rows =>
        _merge_and_save (scr_subject_id scr) (scr_sd scr) (scr_ed scr) rows
                        (scr_batch_year scr) (scr_sem_choice scr) (scr_branch_id scr)
                        None "Pattern generate" db
    | Raise e => (db, Raise e)
    | Diverged => (db, Diverged)
    end.

(** The columns the collision delete compares, [NULL] topic and branch
    read as [-1] and the slot lowercased. *)
Definition session_key (s : Session) : Z * Z * option Z * option Z * Z * date * string :=
  (subject_id s, ifnull (topic_id s) (-1), Db.batch_year s, semester s,
   ifnull (Db.branch_id s) (-1), session_date s, Text.lower (slot s)).

(** The same columns of a row of the batch, before the stamps. *)
Definition row_key (r : Row) : Z * Z * date * string :=
  (r_subject_id r, ifnull (r_topic_id r) (-1), r_session_date r, Text.lower (r_slot r)).

(** The key of a stamped row is its [row_key] with the stamps of the call. *)
Definition stamped_key (by_ sem : Z) (br : option Z) (k : Z * Z * date * string)
  : Z * Z * option Z * option Z * Z * date * string :=
  let '(sid, topic, d, sl) := k in (sid, topic, Some by_, Some sem, ifnull br (-1), d, sl).

(** The (subject, topic, date, slot) tuple of a stored session. *)
Definition subject_topic_date_slot (s : Session) : Z * option Z * date * string :=
  (subject_id s, topic_id s, session_date s, Text.lower (slot s)).

(** Whether the collision deletes issued for the batch [ins] remove [s]. *)
Definition deleted_by (ins : list Payload) (s : Session) : bool :=
  existsb (fun p => bool_decide (session_key s = session_key (to_session p))) ins.

(** The batch can be stored: no row carries an assignment id, and the
    counts of every row are integers SQLite can hold. *)
Definition savable (ins : list Payload) : bool :=
  forallb (fun p => bool_decide (r_assignment_id (p_row p) = None)
                    && bindable (to_session p)) ins.

(** The exception of a bulk save that cannot be stored: building the
    tuples fails before any tuple is bound. *)
Definition save_error (ins : list Payload) : exn :=
  if forallb (fun p => bool_decide (r_assignment_id (p_row p) = None)) ins
  then OverflowError else TypeError.

(** The database after the collision deletes and the bulk save, which is
    the one the shortfall check reads when the save has not raised. *)
Definition after_save (ins : list Payload) (batch_year sem_abs : Z) (branch_id : option Z)
           (db : Db.t) : Db.t :=
  fst (_save_sessions_bulk ins (delete_collisions batch_year sem_abs branch_id ins db)).


(** The test [d in holi] of [_merge_and_save]. *)
Definition on_window_holiday (db : Db.t) (sd ed : date) (d : date) : bool :=
  bool_decide (d ∈ (list_to_set (_holidays_between db sd ed) : gset Z)).

(** One call of [_merge_and_save], as a value. *)
Record Call : Type := {
  call_subject_id : Z;
  call_sd : date;
  call_ed : date;
  call_rows : list Row;
  call_batch_year : Z;
  call_sem_abs : Z;
  call_branch_id : option Z;
  call_action_label : string
}.

Definition run_call (c : Call) (db : Db.t) : Db.t :=
  fst (_merge_and_save (call_subject_id c) (call_sd c) (call_ed c) (call_rows c)
                       (call_batch_year c) (call_sem_abs c) (call_branch_id c)
                       None (call_action_label c) db).

(** A sequence of session-writing actions, each ending in one call. *)
Definition run_calls (cs : list Call) (db : Db.t) : Db.t :=
  fold_left (fun db c => run_call c db) cs db.

End Schedule.

(** ** [screens/schedule - Copy (3).py] *)

Module ScheduleCopy3.

(** [_ay_for_year_of_batch] *)
Definition _ay_for_year_of_batch (batch_year year : Z) : Z := batch_year + (year - 1).

(** Rows of [subject_sessions] ordered by [session_date, id]. *)
Definition by_date_id (x y : Z * Session) : Prop :=
  session_date (snd x) < session_date (snd y)
  \/ (session_date (snd x) = session_date (snd y) /\ fst x <= fst y).

#[local] Instance by_date_id_dec : RelDecision by_date_id.
Proof. intros x y. unfold by_date_id. apply _. Defined.

(** [_sessions_for] *)
Definition _sessions_for (db : Db.t) (subject_id : Z) (start end_ : date) : list Session :=
  map snd
      (merge_sort by_date_id
         (List.filter (fun x => (Db.subject_id (snd x) =? subject_id)
                                && between (session_date (snd x)) start end_)
                      (subject_sessions db))).

(** [_notif] *)
Definition _notif (recipient_faculty_ids : list Z) (subject_id : Z) (message : string)
           (db : Db.t) : Db.t :=
  let rows := List.filter truthy recipient_faculty_ids in
  match rows with
  | [] => db
  | _ =>
      if negb (notifications_table (catalog db)) then db
      else if notifications_seen_by (catalog db) then
        insert_notifications
          (map (fun fid => {| n_subject_id := subject_id; n_message := message;
                              seen_by_faculty_id := Some fid |}) rows) db
      else
        insert_notifications
          (map (fun _ => {| n_subject_id := subject_id; n_message := message;
                            seen_by_faculty_id := None |}) rows) db
  end.

(** The subject-in-charge recorded in [subject_criteria]. *)
Definition sic_of (db : Db.t) (subject_id : Z) : list Z :=
  match criteria_of db subject_id with
  | Some c => match subject_in_charge_id c with Some f => [f] | None => [] end
  | None => []
  end.

(** [_faculty_ids_for_subject] *)
Definition _faculty_ids_for_subject (db : Db.t) (subject_id : Z) : list Z :=
  let mapped :=
    remove_dups
      (map m_faculty_id
           (List.filter (fun m => m_subject_id m =? subject_id)
                        (subject_faculty_map (catalog db)))) in
  sorted_set (sic_of db subject_id ++ mapped).

(** Faculty [f] is the subject-in-charge of subject [s] or mapped to it,
    as [_faculty_ids_for_subject] collects them. *)
Definition associated (db : Db.t) (s f : Z) : Prop :=
  In f (sic_of db s)
  \/ exists m, In m (subject_faculty_map (catalog db))
               /\ m_subject_id m = s /\ m_faculty_id m = f.

(** Faculty [f] is joined to the sessions of subject [s]: through
    [subject_faculty_map] or as subject-in-charge of a criteria row. *)
Definition teaches (db : Db.t) (f s : Z) : Prop :=
  (exists m, In m (subject_faculty_map (catalog db))
             /\ m_subject_id m = s /\ m_faculty_id m = f)
  \/ (exists sc, In sc (subject_criteria (catalog db))
                 /\ sc_id sc = s /\ subject_in_charge_id sc = Some f).

(** Day [d] lies between June 1 of year [ay] and May 31 of the next. *)
Definition in_ay_window (ay : Z) (d : date) : Prop :=
  exists s e, PyDate.mk ay 6 1 = Return s /\ PyDate.mk (ay + 1) 5 31 = Return e
              /\ s <= d <= e.

(** A row of the clash query:
    [(subject_id, session_date, slot, faculty_id, faculty_name)]. *)
Definition Conflict : Type := Z * date * string * Z * string.

Definition mem (x : Z) (l : list Z) : bool := existsb (Z.eqb x) l.

(** The part of the [WHERE] clause both branches of the union share. *)
Definition hit (d : date) (slot : string) (subject_id : Z) (start end_ : date)
           (ss : Session) : bool :=
  (session_date ss =? d)
  && lower_eq (Db.slot ss) slot
  && negb (Db.subject_id ss =? subject_id)
  && between (session_date ss) start end_.

(** First branch: sessions joined with [subject_faculty_map] and [faculty]. *)
Definition via_map (db : Db.t) (faculty_ids : list Z) (d : date) (slot : string)
           (subject_id : Z) (start end_ : date) : list Conflict :=
  flat_map (fun ss =>
    flat_map (fun m =>
      flat_map (fun f =>
        if (m_subject_id m =? Db.subject_id ss) && (fst f =? m_faculty_id m)
           && hit d slot subject_id start end_ ss
           && mem (m_faculty_id m) faculty_ids
        then [(Db.subject_id ss, session_date ss, Db.slot ss, fst f, snd f)]
        else [])
        (faculty (catalog db)))
      (subject_faculty_map (catalog db)))
    (sessions db).

(** Second branch: sessions joined with [subject_criteria] and the
    subject-in-charge in [faculty]. *)
Definition via_sic (db : Db.t) (faculty_ids : list Z) (d : date) (slot : string)
           (subject_id : Z) (start end_ : date) : list Conflict :=
  flat_map (fun ss =>
    flat_map (fun sc =>
      flat_map (fun f =>
        match subject_in_charge_id sc with
        | Some sic =>
            if (sc_id sc =? Db.subject_id ss) && (fst f =? sic)
               && hit d slot subject_id start end_ ss
               && mem sic faculty_ids
            then [(Db.subject_id ss, session_date ss, Db.slot ss, fst f, snd f)]
            else []
        | None => []
        end)
        (faculty (catalog db)))
      (subject_criteria (catalog db)))
    (sessions db).

(** [_conflicts_in_ay].  [UNION] removes duplicate rows; SQLite fixes no
    order for the result, and the callers use only its length. *)
Definition _conflicts_in_ay (db : Db.t) (faculty_ids : list Z) (ay_start : Z)
           (d : date) (slot : string) (subject_id : Z) : outcome (list Conflict) :=
  match faculty_ids with
  | [] => Return []
  | _ =>
      do start <- PyDate.mk ay_start 6 1;
      do end_ <- PyDate.mk (ay_start + 1) 5 31;
      Return (remove_dups
                (via_map db faculty_ids d (Text.lower slot) subject_id start end_
                 ++ via_sic db faculty_ids d (Text.lower slot) subject_id start end_))
  end.

(** The row after [_stamp_defaults], as [_save_sessions_bulk] inserts it
    when [subject_sessions] has all its columns. *)
Definition to_session (batch_year semester : Z) (branch_id branch_head_id : option Z)
           (r : Row) : Session :=
  {| subject_id := r_subject_id r;
     topic_id := r_topic_id r;
     session_date := r_session_date r;
     slot := r_slot r;
     kind := r_kind r;
     lectures := r_lectures r;
     studios := r_studios r;
     lecture_notes := r_lecture_notes r;
     studio_notes := r_studio_notes r;
     assignment_id := r_assignment_id r;
     due_date := r_due_date r;
     completed := r_completed r;
     degree_id := None;
     batch_year := Some batch_year;
     semester := Some semester;
     branch_id := branch_id;
     branch_head_faculty_id := branch_head_id |}.

(** The [WHERE] clause of the collision delete issued for row [r]. *)
Definition collides (subject_id : Z) (r : Row) (s : Session) : bool :=
  (Db.subject_id s =? subject_id)
  && (session_date s =? r_session_date r)
  && lower_eq (Db.slot s) (Text.lower (r_slot r)).

Definition delete_collisions (subject_id : Z) (new_rows : list Row) (db : Db.t) : Db.t :=
  fold_left (fun db r => delete_sessions (collides subject_id r) db) new_rows db.

Definition principal_id (db : Db.t) : list Z :=
  match flat_map (fun fr =>
                    if String.eqb (fst fr) "principal" then
                      map fst (List.filter (fun f => fst f =? snd fr) (faculty (catalog db)))
                    else [])
                 (faculty_roles (catalog db)) with
  | [] => []
  | f :: _ => [f]
  end.

Definition head_id (branch_head_id : option Z) : list Z :=
  match branch_head_id with
  | Some b => if truthy b then [b] else []
  | None => []
  end.

Definition shortfall_message (action_label scode sname : string)
           (batch_year sem_abs miss_lec miss_stu : Z) : string :=
  "[" +:+ action_label +:+ "] Targets short in " +:+ scode +:+ " " +:+ sname
  +:+ " (batch " +:+ Text.str_int batch_year +:+ ", sem " +:+ Text.str_int sem_abs
  +:+ "): Lectures short " +:+ Text.str_int miss_lec
  +:+ ", Studios short " +:+ Text.str_int miss_stu +:+ ".".

(** The "target shortfall" block of [_merge_and_save]. *)
Definition shortfall_phase (subject_id : Z) (sd ed : date) (batch_year sem_abs : Z)
           (branch_head_id : option Z) (action_label : string) (db : Db.t) : Db.t :=
  match criteria_of db subject_id with
  | None => db
  | Some c =>
      let want_lec := ifnull (sc_lectures c) 0 in
      let want_stu := ifnull (sc_studios c) 0 in
      let cur := _sessions_for db subject_id sd ed in
      let have_lec := Db.sum (map lectures cur) in
      let have_stu := Db.sum (map studios cur) in
      let miss_lec := Z.max 0 (want_lec - have_lec) in
      let miss_stu := Z.max 0 (want_stu - have_stu) in
      if truthy miss_lec || truthy miss_stu then
        let recips :=
          _faculty_ids_for_subject db subject_id ++ principal_id db
          ++ head_id branch_head_id in
        let recips := sorted_set (List.filter truthy recips) in
        _notif recips subject_id
               (shortfall_message action_label (Text.str_opt (sc_code c))
                                  (Text.str_opt (sc_name c))
                                  batch_year sem_abs miss_lec miss_stu) db
      else db
  end.

Definition clash_message (action_label : string) (d : date) (slot : string)
           (n : nat) (ay_start : Z) : string :=
  "[" +:+ action_label +:+ "] Faculty clash detected on " +:+ Iso.isoformat d
  +:+ " (" +:+ slot +:+ "). " +:+ pretty n +:+ " conflict(s) in AY "
  +:+ Text.str_int ay_start +:+ "-" +:+ Text.str_int (ay_start + 1) +:+ ".".

(** Recipients of a clash notice. *)
Definition clash_recipients (db : Db.t) (subject_id : Z) (branch_head_id : option Z)
  : list Z :=
  sorted_set (List.filter truthy
                (sic_of db subject_id ++ principal_id db ++ head_id branch_head_id)).

(** The [for r in new_rows] loop of the clash block.  The state is the
    database and the warnings shown so far with [st.warning]; an exception
    leaves the loop (the enclosing [except: pass]). *)
Fixpoint clash_loop (fac_ids : list Z) (ay_start subject_id : Z)
         (branch_head_id : option Z) (action_label : string)
         (new_rows : list Row) (st : Db.t * list string) : Db.t * list string :=
  match new_rows with
  | [] => st
  | r :: rest =>
      let slot := Text.lower (r_slot r) in
      match _conflicts_in_ay (fst st) fac_ids ay_start (r_session_date r) slot subject_id with
      | Return [] =>
          clash_loop fac_ids ay_start subject_id branch_head_id action_label rest st
      | Return clashes =>
          let msg := clash_message action_label (r_session_date r) slot
                                   (length clashes) ay_start in
          let db' := _notif (clash_recipients (fst st) subject_id branch_head_id)
                            subject_id msg (fst st) in
          clash_loop fac_ids ay_start subject_id branch_head_id action_label rest
                     (db', snd st ++ [msg])
      | _ => st
      end
  end.

(** The academic-year start the clash block derives from the batch year
    and the absolute semester. *)
Definition ay_of (batch_year sem_abs : Z) : Z :=
  _ay_for_year_of_batch batch_year ((sem_abs + 1) / 2).





(** The database after the collision deletes and the insert. *)
Definition after_save (subject_id : Z) (new_rows : list Row) (batch_year sem_abs : Z)
           (branch_id branch_head_id : option Z) (db : Db.t) : Db.t :=
  insert_sessions (map (to_session batch_year sem_abs branch_id branch_head_id) new_rows)
                  (delete_collisions subject_id new_rows db).

(** The "faculty clash" block of [_merge_and_save]. *)
Definition clash_phase (subject_id : Z) (new_rows : list Row) (batch_year sem_abs : Z)
           (branch_head_id : option Z) (action_label : string) (db : Db.t)
  : Db.t * list string :=
  let fac_ids := _faculty_ids_for_subject db subject_id in
  let year_from_sem := (sem_abs + 1) / 2 in
  let ay_start := _ay_for_year_of_batch batch_year year_from_sem in
  clash_loop fac_ids ay_start subject_id branch_head_id action_label new_rows (db, []).

(** [_merge_and_save]: the database afterwards and the warnings shown. *)
Definition _merge_and_save (subject_id : Z) (sd ed : date) (new_rows : list Row)
           (batch_year sem_abs : Z) (branch_id branch_head_id : option Z)
           (action_label : string) (db : Db.t) : Db.t * list string :=
  match new_rows with
  | [] => (db, [])
  | _ =>
      let db := delete_collisions subject_id new_rows db in
      let db := insert_sessions
                  (map (to_session batch_year sem_abs branch_id branch_head_id) new_rows) db in
      let db := shortfall_phase subject_id sd ed batch_year sem_abs branch_head_id
                                action_label db in
      clash_phase subject_id new_rows batch_year sem_abs branch_head_id action_label db
  end.

End ScheduleCopy3.

(** ** Example data *)

Module Fixtures.

Definition empty_catalog : Catalog :=
  {| holidays := [];
     subject_criteria := [];
     subjects := [];
     roles := [];
     faculty_roles := [];
     faculty := [];
     subject_faculty_map := [];
     branches := [];
     subject_alloc := [];
     notifications_table := true;
     notifications_seen_by := true |}.

Definition empty_db : Db.t :=
  {| catalog := empty_catalog;
     subject_sessions := [];
     sessions_seq := 0;
     notifications := [] |}.

Definition with_catalog (c : Catalog) (db : Db.t) : Db.t :=
  {| catalog := c;
     subject_sessions := subject_sessions db;
     sessions_seq := sessions_seq db;
     notifications := notifications db |}.

(** One lecture of subject [sid] on day [d]. *)
Definition lecture_row (sid : Z) (d : date) (slot : string) : Row :=
  {| r_subject_id := sid;
     r_topic_id := None;
     r_session_date := d;
     r_slot := slot;
     r_kind := "lecture";
     r_lectures := 1;
     r_studios := 0;
     r_lecture_notes := "";
     r_studio_notes := "";
     r_assignment_id := None;
     r_due_date := None;
     r_completed := "";
     r_degree_id := Some 1 |}.

(** Monday 2024-01-01 and Sunday 2024-01-14. *)
Definition jan01 : date := 738886.
Definition jan14 : date := 738899.

(** Subject 1, batch 2024, semester 1, Monday morning, saved for branch [b]. *)
Definition monday_call (b : Z) : Schedule.Call :=
  {| Schedule.call_subject_id := 1;
     Schedule.call_sd := jan01;
     Schedule.call_ed := jan14;
     Schedule.call_rows := [lecture_row 1 jan01 "morning"];
     Schedule.call_batch_year := 2024;
     Schedule.call_sem_abs := 1;
     Schedule.call_branch_id := Some b;
     Schedule.call_action_label := "Pattern generate" |}.

(** The schedule screen for subject 1 over the two weeks from Monday
    2024-01-01, both weeks selected. *)
Definition two_weeks : Schedule.Screen :=
  {| Schedule.scr_subject_id := 1;
     Schedule.scr_topic_id := None;
     Schedule.scr_degree_id := 1;
     Schedule.scr_batch_year := 2024;
     Schedule.scr_sem_choice := 1;
     Schedule.scr_branch_id := Some 1;
     Schedule.scr_sd := jan01;
     Schedule.scr_ed := jan14;
     Schedule.scr_pick_weeks_count := 2 |}.


(** Subject 1, AR101 Design: 10 lectures wanted, no studio; [rs] is the
    [roles] table. *)
Definition design_catalog (rs : list (string * Z)) : Catalog :=
  {| holidays := [];
     subject_criteria :=
       [{| sc_id := 1; sc_degree_id := 1; sc_semester := 1;
           sc_code := Some "AR101"; sc_name := Some "Design";
           sc_lectures := Some 10; sc_studios := Some 0;
           subject_in_charge_id := None |}];
     subjects :=
       [{| s_degree_id := Some 1; s_semester := Some 1;
           s_code := Some "ar101"; s_name := Some "Design" |}];
     roles := rs;
     faculty_roles := [];
     faculty := [];
     subject_faculty_map := [];
     branches := [];
     subject_alloc := [];
     notifications_table := true;
     notifications_seen_by := true |}.

(** As [design_catalog], with Wednesday 2024-01-03 a holiday. *)
Definition design_on_holiday (rs : list (string * Z)) : Catalog :=
  {| holidays := [738888];
     subject_criteria := subject_criteria (design_catalog rs);
     subjects := subjects (design_catalog rs);
     roles := rs;
     faculty_roles := [];
     faculty := [];
     subject_faculty_map := [];
     branches := [];
     subject_alloc := [];
     notifications_table := true;
     notifications_seen_by := true |}.

(** Thursday 2025-07-10 and Friday 2025-07-11. *)
Definition jul10 : date := 739442.
Definition jul11 : date := 739443.

(** Faculty 7 ("F") is in charge of subject 1 (A) and of subject 2 (B). *)
Definition shared_faculty : Catalog :=
  {| holidays := [];
     subject_criteria :=
       [{| sc_id := 1; sc_degree_id := 1; sc_semester := 1;
           sc_code := Some "A"; sc_name := Some "Subject A";
           sc_lectures := None; sc_studios := None;
           subject_in_charge_id := Some 7 |};
        {| sc_id := 2; sc_degree_id := 1; sc_semester := 1;
           sc_code := Some "B"; sc_name := Some "Subject B";
           sc_lectures := None; sc_studios := None;
           subject_in_charge_id := Some 7 |}];
     subjects := [];
     roles := [];
     faculty_roles := [];
     faculty := [(7, "F")];
     subject_faculty_map := [];
     branches := [];
     subject_alloc := [];
     notifications_table := true;
     notifications_seen_by := true |}.

(** Subject A has its morning sessions of 2025-07-10 and 2025-07-11 saved. *)
Definition subject_a_scheduled : Db.t :=
  fst (ScheduleCopy3._merge_and_save
         1 jul10 jul11
         [lecture_row 1 jul10 "morning"; lecture_row 1 jul11 "morning"]
         2025 1 None None "Pattern generate"
         (with_catalog shared_faculty empty_db)).

End Fixtures.

(** ** More of [core/scheduler.py] *)

Module SchedulerRest.

Definition WEEKDAY_NAMES : list string :=
  ["Mon"; "Tue"; "Wed"; "Thu"; "Fri"; "Sat"; "Sun"].

(** [l[i]] for a list and an [int]: negative indices count from the end,
    [None] stands for [IndexError]. *)
Definition py_index {A : Type} (l : list A) (i : Z) : option A :=
  let j := if i <? 0 then Z.of_nat (length l) + i else i in
  if j <? 0 then None else nth_error l (Z.to_nat j).

(** [weekday_name]; [strftime_a] is [d.strftime("%a")], the fallback of the
    [except] branch, whose text depends on the locale. *)
Definition weekday_name (strftime_a : date -> string) (d : date) : string :=
  match py_index WEEKDAY_NAMES (weekday d) with
  | Some s => s
  | None => strftime_a d
  end.

(** [year_sem12_to_abs_sem] *)
Definition year_sem12_to_abs_sem (year sem12 : Z) : Z :=
  let sem12 := if sem12 =? 1 then 1 else 2 in
  (year - 1) * 2 + sem12.

(** [academic_year_window] *)
Definition academic_year_window (batch_year year_in_program : Z) : outcome (date * date) :=
  let by_ := batch_year in
  let y := Z.max 1 year_in_program in
  do start <- PyDate.mk (by_ + (y - 1)) 6 1;
  do end_ <- PyDate.mk (by_ + y) 5 31;
  Return (start, end_).

(** [fmap] on outcomes. *)
Definition omap_outcome {A B : Type} (f : A -> B) (o : outcome A) : outcome B :=
  match o with
  | Return a => Return (f a)
  | Raise e => Raise e
  | Diverged => Diverged
  end.

(** The dates other than [h]. *)
Definition not_day (h : date) (d : date) : bool := negb (d =? h).

End SchedulerRest.

(** ** The academic-year helpers of [core/db.py] *)

Module CoreDb.

(** [compute_ay_start_year] *)
Definition compute_ay_start_year (batch_year year : Z) : Z :=
  batch_year + Z.max 0 (year - 1).

(** [compute_ay_start_abs_sem] *)
Definition compute_ay_start_abs_sem (batch_year abs_sem : Z) : Z :=
  let sem := Z.max 1 abs_sem in
  batch_year + (sem - 1) / 2.

(** [compute_ay_start] and [academic_year_start], the aliases older pages
    use. *)
Definition compute_ay_start (batch_year year : Z) : Z :=
  compute_ay_start_year batch_year year.

Definition academic_year_start (batch_year abs_sem : Z) : Z :=
  compute_ay_start_abs_sem batch_year abs_sem.

End CoreDb.

(** ** More of [screens/schedule.py] *)

Module ScheduleRest.

Import Schedule.

(** [_abs_sems_for_year] *)
Definition _abs_sems_for_year (year : Z) : Z * Z :=
  let year := if year <=? 0 then 1 else year in
  let s1 := 2 * (year - 1) + 1 in
  (s1, s1 + 1).

(** [ORDER BY session_date, id] *)
Definition date_then_id (x y : Z * Session) : Prop :=
  session_date (snd x) < session_date (snd y)
  \/ (session_date (snd x) = session_date (snd y) /\ fst x <= fst y).

#[local] Instance date_then_id_dec : RelDecision date_then_id.
Proof. intros x y. unfold date_then_id. apply _. Defined.

(** The [WHERE] clause of [_sessions_for]. *)
Definition in_view (subject_id : Z) (topic_id : option Z) (batch_year sem_abs : Z)
           (branch_id : option Z) (start end_ : date) (s : Session) : bool :=
  (Db.subject_id s =? subject_id)
  && null_eq (Db.topic_id s) topic_id
  && col_eq (Db.batch_year s) batch_year
  && col_eq (semester s) sem_abs
  && null_eq (Db.branch_id s) branch_id
  && between (session_date s) start end_.

(** The columns [_sessions_for] selects. *)
Record Shown : Type := {
  v_id : Z;
  v_session_date : date;
  v_slot : string;
  v_kind : string;
  v_lectures : Z;
  v_studios : Z;
  v_lecture_notes : string;
  v_studio_notes : string;
  v_assignment_id : option Z;
  v_due_date : option date;
  v_completed : string
}.

Definition show (x : Z * Session) : Shown :=
  {| v_id := fst x;
     v_session_date := session_date (snd x);
     v_slot := slot (snd x);
     v_kind := kind (snd x);
     v_lectures := lectures (snd x);
     v_studios := studios (snd x);
     v_lecture_notes := lecture_notes (snd x);
     v_studio_notes := studio_notes (snd x);
     v_assignment_id := assignment_id (snd x);
     v_due_date := due_date (snd x);
     v_completed := completed (snd x) |}.

(** [_sessions_for] *)
Definition _sessions_for (db : Db.t) (subject_id : Z) (topic_id : option Z)
           (batch_year sem_abs : Z) (branch_id : option Z) (start end_ : date)
  : list Shown :=
  map show
      (merge_sort date_then_id
         (List.filter (fun x => in_view subject_id topic_id batch_year sem_abs branch_id
                                        start end_ (snd x))
                      (subject_sessions db))).

(** *** The A/B button of [render] *)

(** The [for i in range(7)] loop over one week of [_generate_ab]. *)
Fixpoint ab_week (days : list Z) (week_start sd last : date) (use holi : gset Z)
         (mk : date -> Row) (rows : list Row) : outcome (list Row) :=
  match days with
  | [] => Return rows
  | i :: days' =>
      do d <- add_days week_start i;
      let rows' :=
        if (d <? sd) || (d >? last) then rows
        else if bool_decide (weekday d ∈ use) && bool_decide (d ∉ holi)
             then rows ++ [mk d] else rows in
      ab_week days' week_start sd last use holi mk rows'
  end.

Definition range7 : list Z := [0; 1; 2; 3; 4; 5; 6].

(** The [while cur <= min(ed, limit_ed)] loop of [_generate_ab]. *)
Fixpoint ab_loop (fuel : nat) (sd last : date) (picksA picksB holi : gset Z)
         (mk : date -> Row) (w : Z) (cur : date) (rows : list Row)
  : outcome (list Row) :=
  match fuel with
  | O => Diverged
  | S fuel' =>
      if cur <=? last then
        do week_start <- add_days sd (7 * w);
        let use := if w mod 2 =? 0 then picksA else picksB in
        do rows' <- ab_week range7 week_start sd last use holi mk rows;
        let w' := w + 1 in
        do cur' <- add_days sd (7 * w');
        ab_loop fuel' sd last picksA picksB holi mk w' cur' rows'
      else Return rows
  end.

(** [_generate_ab], a closure of [render]. *)
Definition _generate_ab (scr : Screen) (holi : gset Z) (weekA weekB : list string)
           (slot kind : string) : outcome (list Row) :=
  let picksA := picks_of weekA in
  let picksB := picks_of weekB in
  do limit_ed <- add_days (scr_sd scr) (scr_pick_weeks_count scr * 7 - 1);
  let last := Z.min (scr_ed scr) limit_ed in
  ab_loop (Scheduler.span_fuel (scr_sd scr) last) (scr_sd scr) last picksA picksB holi
          (new_row scr slot kind) 0 (scr_sd scr) [].

(** The handler of the "Generate (A/B)" button; [render] stops before it
    when the start date is after the end date. *)
Definition ab_go (scr : Screen) (weekA weekB : list string) (slot kind : string)
           (db : Db.t) : Db.t * outcome unit :=
  if scr_sd scr >? scr_ed scr then (db, Return tt)
  else
    let holi : gset Z := list_to_set (_holidays_between db (scr_sd scr) (scr_ed scr)) in
    match _generate_ab scr holi weekA weekB slot kind with
    | Return rows =>
        _merge_and_save (scr_subject_id scr) (scr_sd scr) (scr_ed scr) rows
                        (scr_batch_year scr) (scr_sem_choice scr) (scr_branch_id scr)
                        None "Pattern generate" db
    | Raise e => (db, Raise e)
    | Diverged => (db, Diverged)
    end.

(** *** Tail weeks *)

Definition WEEKDAYS : list string := ["Mon"; "Tue"; "Wed"; "Thu"; "Fri"; "Sat"; "Sun"].

(** [{d2i[d] for d in choose if d in d2i}] *)
Definition idxs_of (choose : list string) : gset Z :=
  list_to_set (omap (fun d => index_of d WEEKDAYS) choose).

(** The [for i in range(7)] loop of the tail-weeks button. *)
Fixpoint tail_week (days : list Z) (wk_start sd ed : date) (idxs holi : gset Z)
         (mk : date -> Row) (rows : list Row) : outcome (list Row) :=
  match days with
  | [] => Return rows
  | i :: days' =>
      do d <- add_days wk_start i;
      let rows' :=
        if (d <? sd) || (d >? ed) then rows
        else if bool_decide (weekday d ∈ idxs) && bool_decide (d ∉ holi)
             then rows ++ [mk d] else rows in
      tail_week days' wk_start sd ed idxs holi mk rows'
  end.

(** The [for w in pick_weeks] loop; [per_wk_days] is the dict of weekday
    names picked for each week. *)
Fixpoint tail_rows (pick_weeks : list Z) (per_wk_days : gmap Z (list string))
         (sd ed : date) (holi : gset Z) (mk : date -> Row) (rows : list Row)
  : outcome (list Row) :=
  match pick_weeks with
  | [] => Return rows
  | w :: rest =>
      do wk_start <- add_days sd (7 * (w - 1));
      let choose := default [] (per_wk_days !! w) in
      do rows' <- tail_week range7 wk_start sd ed (idxs_of choose) holi mk rows;
      tail_rows rest per_wk_days sd ed holi mk rows'
  end.

(** The handler of "Add sessions for selected tail weeks" in
    [_tail_weeks_ui], which [render] calls after its test of the two
    dates. *)
Definition tail_weeks_go (scr : Screen) (pick_weeks : list Z)
           (per_wk_days : gmap Z (list string)) (tail_slot tail_kind : string)
           (db : Db.t) : Db.t * outcome unit :=
  if scr_sd scr >? scr_ed scr then (db, Return tt)
  else
    let holi : gset Z := list_to_set (_holidays_between db (scr_sd scr) (scr_ed scr)) in
    match tail_rows pick_weeks per_wk_days (scr_sd scr) (scr_ed scr) holi
                    (new_row scr tail_slot tail_kind) [] with
    | Return rows =>
        _merge_and_save (scr_subject_id scr) (scr_sd scr) (scr_ed scr) rows
                        (scr_batch_year scr) (scr_sem_choice scr) (scr_branch_id scr)
                        None "Tail/custom weeks" db
    | Raise e => (db, Raise e)
    | Diverged => (db, Diverged)
    end.

(** *** Add one day, delete one day, repair *)

(** What a handler shows: [st.error(msg)], [st.success(msg)], or the
    [st.error(f"Add failed: {e}")] of the handler's [except] branch. *)
Inductive feedback : Type :=
| st_error (msg : string)
| st_success (msg : string)
| add_failed (e : exn).

(** The dict the "Add" button hands to [_merge_and_save]. *)
Definition added_row (scr : Screen) (add_date : date) (add_slot add_kind : string)
           (add_L add_S : Z) : Row :=
  {| r_subject_id := scr_subject_id scr;
     r_topic_id := scr_topic_id scr;
     r_session_date := add_date;
     r_slot := add_slot;
     r_kind := add_kind;
     r_lectures := add_L;
     r_studios := add_S;
     r_lecture_notes := "";
     r_studio_notes := "";
     r_assignment_id := None;
     r_due_date := None;
     r_completed := "";
     r_degree_id := Some (scr_degree_id scr) |}.

(** The handler of the "Add" button, with the [try]/[except] around it. *)
Definition add_one_day (scr : Screen) (add_date : date) (add_slot add_kind : string)
           (add_L add_S : Z) (db : Db.t) : Db.t * outcome feedback :=
  if scr_sd scr >? scr_ed scr then
    (db, Return (st_error "Start date cannot be after End date."))
  else if (add_date <? scr_sd scr) || (add_date >? scr_ed scr) then
    (db, Return (st_error "Date must be within Start/End."))
  else if bool_decide (add_date ∈ _holidays_between db (scr_sd scr) (scr_ed scr)) then
    (db, Return (st_error "That date is a holiday."))
  else
    match _merge_and_save (scr_subject_id scr) (scr_sd scr) (scr_ed scr)
                          [added_row scr add_date add_slot add_kind add_L add_S]
                          (scr_batch_year scr) (scr_sem_choice scr) (scr_branch_id scr)
                          None "Add one day" db with
    | (db', Return _) => (db', Return (st_success "Added."))
    | (db', Raise e) => (db', Return (add_failed e))
    | (db', Diverged) => (db', Diverged)
    end.

(** The [WHERE] clause of the "Delete selected day" statement. *)
Definition day_slot (scr : Screen) (dd : date) (ds : string) (s : Session) : bool :=
  (Db.subject_id s =? scr_subject_id scr)
  && null_eq (Db.topic_id s) (scr_topic_id scr)
  && col_eq (Db.batch_year s) (scr_batch_year scr)
  && col_eq (semester s) (scr_sem_choice scr)
  && null_eq (Db.branch_id s) (scr_branch_id scr)
  && (session_date s =? dd)
  && lower_eq (slot s) (Text.lower ds).

(** The handler of "Delete selected day"; the page offers the dates of the
    sessions it shows. *)
Definition delete_one_day (scr : Screen) (dd : date) (ds : string) (db : Db.t) : Db.t :=
  if scr_sd scr >? scr_ed scr then db
  else delete_sessions (day_slot scr dd ds) db.

(** [UPDATE subject_sessions SET semester=? WHERE p] *)
Definition set_semester (sem : Z) (s : Session) : Session :=
  {| subject_id := Db.subject_id s;
     topic_id := Db.topic_id s;
     session_date := session_date s;
     slot := slot s;
     kind := kind s;
     lectures := lectures s;
     studios := studios s;
     lecture_notes := lecture_notes s;
     studio_notes := studio_notes s;
     assignment_id := assignment_id s;
     due_date := due_date s;
     completed := completed s;
     degree_id := degree_id s;
     batch_year := Db.batch_year s;
     semester := Some sem;
     branch_id := Db.branch_id s;
     branch_head_faculty_id := branch_head_faculty_id s |}.

Definition update_semester (p : Session -> bool) (sem : Z) (db : Db.t) : Db.t :=
  {| catalog := catalog db;
     subject_sessions :=
       map (fun x => if p (snd x) then (fst x, set_semester sem (snd x)) else x)
           (subject_sessions db);
     sessions_seq := sessions_seq db;
     notifications := notifications db |}.

(** [semester IS NULL OR semester<=0] *)
Definition legacy_semester (s : Session) : bool :=
  match semester s with
  | None => true
  | Some v => v <=? 0
  end.

(** The [WHERE] clause of the "Repair" statement. *)
Definition to_repair (scr : Screen) (s : Session) : bool :=
  (Db.subject_id s =? scr_subject_id scr)
  && null_eq (Db.topic_id s) (scr_topic_id scr)
  && col_eq (Db.batch_year s) (scr_batch_year scr)
  && null_eq (Db.branch_id s) (scr_branch_id scr)
  && legacy_semester s.

(** The handler of "Repair legacy semester values". *)
Definition repair_semesters (scr : Screen) (db : Db.t) : Db.t :=
  if scr_sd scr >? scr_ed scr then db
  else update_semester (to_repair scr) (scr_sem_choice scr) db.

End ScheduleRest.

(** ** More of [screens/schedule - Copy (3).py] *)

Module ScheduleCopy3Rest.

Import ScheduleCopy3.

(** [_abs_sems_for_year] *)
Definition _abs_sems_for_year (year max_sem : Z) : list Z :=
  let y := year in
  let s1 := 2 * (y - 1) + 1 in
  let s2 := 2 * (y - 1) + 2 in
  List.filter (fun s => s <=? max_sem) [s1; s2].

(** [_delete_sessions] *)
Definition _delete_sessions (subject_id : Z) (start end_ : date) (db : Db.t) : Db.t :=
  delete_sessions (fun s => (Db.subject_id s =? subject_id)
                            && between (session_date s) start end_) db.

(** The handler of "Repair legacy semesters"; [render] returns before it
    when the end date is before the start date. *)
Definition repair_semesters (sem_choice subject_id : Z) (sd ed : date) (db : Db.t) : Db.t :=
  if ed <? sd then db
  else
    ScheduleRest.update_semester
      (fun s => (Db.subject_id s =? subject_id) && between (session_date s) sd ed)
      sem_choice db.

End ScheduleCopy3Rest.

(** ** More fixtures *)

Module FixturesRest.

Import Fixtures.

(** The schedule screen over the six days from Saturday 9999-12-25 to
    Thursday 9999-12-30, one week selected. *)
Definition last_week : Schedule.Screen :=
  {| Schedule.scr_subject_id := 1;
     Schedule.scr_topic_id := None;
     Schedule.scr_degree_id := 1;
     Schedule.scr_batch_year := 2024;
     Schedule.scr_sem_choice := 1;
     Schedule.scr_branch_id := Some 1;
     Schedule.scr_sd := MAXORD - 6;
     Schedule.scr_ed := MAXORD - 1;
     Schedule.scr_pick_weeks_count := 1 |}.

(** Week 2 gets Tuesday and Thursday. *)
Definition week_two_days : gmap Z (list string) := {[ 2 := ["Tue"; "Thu"] ]}.

(** The row of subject 1 for Monday 2024-01-01, morning, as the editor
    builds it when its Assignment column holds 5. *)
Definition assigned_row : Row :=
  {| r_subject_id := 1;
     r_topic_id := None;
     r_session_date := jan01;
     r_slot := "morning";
     r_kind := "lecture";
     r_lectures := 1;
     r_studios := 0;
     r_lecture_notes := "";
     r_studio_notes := "";
     r_assignment_id := Some 5;
     r_due_date := None;
     r_completed := "";
     r_degree_id := Some 1 |}.

(** The same row with no assignment and [2^63] lectures, as an imported
    file can give them. *)
Definition huge_row : Row :=
  {| r_subject_id := 1;
     r_topic_id := None;
     r_session_date := jan01;
     r_slot := "morning";
     r_kind := "lecture";
     r_lectures := 9223372036854775808;
     r_studios := 0;
     r_lecture_notes := "";
     r_studio_notes := "";
     r_assignment_id := None;
     r_due_date := None;
     r_completed := "";
     r_degree_id := Some 1 |}.

(** A session of subject 1 stored before [semester] was stamped. *)
Definition legacy_session : Session :=
  {| subject_id := 1;
     topic_id := None;
     session_date := jan01;
     slot := "morning";
     kind := "lecture";
     lectures := 1;
     studios := 0;
     lecture_notes := "";
     studio_notes := "";
     assignment_id := None;
     due_date := None;
     completed := "";
     degree_id := Some 1;
     batch_year := Some 2024;
     semester := None;
     branch_id := Some 1;
     branch_head_faculty_id := None |}.

Definition legacy_db : Db.t :=
  {| catalog := empty_catalog;
     subject_sessions := [(1, legacy_session)];
     sessions_seq := 1;
     notifications := [] |}.

End FixturesRest.

(* ================================================================== *)
(** * Theorems *)
(* ================================================================== *)

Example weekday_2024_01_01 : PyDate.mk 2024 1 1 = Return 738886 /\ weekday 738886 = 0.
Proof. split; reflexivity. Qed.

Example maxord_is_9999_12_31 : PyDate.mk 9999 12 31 = Return MAXORD.
Proof. reflexivity. Qed.

(** ** The enumerators of [core/scheduler.py] *)

Section Enumerators.

Import Scheduler.

Lemma add_days_ok d n :
  MINORD <= d + n <= MAXORD -> add_days d n = Return (d + n).
Proof.
  intros H. unfold add_days, in_range.
  destruct (Z.leb_spec MINORD (d + n)); [|lia].
  destruct (Z.leb_spec (d + n) MAXORD); [reflexivity|lia].
Qed.

Lemma add_days_overflow d n :
  MAXORD < d + n -> add_days d n = @Raise date OverflowError.
Proof.
  intros H. unfold add_days, in_range.
  destruct (Z.leb_spec (d + n) MAXORD); [lia|].
  now rewrite andb_false_r.
Qed.

Lemma in_days_from x d n :
  In x (days_from d n) <-> d <= x < d + Z.of_nat n.
Proof.
  revert d. induction n as [|n IH]; intros d; simpl days_from.
  - simpl. lia.
  - simpl In. rewrite IH. lia.
Qed.

Lemma days_from_sorted d n : StronglySorted Z.lt (days_from d n).
Proof.
  revert d. induction n as [|n IH]; intros d; simpl; constructor.
  - apply IH.
  - apply List.Forall_forall. intros x Hx. apply in_days_from in Hx. lia.
Qed.

Lemma filter_sorted (f : date -> bool) l :
  StronglySorted Z.lt l -> StronglySorted Z.lt (List.filter f l).
Proof.
  induction 1 as [|a l Hs IH Ha]; simpl; [constructor|].
  destruct (f a); [|assumption].
  constructor; [assumption|].
  apply List.Forall_forall. intros x Hx. apply filter_In in Hx.
  rewrite List.Forall_forall in Ha. now apply Ha.
Qed.

Lemma sorted_lt_NoDup (l : list Z) : StronglySorted Z.lt l -> List.NoDup l.
Proof.
  induction 1 as [|a l Hs IH Ha]; constructor; [|assumption].
  intros Hin. rewrite List.Forall_forall in Ha. specialize (Ha a Hin). lia.
Qed.

(** The loop, started at day [d] with [n] days left before [end_ + 1],
    appends the kept days of that range and returns. *)
Lemma simple_loop_run wd holi end_ :
  end_ < MAXORD ->
  forall n fuel d days,
    MINORD <= d -> d + Z.of_nat n = end_ + 1 -> (n < fuel)%nat ->
    simple_loop fuel end_ wd holi d days
    = Return (days ++ List.filter (keep wd holi) (days_from d n)).
Proof.
  intros Hend. induction n as [|n IH]; intros fuel d days Hd Hn Hf.
  - destruct fuel as [|fuel]; [lia|]. simpl.
    destruct (Z.leb_spec d end_); [lia|]. now rewrite app_nil_r.
  - destruct fuel as [|fuel]; [lia|]. simpl simple_loop.
    destruct (Z.leb_spec d end_); [|lia].
    rewrite add_days_ok by (unfold MINORD in *; lia). simpl obind.
    rewrite IH by lia. simpl days_from. simpl List.filter.
    destruct (keep wd holi d); [|reflexivity].
    now rewrite <- app_assoc.
Qed.

Lemma keep_spec (W H : list Z) d :
  keep (list_to_set W) (_normalize_holidays H) d = true
  <-> In (weekday d) W /\ ~ In d H.
Proof.
  unfold keep, _normalize_holidays.
  rewrite andb_true_iff, !bool_decide_eq_true.
  rewrite !elem_of_list_to_set, !list_elem_of_In. reflexivity.
Qed.

(** The loop with an accumulator is the loop from scratch, appended. *)
Lemma simple_loop_acc wd holi end_ fuel d days0 :
  simple_loop fuel end_ wd holi d days0
  = match simple_loop fuel end_ wd holi d [] with
    | Return days => Return (days0 ++ days)
    | Raise e => Raise e
    | Diverged => Diverged
    end.
Proof.
  revert d days0. induction fuel as [|fuel IH]; intros d days0; simpl; [reflexivity|].
  destruct (d <=? end_); [|now rewrite app_nil_r].
  destruct (add_days d 1) as [d'| |]; simpl; try reflexivity.
  rewrite IH. rewrite (IH d' (if keep wd holi d then [d] else [])).
  destruct (simple_loop fuel end_ wd holi d' []); try reflexivity.
  destruct (keep wd holi d); simpl; [now rewrite <- app_assoc|reflexivity].
Qed.

Lemma alternating_loop_run start a_set b_set holi end_ :
  end_ < MAXORD ->
  forall n fuel d out,
    MINORD <= d -> d + Z.of_nat n = end_ + 1 -> (n < fuel)%nat ->
    alternating_loop fuel start end_ a_set b_set holi d out
    = Return (out ++ List.filter (keep_alt start a_set b_set holi) (days_from d n)).
Proof.
  intros Hend. induction n as [|n IH]; intros fuel d out Hd Hn Hf.
  - destruct fuel as [|fuel]; [lia|]. simpl.
    destruct (Z.leb_spec d end_); [lia|]. now rewrite app_nil_r.
  - destruct fuel as [|fuel]; [lia|]. simpl alternating_loop.
    destruct (Z.leb_spec d end_); [|lia].
    rewrite add_days_ok by (unfold MINORD in *; lia). simpl obind.
    rewrite IH by lia. simpl days_from. simpl List.filter.
    unfold keep_alt at 2.
    destruct (keep _ holi d); [|reflexivity].
    now rewrite <- app_assoc.
Qed.

Lemma mod2_even z : (z mod 2 =? 0) = Z.even z.
Proof. rewrite Zmod_even. now destruct (Z.even z). Qed.

Lemma filter_nil_of_none {A} (f : A -> bool) l :
  (forall x, In x l -> f x = false) -> List.filter f l = [].
Proof.
  induction l as [|a l IH]; intros Hf; simpl; [reflexivity|].
  rewrite (Hf a) by now left. apply IH. intros x Hx. apply Hf. now right.
Qed.

(** With [end_] the last representable day, the step after it raises. *)
Lemma simple_loop_overflow wd holi :
  forall n fuel d days,
    MINORD <= d -> d + Z.of_nat n = MAXORD -> (n < fuel)%nat ->
    simple_loop fuel MAXORD wd holi d days = Raise OverflowError.
Proof.
  induction n as [|n IH]; intros fuel d days Hd Hn Hf.
  - destruct fuel as [|fuel]; [lia|]. simpl.
    destruct (Z.leb_spec d MAXORD); [|lia].
    rewrite add_days_overflow by lia. reflexivity.
  - destruct fuel as [|fuel]; [lia|]. simpl simple_loop.
    destruct (Z.leb_spec d MAXORD); [|lia].
    rewrite add_days_ok by (unfold MINORD in *; lia). simpl obind.
    apply IH; lia.
Qed.

Lemma alternating_loop_overflow start a_set b_set holi :
  forall n fuel d out,
    MINORD <= d -> d + Z.of_nat n = MAXORD -> (n < fuel)%nat ->
    alternating_loop fuel start MAXORD a_set b_set holi d out = Raise OverflowError.
Proof.
  induction n as [|n IH]; intros fuel d out Hd Hn Hf.
  - destruct fuel as [|fuel]; [lia|]. simpl.
    destruct (Z.leb_spec d MAXORD); [|lia].
    rewrite add_days_overflow by lia. reflexivity.
  - destruct fuel as [|fuel]; [lia|]. simpl alternating_loop.
    destruct (Z.leb_spec d MAXORD); [|lia].
    rewrite add_days_ok by (unfold MINORD in *; lia). simpl obind.
    apply IH; lia.
Qed.

(** Every range that ends on 9999-12-31 makes both enumerators raise. *)
Lemma enumerators_raise_at_last_day start W A B H :
  valid start ->
  generate_simple_pattern start MAXORD W H = Raise OverflowError
  /\ generate_alternating_pattern start MAXORD A B H = Raise OverflowError.
Proof.
  intros [Hlo Hhi]. unfold generate_simple_pattern, generate_alternating_pattern.
  destruct (Z.gtb_spec start MAXORD) as [Hgt|_]; [lia|]. split.
  - apply (simple_loop_overflow _ _ (Z.to_nat (MAXORD - start)));
      unfold span_fuel; lia.
  - apply (alternating_loop_overflow _ _ _ _ (Z.to_nat (MAXORD - start)));
      unfold span_fuel; lia.
Qed.

(** The budget [span_fuel d end_] is enough for the loops started at [d]:
    they return or raise. *)
Lemma simple_loop_total wd holi end_ fuel :
  forall d days,
    (Z.to_nat (end_ - d + 1) < fuel)%nat ->
    simple_loop fuel end_ wd holi d days <> Diverged.
Proof.
  induction fuel as [|fuel IH]; intros d days Hf; [lia|]. simpl.
  destruct (Z.leb_spec d end_); [|discriminate].
  unfold add_days. destruct (in_range (d + 1)); simpl; [|discriminate].
  apply IH. lia.
Qed.

Lemma alternating_loop_total start a_set b_set holi end_ fuel :
  forall d out,
    (Z.to_nat (end_ - d + 1) < fuel)%nat ->
    alternating_loop fuel start end_ a_set b_set holi d out <> Diverged.
Proof.
  induction fuel as [|fuel IH]; intros d out Hf; [lia|]. simpl.
  destruct (Z.leb_spec d end_); [|discriminate].
  unfold add_days. destruct (in_range (d + 1)); simpl; [|discriminate].
  apply IH. lia.
Qed.

(** The enumerators of [core/scheduler.py] always return or raise. *)
Lemma enumerators_total start end_ weeks_tail W A B H :
  generate_simple_pattern start end_ W H <> Diverged
  /\ generate_alternating_pattern start end_ A B H <> Diverged
  /\ backfill_last_weeks start end_ weeks_tail W H <> Diverged.
Proof.
  unfold generate_simple_pattern, generate_alternating_pattern, backfill_last_weeks.
  split; [|split].
  - destruct (start >? end_); [discriminate|].
    apply simple_loop_total. unfold span_fuel. lia.
  - destruct (start >? end_); [discriminate|].
    apply alternating_loop_total. unfold span_fuel. lia.
  - destruct ((start >? end_) || (weeks_tail <=? 0)); [discriminate|].
    unfold add_days. destruct (in_range _); cbn [obind]; [|discriminate].
    apply simple_loop_total. unfold span_fuel. lia.
Qed.

End Enumerators.

(** The simple enumerator below the last representable day.  For dates
    [start] and [end_] with [end_] before 9999-12-31,
    [generate_simple_pattern] returns exactly the days
    of [start..end_] whose weekday is in [W] and that are not in [H], in
    strictly ascending order (hence without duplicates); the result is
    empty when [start > end_] or [W] is empty. *)
Theorem generate_simple_pattern_exact (start end_ : date) (W H : list Z) :
  valid start -> valid end_ -> end_ < MAXORD ->
  exists out,
    Scheduler.generate_simple_pattern start end_ W H = Return out
    /\ (forall d, In d out <-> start <= d <= end_ /\ In (weekday d) W /\ ~ In d H)
    /\ StronglySorted Z.lt out
    /\ List.NoDup out
    /\ (start > end_ \/ W = [] -> out = []).
Proof.
  intros [Hs _] _ Hend. unfold Scheduler.generate_simple_pattern.
  destruct (Z.gtb_spec start end_) as [Hgt|Hle].
  - exists []. split; [reflexivity|].
    split; [intros d; simpl; split; [tauto|lia]|].
    split; [apply SSorted_nil|]. split; [apply List.NoDup_nil|]. reflexivity.
  - set (n := Z.to_nat (end_ - start + 1)).
    assert (Hn : Z.of_nat n = end_ - start + 1) by lia.
    rewrite (simple_loop_run _ _ _ Hend n) by (unfold Scheduler.span_fuel; lia).
    simpl app. eexists. split; [reflexivity|].
    assert (Hmem : forall d,
               In d (List.filter (Scheduler.keep (list_to_set W) (Scheduler._normalize_holidays H))
                                 (Scheduler.days_from start n))
               <-> start <= d <= end_ /\ In (weekday d) W /\ ~ In d H).
    { intros d. rewrite filter_In, in_days_from, keep_spec, Hn. intuition lia. }
    split; [exact Hmem|].
    assert (Hsorted := filter_sorted
              (Scheduler.keep (list_to_set W) (Scheduler._normalize_holidays H)) _
              (days_from_sorted start n)).
    split; [exact Hsorted|]. split; [now apply sorted_lt_NoDup|].
    intros [Hgt|HW]; [lia|]. subst W.
    apply filter_nil_of_none. intros x _.
    destruct (Scheduler.keep _ _ x) eqn:E; [|reflexivity].
    apply keep_spec in E. simpl in E. tauto.
Qed.

Lemma generate_simple_pattern_exact_witness :
  valid 738886 /\ valid 738899 /\ 738899 < MAXORD /\
  exists out,
    Scheduler.generate_simple_pattern 738886 738899 [0; 2] [738888] = Return out
    /\ (forall d, In d out <-> 738886 <= d <= 738899 /\ In (weekday d) [0; 2] /\ ~ In d [738888])
    /\ StronglySorted Z.lt out
    /\ List.NoDup out
    /\ (738886 > 738899 \/ [0; 2] = [] -> out = []).
Proof.
  assert (V1 : valid 738886) by (unfold valid, MINORD, MAXORD; lia).
  assert (V2 : valid 738899) by (unfold valid, MINORD, MAXORD; lia).
  assert (V3 : 738899 < MAXORD) by (unfold MAXORD; lia).
  split; [exact V1|]. split; [exact V2|]. split; [exact V3|].
  exact (generate_simple_pattern_exact 738886 738899 [0; 2] [738888] V1 V2 V3).
Defined.

(** On 2024-01-01 (a Monday) to 2024-01-14 with Monday and Wednesday
    selected and Wednesday 2024-01-03 a holiday. *)
Example generate_simple_pattern_two_weeks :
  Scheduler.generate_simple_pattern 738886 738899 [0; 2] [738888]
  = Return [738886; 738893; 738895].
Proof. vm_compute. reflexivity. Qed.

(** C1 at [start = end_ = 9999-12-31] (a Friday) with Friday selected:
    the day is to be returned; the loop keeps it and then raises
    [OverflowError] on [d += one], so nothing is returned. *)
Lemma generate_simple_pattern_last_day :
  valid MAXORD /\ MAXORD <= MAXORD /\ weekday MAXORD = 4
  /\ Scheduler.generate_simple_pattern MAXORD MAXORD [4] [] = Raise OverflowError
  /\ ~ exists out,
        Scheduler.generate_simple_pattern MAXORD MAXORD [4] [] = Return out
        /\ (forall d, In d out <-> MAXORD <= d <= MAXORD /\ In (weekday d) [4] /\ ~ In d []).
Proof.
  assert (E : Scheduler.generate_simple_pattern MAXORD MAXORD [4] [] = Raise OverflowError)
    by (vm_compute; reflexivity).
  split; [unfold valid, MINORD, MAXORD; lia|].
  split; [lia|]. split; [reflexivity|]. split; [exact E|].
  intros [out [Hout _]]. rewrite E in Hout. discriminate.
Qed.

(** The alternating enumerator below the last representable day.  For
    dates [start] and [end_] with [end_] before 9999-12-31,
    [generate_alternating_pattern] returns a list that
    contains a day [d] exactly when [d] lies in [start..end_], is not a
    holiday, and its weekday is in [A] when the week index
    [(d - start) / 7] is even and in [B] when it is odd. *)
Theorem generate_alternating_pattern_parity (start end_ : date) (A B H : list Z) :
  valid start -> valid end_ -> end_ < MAXORD ->
  exists out,
    Scheduler.generate_alternating_pattern start end_ A B H = Return out
    /\ forall d,
        In d out <->
        start <= d <= end_ /\ ~ In d H
        /\ In (weekday d) (if Z.even ((d - start) / 7) then A else B).
Proof.
  intros [Hs _] _ Hend. unfold Scheduler.generate_alternating_pattern.
  destruct (Z.gtb_spec start end_) as [Hgt|Hle].
  - exists []. split; [reflexivity|]. intros d. simpl. split; [tauto|lia].
  - set (n := Z.to_nat (end_ - start + 1)).
    assert (Hn : Z.of_nat n = end_ - start + 1) by lia.
    rewrite (alternating_loop_run _ _ _ _ _ Hend n) by (unfold Scheduler.span_fuel; lia).
    simpl app. eexists. split; [reflexivity|].
    intros d. rewrite filter_In, in_days_from, Hn. unfold Scheduler.keep_alt, days_between.
    rewrite mod2_even.
    destruct (Z.even ((d - start) / 7)); rewrite keep_spec; intuition lia.
Qed.

(** C9 at [start = end_ = 9999-12-31], week 0, with Friday in [A]: the
    day is to be included; the loop raises [OverflowError] on [d += one]
    and returns nothing. *)
Lemma generate_alternating_pattern_last_day :
  valid MAXORD /\ weekday MAXORD = 4 /\ Z.even ((MAXORD - MAXORD) / 7) = true
  /\ Scheduler.generate_alternating_pattern MAXORD MAXORD [4] [] [] = Raise OverflowError
  /\ ~ exists out,
        Scheduler.generate_alternating_pattern MAXORD MAXORD [4] [] [] = Return out
        /\ In MAXORD out.
Proof.
  assert (E : Scheduler.generate_alternating_pattern MAXORD MAXORD [4] [] []
              = Raise OverflowError) by (vm_compute; reflexivity).
  split; [unfold valid, MINORD, MAXORD; lia|].
  split; [reflexivity|]. split; [reflexivity|]. split; [exact E|].
  intros [out [Hout _]]. rewrite E in Hout. discriminate.
Qed.

Lemma generate_alternating_pattern_parity_witness :
  valid 738886 /\ valid 738899 /\ 738899 < MAXORD /\
  exists out,
    Scheduler.generate_alternating_pattern 738886 738899 [0; 3] [1; 4] [738889] = Return out
    /\ forall d,
        In d out <->
        738886 <= d <= 738899 /\ ~ In d [738889]
        /\ In (weekday d) (if Z.even ((d - 738886) / 7) then [0; 3] else [1; 4]).
Proof.
  assert (V1 : valid 738886) by (unfold valid, MINORD, MAXORD; lia).
  assert (V2 : valid 738899) by (unfold valid, MINORD, MAXORD; lia).
  assert (V3 : 738899 < MAXORD) by (unfold MAXORD; lia).
  split; [exact V1|]. split; [exact V2|]. split; [exact V3|].
  exact (generate_alternating_pattern_parity 738886 738899 [0; 3] [1; 4] [738889] V1 V2 V3).
Defined.

(** Sets A = (Mon, Thu) and B = (Tue, Fri) from Monday 2024-01-01 with
    Thursday 2024-01-04 a holiday: day 0 is kept, day 8 (Tuesday of week 1)
    is kept, day 11 (Friday of week 1) is kept. *)
Example generate_alternating_pattern_two_weeks :
  Scheduler.generate_alternating_pattern 738886 738899 [0; 3] [1; 4] [738889]
  = Return [738886; 738894; 738897].
Proof. vm_compute. reflexivity. Qed.

(** ** Tables and keys *)

Section Tables.

Lemma lower_char_idem c : Text.lower_char (Text.lower_char c) = Text.lower_char c.
Proof. destruct c as [[] [] [] [] [] [] [] []]; reflexivity. Qed.

Lemma lower_idem s : Text.lower (Text.lower s) = Text.lower s.
Proof. induction s as [|c s IH]; simpl; [reflexivity|]. now rewrite lower_char_idem, IH. Qed.

Lemma col_eq_true col v : col_eq col v = true <-> col = Some v.
Proof.
  unfold col_eq. destruct col as [c|]; [|split; discriminate].
  rewrite Z.eqb_eq. split; congruence.
Qed.

Lemma lower_eq_true a b : lower_eq a b = true <-> Text.lower a = Text.lower b.
Proof. unfold lower_eq. apply String.eqb_eq. Qed.

Lemma between_true d lo hi : between d lo hi = true <-> lo <= d <= hi.
Proof. unfold between. rewrite andb_true_iff, !Z.leb_le. tauto. Qed.

Lemma sessions_delete p db :
  sessions (delete_sessions p db) = List.filter (fun s => negb (p s)) (sessions db).
Proof.
  unfold sessions, delete_sessions. simpl.
  induction (subject_sessions db) as [|[i s] l IH]; simpl; [reflexivity|].
  destruct (p s); simpl; now rewrite IH.
Qed.

Lemma map_snd_number_from k rows : map snd (number_from k rows) = rows.
Proof. revert k. induction rows as [|r rows IH]; intros k; simpl; [reflexivity|]. now rewrite IH. Qed.

Lemma length_number_from k rows : length (number_from k rows) = length rows.
Proof. revert k. induction rows as [|r rows IH]; intros k; simpl; [reflexivity|]. now rewrite IH. Qed.

Lemma sessions_insert rows db :
  sessions (insert_sessions rows db) = sessions db ++ rows.
Proof.
  unfold sessions, insert_sessions. destruct rows as [|r rows].
  - now rewrite app_nil_r.
  - cbn [subject_sessions]. now rewrite map_app, map_snd_number_from.
Qed.

Lemma catalog_insert rows db : catalog (insert_sessions rows db) = catalog db.
Proof. unfold insert_sessions. now destruct rows. Qed.


Lemma filter_filter_both {A} (f g : A -> bool) l :
  List.filter f (List.filter g l) = List.filter (fun x => g x && f x) l.
Proof.
  induction l as [|a l IH]; simpl; [reflexivity|].
  destruct (g a); simpl; [destruct (f a)|]; now rewrite IH.
Qed.

Lemma filter_ext_in' {A} (f g : A -> bool) l :
  (forall x, In x l -> f x = g x) -> List.filter f l = List.filter g l.
Proof.
  induction l as [|a l IH]; intros H; simpl; [reflexivity|].
  rewrite (H a) by now left. rewrite IH; [reflexivity|]. intros x Hx. apply H. now right.
Qed.

Lemma filter_all {A} (l : list A) : List.filter (fun _ => true) l = l.
Proof. induction l as [|a l IH]; simpl; [reflexivity|]. now rewrite IH. Qed.

Lemma catalog_delete_fold {P : Type} (f : P -> Session -> bool) ps db :
  catalog (fold_left (fun db p => delete_sessions (f p) db) ps db) = catalog db
  /\ notifications (fold_left (fun db p => delete_sessions (f p) db) ps db) = notifications db
  /\ sessions_seq (fold_left (fun db p => delete_sessions (f p) db) ps db) = sessions_seq db.
Proof.
  revert db. induction ps as [|p ps IH]; intros db; simpl; [tauto|].
  destruct (IH (delete_sessions (f p) db)) as (-> & -> & ->). tauto.
Qed.


End Tables.

(** ** [_merge_and_save] of [screens/schedule.py] *)

Section MergeAndSave.

Import Schedule.

Lemma collides_key by_ sem br r s :
  collides by_ sem br (stamp by_ sem br r) s
  = bool_decide (session_key s = session_key (to_session (stamp by_ sem br r))).
Proof.
  apply Bool.eq_iff_eq_true. rewrite bool_decide_eq_true.
  unfold collides, session_key, to_session, stamp, null_eq. cbn.
  rewrite !andb_true_iff, !Z.eqb_eq, !col_eq_true, lower_eq_true.
  split.
  - intros [[[[[[-> ->] ->] ->] ->] ->] ->]. reflexivity.
  - intros H. injection H as -> -> -> -> -> -> ->. tauto.
Qed.

Lemma sessions_delete_collisions by_ sem br rows db :
  sessions (delete_collisions by_ sem br (map (stamp by_ sem br) rows) db)
  = List.filter (fun s => negb (deleted_by (map (stamp by_ sem br) rows) s)) (sessions db).
Proof.
  unfold delete_collisions. revert db.
  induction rows as [|r rows IH]; intros db; simpl.
  - symmetry. apply filter_all.
  - rewrite IH, sessions_delete, filter_filter_both.
    apply filter_ext_in'. intros s _.
    rewrite collides_key. unfold deleted_by at 2. simpl.
    now rewrite negb_orb.
Qed.

Lemma notify_faculty_frame ids sid msg db :
  catalog (_notify_faculty ids sid msg db) = catalog db
  /\ subject_sessions (_notify_faculty ids sid msg db) = subject_sessions db
  /\ sessions_seq (_notify_faculty ids sid msg db) = sessions_seq db.
Proof.
  unfold _notify_faculty.
  destruct (negb (notifications_table (catalog db))); [tauto|].
  destruct (notifications_seen_by (catalog db)); [|simpl; tauto].
  destruct (map _ (set_order ids)); simpl; tauto.
Qed.

(** The shortfall check writes notifications only. *)
Lemma shortfall_check_frame sid sd ed ins by_ sem br label db :
  catalog (fst (shortfall_check sid sd ed ins by_ sem br label db)) = catalog db
  /\ subject_sessions (fst (shortfall_check sid sd ed ins by_ sem br label db))
     = subject_sessions db
  /\ sessions_seq (fst (shortfall_check sid sd ed ins by_ sem br label db)) = sessions_seq db.
Proof.
  unfold shortfall_check.
  destruct (_subject_targets db sid) as [reqL reqS].
  destruct (truthy reqL || truthy reqS); [|simpl; tauto].
  destruct (planned db sid by_ sem br sd ed) as [curL curS].
  destruct (truthy _ || truthy _); [|simpl; tauto].
  destruct ins as [|p0 ins]; [simpl; tauto|].
  cbn [fst]. apply notify_faculty_frame.
Qed.

Lemma stamped_batch_map db sd ed rows by_ sem br :
  stamped_batch db sd ed rows by_ sem br
  = map (stamp by_ sem br)
        (List.filter (fun r => bool_decide (r_session_date r ∉
                                  (list_to_set (_holidays_between db sd ed) : gset Z))) rows).
Proof. reflexivity. Qed.

Lemma comprehension_tuples ins :
  comprehension session_tuple ins
  = if forallb (fun p => bool_decide (r_assignment_id (p_row p) = None)) ins
    then Return (map to_session ins) else Raise TypeError.
Proof.
  induction ins as [|p ins IH]; [reflexivity|].
  cbn [comprehension forallb map]. unfold session_tuple at 1.
  destruct (r_assignment_id (p_row p)) as [a|]; [reflexivity|].
  cbn [obind]. rewrite IH.
  rewrite bool_decide_eq_true_2 by reflexivity. cbn [andb].
  destruct (forallb _ ins); reflexivity.
Qed.

Lemma forallb_both {A} (f g : A -> bool) l :
  forallb (fun x => f x && g x) l = forallb f l && forallb g l.
Proof.
  induction l as [|x l IH]; [reflexivity|]. cbn [forallb]. rewrite IH.
  destruct (f x), (g x), (forallb f l), (forallb g l); reflexivity.
Qed.

Lemma forallb_of_map {A B} (f : B -> bool) (g : A -> B) l :
  forallb f (map g l) = forallb (fun x => f (g x)) l.
Proof.
  induction l as [|x l IH]; [reflexivity|]. cbn [map forallb]. now rewrite IH.
Qed.

(** [_save_sessions_bulk] stores the whole batch or nothing. *)
Lemma save_sessions_bulk_run ins db :
  _save_sessions_bulk ins db
  = if savable ins then (insert_sessions (map to_session ins) db, Return tt)
    else (db, Raise (save_error ins)).
Proof.
  unfold _save_sessions_bulk, savable, save_error. rewrite forallb_both.
  destruct ins as [|p ins]; [reflexivity|].
  rewrite comprehension_tuples.
  destruct (forallb _ (p :: ins)) eqn:E; cbn [andb]; [|reflexivity].
  unfold exec_many_insert. rewrite forallb_of_map.
  destruct (forallb _ (p :: ins)); reflexivity.
Qed.

(** A call on a non-empty batch: the collision deletes, the bulk save and,
    if that has not raised, the shortfall check. *)
Lemma merge_and_save_run sid sd ed rows by_ sem br bh label db :
  rows <> [] ->
  _merge_and_save sid sd ed rows by_ sem br bh label db
  = let ins := stamped_batch db sd ed rows by_ sem br in
    let del := delete_collisions by_ sem br ins db in
    if savable ins
    then shortfall_check sid sd ed ins by_ sem br label
                         (insert_sessions (map to_session ins) del)
    else (del, Raise (save_error ins)).
Proof.
  intros Hrows. unfold _merge_and_save. destruct rows as [|r0 rows]; [congruence|].
  cbv zeta. rewrite save_sessions_bulk_run.
  destruct (savable _); reflexivity.
Qed.

(** The session table after a call on a non-empty batch: the rows the
    collision deletes leave, then the stamped batch if it can be stored. *)
Lemma merge_and_save_sessions sid sd ed rows by_ sem br bh label db :
  rows <> [] ->
  sessions (fst (_merge_and_save sid sd ed rows by_ sem br bh label db))
  = List.filter (fun s => negb (deleted_by (stamped_batch db sd ed rows by_ sem br) s))
                (sessions db)
    ++ (if savable (stamped_batch db sd ed rows by_ sem br)
        then map to_session (stamped_batch db sd ed rows by_ sem br) else []).
Proof.
  intros Hrows. rewrite (merge_and_save_run _ _ _ _ _ _ _ _ _ _ Hrows). cbv zeta.
  set (ins := stamped_batch db sd ed rows by_ sem br).
  assert (Hdel : sessions (delete_collisions by_ sem br ins db)
                 = List.filter (fun s => negb (deleted_by ins s)) (sessions db)).
  { subst ins. rewrite stamped_batch_map. apply sessions_delete_collisions. }
  destruct (savable ins).
  - unfold sessions at 1.
    destruct (shortfall_check_frame sid sd ed ins by_ sem br label
                (insert_sessions (map to_session ins) (delete_collisions by_ sem br ins db)))
      as (_ & -> & _).
    fold (sessions (insert_sessions (map to_session ins)
                                    (delete_collisions by_ sem br ins db))).
    now rewrite sessions_insert, Hdel.
  - cbn [fst]. now rewrite Hdel, app_nil_r.
Qed.

Lemma merge_and_save_catalog sid sd ed rows by_ sem br bh label db :
  catalog (fst (_merge_and_save sid sd ed rows by_ sem br bh label db)) = catalog db.
Proof.
  destruct rows as [|r0 rows]; [reflexivity|].
  rewrite merge_and_save_run by discriminate. cbv zeta.
  set (ins := stamped_batch db sd ed (r0 :: rows) by_ sem br).
  destruct (savable ins).
  - destruct (shortfall_check_frame sid sd ed ins by_ sem br label
                (insert_sessions (map to_session ins) (delete_collisions by_ sem br ins db)))
      as (-> & _ & _).
    rewrite catalog_insert. apply catalog_delete_fold.
  - cbn [fst]. apply catalog_delete_fold.
Qed.

End MergeAndSave.

Lemma holidays_between_spec db sd ed (x : date) :
  x ∈ (list_to_set (Schedule._holidays_between db sd ed) : gset Z)
  <-> In x (holidays (catalog db)) /\ sd <= x <= ed.
Proof.
  unfold Schedule._holidays_between.
  rewrite elem_of_list_to_set, merge_sort_Permutation, list_elem_of_In, filter_In,
    between_true.
  reflexivity.
Qed.






(** ** Pattern generation in [screens/schedule.py] *)

Section PatternButtons.

Import Schedule.

(** With no weekday picked the loop appends nothing. *)
Lemma generate_loop_no_picks last holi mk fuel d rows0 rows :
  generate_loop fuel last ∅ holi mk d rows0 = Return rows -> rows = rows0.
Proof.
  revert d rows0. induction fuel as [|fuel IH]; intros d rows0; simpl; [discriminate|].
  destruct (d <=? last); [|congruence].
  replace (bool_decide (weekday d ∈ (∅ : gset Z))) with false
    by (symmetry; apply bool_decide_eq_false; set_solver).
  simpl. destruct (add_days d 1) as [d'| |]; simpl; try discriminate.
  apply IH.
Qed.

Lemma generate_simple_no_picks scr holi slot kind rows :
  _generate_simple scr holi [] slot kind = Return rows -> rows = [].
Proof.
  unfold _generate_simple.
  destruct (add_days (scr_sd scr) _) as [lim| |]; cbn [obind]; try discriminate.
  apply generate_loop_no_picks.
Qed.

(** The rows of the loop carry the dates of [Scheduler.simple_loop]. *)
Lemma generate_loop_dates last picks holi mk fuel d rows0 :
  generate_loop fuel last picks holi mk d rows0
  = match Scheduler.simple_loop fuel last picks holi d [] with
    | Return days => Return (rows0 ++ map mk days)
    | Raise e => Raise e
    | Diverged => Diverged
    end.
Proof.
  revert d rows0. induction fuel as [|fuel IH]; intros d rows0; simpl; [reflexivity|].
  destruct (d <=? last); [|now rewrite app_nil_r].
  destruct (add_days d 1) as [d'| |]; simpl; try reflexivity.
  rewrite IH. fold (Scheduler.keep picks holi d).
  destruct (Scheduler.keep picks holi d).
  - rewrite (simple_loop_acc _ _ _ _ _ [d]).
    destruct (Scheduler.simple_loop fuel last picks holi d' []); try reflexivity.
    simpl. now rewrite <- app_assoc.
  - reflexivity.
Qed.

(** The simple generator of the screen always returns or raises, and so
    does the button. *)
Lemma generate_simple_total scr holi wd slot kind :
  _generate_simple scr holi wd slot kind <> Diverged.
Proof.
  unfold _generate_simple, add_days.
  destruct (in_range _); cbn [obind]; [|discriminate].
  rewrite generate_loop_dates.
  destruct (Scheduler.simple_loop _ _ _ _ _ []) eqn:E; try discriminate.
  exfalso. revert E. apply simple_loop_total. unfold Scheduler.span_fuel. lia.
Qed.

End PatternButtons.

(** C10.  Both versions of [_merge_and_save] return at once on an empty
    batch: the database (sessions and notifications) is unchanged and no
    warning is shown.  The simple-pattern button with no weekday selected
    leaves the database unchanged. *)
Theorem merge_and_save_empty_batch
        (sid : Z) (sd ed : date) (by_ sem : Z) (br bh : option Z) (label : string)
        (scr : Schedule.Screen) (slot kind : string) (db : Db.t) :
  Schedule._merge_and_save sid sd ed [] by_ sem br bh label db = (db, Return tt)
  /\ ScheduleCopy3._merge_and_save sid sd ed [] by_ sem br bh label db = (db, [])
  /\ fst (Schedule.simple_go scr [] slot kind db) = db.
Proof.
  split; [reflexivity|]. split; [reflexivity|].
  unfold Schedule.simple_go. destruct (_ >? _); [reflexivity|].
  destruct (Schedule._generate_simple scr _ [] slot kind) as [rows| |] eqn:E;
    try reflexivity.
  apply generate_simple_no_picks in E. subst rows. reflexivity.
Qed.

(** ** Running the same generation twice *)

Section Idempotence.

Import Schedule.

Lemma stamped_batch_catalog d1 d2 sd ed rows by_ sem br :
  catalog d1 = catalog d2 ->
  stamped_batch d1 sd ed rows by_ sem br = stamped_batch d2 sd ed rows by_ sem br.
Proof. intros H. unfold stamped_batch, _holidays_between. now rewrite H. Qed.

(** A stamped row is removed by the collision delete issued for it. *)
Lemma deleted_by_self ins p : In p ins -> deleted_by ins (to_session p) = true.
Proof.
  intros Hp. unfold deleted_by. apply existsb_exists. exists p.
  split; [assumption|]. now apply bool_decide_eq_true.
Qed.

Lemma filter_idem {A} (f : A -> bool) l : List.filter f (List.filter f l) = List.filter f l.
Proof.
  rewrite filter_filter_both. apply filter_ext_in'. intros x _. now destruct (f x).
Qed.

Lemma merge_and_save_twice sid sd ed rows by_ sem br bh label db :
  let run := fun d => fst (_merge_and_save sid sd ed rows by_ sem br bh label d) in
  sessions (run (run db)) = sessions (run db).
Proof.
  intros run. destruct rows as [|r0 rows]; [reflexivity|].
  assert (Hne : r0 :: rows <> []) by discriminate.
  unfold run. rewrite (merge_and_save_sessions _ _ _ _ _ _ _ _ _ _ Hne).
  rewrite (stamped_batch_catalog _ db) by apply merge_and_save_catalog.
  rewrite (merge_and_save_sessions _ _ _ _ _ _ _ _ _ db Hne).
  set (ins := stamped_batch db sd ed (r0 :: rows) by_ sem br).
  rewrite List.filter_app, filter_idem.
  destruct (savable ins); [|cbn [List.filter]; now rewrite !app_nil_r].
  rewrite (filter_nil_of_none _ (map to_session ins)); [now rewrite app_nil_r|].
  intros s Hs. apply in_map_iff in Hs as [p [<- Hp]].
  now rewrite deleted_by_self.
Qed.

Lemma simple_go_catalog scr wd slot kind db :
  catalog (fst (simple_go scr wd slot kind db)) = catalog db.
Proof.
  unfold simple_go. destruct (_ >? _); [reflexivity|].
  destruct (_generate_simple scr _ wd slot kind); try reflexivity.
  apply merge_and_save_catalog.
Qed.

Lemma holidays_between_catalog d1 d2 sd ed :
  catalog d1 = catalog d2 -> _holidays_between d1 sd ed = _holidays_between d2 sd ed.
Proof. intros H. unfold _holidays_between. now rewrite H. Qed.

Lemma simple_go_twice scr wd slot kind db :
  let go := fun d => fst (simple_go scr wd slot kind d) in
  sessions (go (go db)) = sessions (go db).
Proof.
  intros go. subst go. cbv beta.
  assert (Hc := simple_go_catalog scr wd slot kind db).
  set (d1 := fst (simple_go scr wd slot kind db)) in *.
  unfold simple_go at 1.
  rewrite (holidays_between_catalog d1 db) by exact Hc.
  subst d1. unfold simple_go. destruct (_ >? _); [reflexivity|].
  destruct (_generate_simple scr _ wd slot kind) as [rows| |]; try reflexivity.
  apply merge_and_save_twice.
Qed.

Lemma length_sessions db : length (sessions db) = length (subject_sessions db).
Proof. unfold sessions. apply length_map. Qed.

End Idempotence.

(** C4.  Saving the same batch twice, and pressing the simple-pattern
    button twice with the same inputs, leaves the same sessions (the rows
    of [subject_sessions] apart from their [id]s, in table order) as doing
    it once; in particular the row count is the same. *)
Theorem pattern_generation_idempotent
        (sid : Z) (sd ed : date) (rows : list Row) (by_ sem : Z) (br bh : option Z)
        (label : string) (scr : Schedule.Screen) (wd : list string) (slot kind : string)
        (db : Db.t) :
  let run := fun d => fst (Schedule._merge_and_save sid sd ed rows by_ sem br bh label d) in
  let go := fun d => fst (Schedule.simple_go scr wd slot kind d) in
  sessions (run (run db)) = sessions (run db)
  /\ length (subject_sessions (run (run db))) = length (subject_sessions (run db))
  /\ sessions (go (go db)) = sessions (go db)
  /\ length (subject_sessions (go (go db))) = length (subject_sessions (go db)).
Proof.
  intros run go.
  assert (H1 := merge_and_save_twice sid sd ed rows by_ sem br bh label db).
  assert (H2 := simple_go_twice scr wd slot kind db).
  cbv zeta in H1, H2. fold run in H1. fold go in H2.
  split; [exact H1|]. split; [now rewrite <- !length_sessions, H1|].
  split; [exact H2|]. now rewrite <- !length_sessions, H2.
Qed.

(** ** One session per key *)

Section OnePerKey.

Import Schedule.

Lemma NoDup_map_filter {A B} (f : A -> B) (g : A -> bool) l :
  List.NoDup (map f l) -> List.NoDup (map f (List.filter g l)).
Proof.
  induction l as [|a l IH]; simpl; intros H; [constructor|].
  inversion H as [|x xs Hnin Hnd]; subst.
  destruct (g a); simpl; [|now apply IH].
  constructor; [|now apply IH].
  intros Hin. apply Hnin. apply in_map_iff in Hin as [y [Hy Hin]].
  apply filter_In in Hin as [Hin _]. apply in_map_iff. now exists y.
Qed.

Lemma NoDup_map_inj {A B} (g : A -> B) l :
  (forall x y, g x = g y -> x = y) -> List.NoDup l -> List.NoDup (map g l).
Proof.
  intros Hinj. induction 1 as [|a l Hnin Hnd IH]; simpl; constructor; [|assumption].
  intros Hin. apply in_map_iff in Hin as [y [Hy Hin]].
  apply Hinj in Hy. now subst y.
Qed.

Lemma session_key_stamp by_ sem br r :
  session_key (to_session (stamp by_ sem br r)) = stamped_key by_ sem br (row_key r).
Proof.
  unfold session_key, to_session, stamp, stamped_key, row_key. cbn.
  now rewrite lower_idem.
Qed.

Lemma stamped_key_inj by_ sem br k1 k2 :
  stamped_key by_ sem br k1 = stamped_key by_ sem br k2 -> k1 = k2.
Proof.
  destruct k1 as [[[a1 b1] c1] d1], k2 as [[[a2 b2] c2] d2]. unfold stamped_key.
  intros H. injection H as -> -> -> ->. reflexivity.
Qed.

Lemma deleted_by_false ins s :
  deleted_by ins s = false ->
  forall p, In p ins -> session_key s <> session_key (to_session p).
Proof.
  unfold deleted_by. intros H p Hp Heq.
  assert (existsb (fun p => bool_decide (session_key s = session_key (to_session p))) ins
          = true); [|congruence].
  apply existsb_exists. exists p. split; [assumption|]. now apply bool_decide_eq_true.
Qed.

(** One call keeps the keys of the stored sessions distinct when the batch
    has no two rows with the same [row_key]. *)
Lemma run_call_keeps_keys_distinct c db :
  List.NoDup (map session_key (sessions db)) ->
  List.NoDup (map row_key (call_rows c)) ->
  List.NoDup (map session_key (sessions (run_call c db))).
Proof.
  intros Hdb Hrows. unfold run_call.
  destruct (call_rows c) as [|r0 rows] eqn:E; [exact Hdb|].
  rewrite merge_and_save_sessions by discriminate.
  rewrite stamped_batch_map.
  set (kept := List.filter _ (r0 :: rows)).
  destruct (savable _); [|rewrite app_nil_r; now apply NoDup_map_filter].
  rewrite map_app. apply List.NoDup_app.
  - now apply NoDup_map_filter.
  - rewrite !map_map.
    rewrite (map_ext _ (fun r => stamped_key (call_batch_year c) (call_sem_abs c)
                                            (call_branch_id c) (row_key r)))
      by (intros r; apply session_key_stamp).
    rewrite <- (map_map row_key). apply NoDup_map_inj.
    + apply stamped_key_inj.
    + now apply NoDup_map_filter.
  - intros k Hk1 Hk2.
    apply in_map_iff in Hk1 as [s [<- Hs]]. apply filter_In in Hs as [_ Hs].
    apply negb_true_iff in Hs.
    apply in_map_iff in Hk2 as [s2 [Hk2 Hs2]].
    apply in_map_iff in Hs2 as [p [<- Hp]].
    symmetry in Hk2. exact (deleted_by_false _ _ Hs p Hp Hk2).
Qed.

End OnePerKey.

(** C3 (as the code has it).  Across any sequence of calls of
    [_merge_and_save] whose batches hold no two rows with the same subject,
    topic, date and lowercased slot, the stored sessions stay pairwise
    distinct on (subject, topic, batch year, semester, branch, date,
    lowercased slot), a [NULL] topic or branch counting as one value. *)
Theorem one_session_per_key (cs : list Schedule.Call) (db : Db.t) :
  List.NoDup (map Schedule.session_key (sessions db)) ->
  List.Forall (fun c => List.NoDup (map Schedule.row_key (Schedule.call_rows c))) cs ->
  List.NoDup (map Schedule.session_key (sessions (Schedule.run_calls cs db))).
Proof.
  intros Hdb Hcs. revert db Hdb. unfold Schedule.run_calls.
  induction Hcs as [|c cs Hc Hcs IH]; intros db Hdb; simpl; [exact Hdb|].
  apply IH. now apply run_call_keeps_keys_distinct.
Qed.

Lemma one_session_per_key_witness :
  List.NoDup (map Schedule.session_key (sessions Fixtures.empty_db))
  /\ List.Forall (fun c => List.NoDup (map Schedule.row_key (Schedule.call_rows c)))
                 [Fixtures.monday_call 1; Fixtures.monday_call 1]
  /\ List.NoDup (map Schedule.session_key
                     (sessions (Schedule.run_calls
                                  [Fixtures.monday_call 1; Fixtures.monday_call 1]
                                  Fixtures.empty_db))).
Proof.
  assert (H1 : List.NoDup (map Schedule.session_key (sessions Fixtures.empty_db)))
    by constructor.
  assert (H2 : List.Forall
                 (fun c => List.NoDup (map Schedule.row_key (Schedule.call_rows c)))
                 [Fixtures.monday_call 1; Fixtures.monday_call 1]).
  { repeat constructor; simpl; tauto. }
  split; [exact H1|]. split; [exact H2|].
  exact (one_session_per_key _ _ H1 H2).
Defined.

(** C3 as stated fails: from the empty table, the same Monday-morning
    session of subject 1 generated for branch 1 and then for branch 2
    leaves two rows with one (subject, topic, date, slot). *)
Lemma two_branches_two_sessions :
  exists s1 s2,
    sessions (Schedule.run_calls [Fixtures.monday_call 1; Fixtures.monday_call 2]
                                 Fixtures.empty_db) = [s1; s2]
    /\ Schedule.subject_topic_date_slot s1 = Schedule.subject_topic_date_slot s2.
Proof. vm_compute. eexists. eexists. split; reflexivity. Qed.

(** Generating the same session twice for one branch leaves one row. *)
Example same_branch_one_session :
  length (sessions (Schedule.run_calls [Fixtures.monday_call 1; Fixtures.monday_call 1]
                                       Fixtures.empty_db)) = 1%nat.
Proof. vm_compute. reflexivity. Qed.

(** ** Holidays *)

Section Holidays.

Import Scheduler.

(** Whatever the loop returns is ascending and made of kept days. *)
Lemma simple_loop_sound wd holi end_ fuel d days :
  simple_loop fuel end_ wd holi d [] = Return days ->
  StronglySorted Z.lt days
  /\ List.Forall (fun x => d <= x <= end_ /\ keep wd holi x = true) days.
Proof.
  revert d days. induction fuel as [|fuel IH]; intros d days; simpl; [discriminate|].
  destruct (Z.leb_spec d end_) as [Hle|Hgt].
  2:{ intros [= <-]. split; constructor. }
  unfold add_days. destruct (in_range (d + 1)); simpl; [|discriminate].
  rewrite simple_loop_acc.
  destruct (simple_loop fuel end_ wd holi (d + 1) []) as [l| |] eqn:E; try discriminate.
  intros [= <-]. destruct (IH _ _ E) as [Hs Hall].
  assert (Hall' : List.Forall (fun x => d <= x <= end_ /\ keep wd holi x = true) l).
  { eapply List.Forall_impl; [|exact Hall]. simpl. intros x [? ?]. split; [lia|assumption]. }
  destruct (keep wd holi d) eqn:Hk; simpl; [|now split].
  split.
  - constructor; [assumption|].
    eapply List.Forall_impl; [|exact Hall]. simpl. intros x [? _]. lia.
  - constructor; [split; [lia|assumption]|assumption].
Qed.






End Holidays.

Section HolidaysAndMerge.

Import Schedule.

Lemma on_window_holiday_spec db sd ed d :
  on_window_holiday db sd ed d = true
  <-> In d (holidays (catalog db)) /\ sd <= d <= ed.
Proof.
  unfold on_window_holiday. rewrite bool_decide_eq_true. apply holidays_between_spec.
Qed.







End HolidaysAndMerge.



(** ** The shortfall notice of [screens/schedule.py] *)

Section Shortfall.

Import Schedule.

Lemma truthy_max a b : truthy (Z.max 0 (a - b)) = (b <? a).
Proof.
  unfold truthy. destruct (Z.ltb_spec b a).
  - rewrite Z.max_r by lia. apply negb_true_iff, Z.eqb_neq. lia.
  - rewrite Z.max_l by lia. reflexivity.
Qed.








End Shortfall.


(** The shortfall check on subject 1 (AR101 Design, 10 lectures wanted)
    with the principal, faculty 9, to notify: six lectures saved. *)
Example shortfall_six_of_ten :
  notifications
    (fst (Schedule._merge_and_save 1 Fixtures.jan01 Fixtures.jan14
            (map (fun d => Fixtures.lecture_row 1 d "morning")
                 (Scheduler.days_from Fixtures.jan01 6))
            2024 1 None None "Pattern generate"
            (Fixtures.with_catalog (Fixtures.design_catalog [("Principal", 9)])
                                   Fixtures.empty_db)))
  = [{| n_subject_id := 1;
        n_message := "[Pattern generate] Targets short in AR101 Design (batch 2024, sem 1): Lectures short 4, Studios short 0.";
        seen_by_faculty_id := Some 9 |}].
Proof. vm_compute. reflexivity. Qed.

(** Ten lectures saved: the target is met and nothing is written. *)
Example shortfall_ten_of_ten :
  notifications
    (fst (Schedule._merge_and_save 1 Fixtures.jan01 Fixtures.jan14
            (map (fun d => Fixtures.lecture_row 1 d "morning")
                 (Scheduler.days_from Fixtures.jan01 10))
            2024 1 None None "Pattern generate"
            (Fixtures.with_catalog (Fixtures.design_catalog [("Principal", 9)])
                                   Fixtures.empty_db)))
  = [].
Proof. vm_compute. reflexivity. Qed.



(** ** The clash check of [screens/schedule - Copy (3).py] *)

Section Clashes.

Import ScheduleCopy3.

Lemma mem_true x l : mem x l = true <-> In x l.
Proof.
  unfold mem. rewrite existsb_exists. split.
  - intros [y [Hy Hxy]]. apply Z.eqb_eq in Hxy. now subst y.
  - intros H. exists x. split; [assumption|apply Z.eqb_refl].
Qed.

Lemma faculty_ids_for_subject_spec db sid f :
  In f (_faculty_ids_for_subject db sid) <-> associated db sid f.
Proof.
  unfold _faculty_ids_for_subject, associated, sorted_set.
  rewrite <- list_elem_of_In, merge_sort_Permutation, elem_of_remove_dups,
    elem_of_app, elem_of_remove_dups, !list_elem_of_In, in_map_iff.
  split.
  - intros [H|[m [Hm Hin]]]; [now left|]. right.
    apply filter_In in Hin as [Hin Heq]. apply Z.eqb_eq in Heq. now exists m.
  - intros [H|[m (Hin & Hs & Hf)]]; [now left|]. right.
    exists m. split; [assumption|]. apply filter_In. split; [assumption|].
    now apply Z.eqb_eq.
Qed.

Lemma hit_true d slot sid s e ss :
  hit d slot sid s e ss = true
  <-> session_date ss = d /\ Text.lower (Db.slot ss) = Text.lower slot
      /\ Db.subject_id ss <> sid /\ s <= session_date ss <= e.
Proof.
  unfold hit.
  rewrite !andb_true_iff, Z.eqb_eq, lower_eq_true, negb_true_iff, Z.eqb_neq, between_true.
  tauto.
Qed.

Lemma in_via_map db ids d slot sid s e c :
  In c (via_map db ids d slot sid s e)
  <-> exists ss m f,
      In ss (sessions db) /\ In m (subject_faculty_map (catalog db))
      /\ In f (faculty (catalog db))
      /\ m_subject_id m = Db.subject_id ss /\ fst f = m_faculty_id m
      /\ hit d slot sid s e ss = true /\ In (m_faculty_id m) ids
      /\ c = (Db.subject_id ss, session_date ss, Db.slot ss, fst f, snd f).
Proof.
  unfold via_map. split.
  - intros H.
    apply in_flat_map in H as [ss [Hss H]].
    apply in_flat_map in H as [m [Hm H]].
    apply in_flat_map in H as [f [Hf H]].
    destruct (_ && _) eqn:E; [|contradiction].
    destruct H as [<-|[]].
    rewrite !andb_true_iff, !Z.eqb_eq, mem_true in E.
    exists ss, m, f. tauto.
  - intros (ss & m & f & Hss & Hm & Hf & H1 & H2 & H3 & H4 & ->).
    apply in_flat_map. exists ss. split; [assumption|].
    apply in_flat_map. exists m. split; [assumption|].
    apply in_flat_map. exists f. split; [assumption|].
    replace (_ && _) with true; [now left|].
    symmetry. rewrite !andb_true_iff, !Z.eqb_eq, mem_true. tauto.
Qed.

Lemma in_via_sic db ids d slot sid s e c :
  In c (via_sic db ids d slot sid s e)
  <-> exists ss sc f,
      In ss (sessions db) /\ In sc (subject_criteria (catalog db))
      /\ In f (faculty (catalog db))
      /\ sc_id sc = Db.subject_id ss /\ subject_in_charge_id sc = Some (fst f)
      /\ hit d slot sid s e ss = true /\ In (fst f) ids
      /\ c = (Db.subject_id ss, session_date ss, Db.slot ss, fst f, snd f).
Proof.
  unfold via_sic. split.
  - intros H.
    apply in_flat_map in H as [ss [Hss H]].
    apply in_flat_map in H as [sc [Hsc H]].
    apply in_flat_map in H as [f [Hf H]].
    destruct (subject_in_charge_id sc) as [sic|] eqn:Esic; [|contradiction].
    destruct (_ && _) eqn:E; [|contradiction].
    destruct H as [<-|[]].
    rewrite !andb_true_iff, !Z.eqb_eq, mem_true in E.
    exists ss, sc, f. destruct E as [[[E1 E2] E3] E4]. subst sic.
    rewrite Esic. tauto.
  - intros (ss & sc & f & Hss & Hsc & Hf & H1 & H2 & H3 & H4 & ->).
    apply in_flat_map. exists ss. split; [assumption|].
    apply in_flat_map. exists sc. split; [assumption|].
    apply in_flat_map. exists f. split; [assumption|].
    rewrite H2.
    replace (_ && _) with true; [now left|].
    symmetry. rewrite !andb_true_iff, !Z.eqb_eq, mem_true. tauto.
Qed.

Lemma c_int_true z : c_int z = true <-> -2147483648 <= z <= 2147483647.
Proof. unfold c_int. rewrite andb_true_iff, !Z.leb_le. reflexivity. Qed.

Lemma mk_june_first ay :
  1 <= ay <= 9999 ->
  PyDate.mk ay 6 1 = Return (days_before_year ay + days_before_month ay 6 + 1).
Proof.
  intros H. unfold PyDate.mk.
  rewrite (proj2 (c_int_true ay)) by lia.
  destruct (Z.leb_spec 1 ay); [|lia]. destruct (Z.leb_spec ay 9999); [|lia].
  reflexivity.
Qed.

Lemma mk_may_last ay :
  1 <= ay <= 9999 ->
  PyDate.mk ay 5 31 = Return (days_before_year ay + days_before_month ay 5 + 31).
Proof.
  intros H. unfold PyDate.mk.
  rewrite (proj2 (c_int_true ay)) by lia.
  destruct (Z.leb_spec 1 ay); [|lia]. destruct (Z.leb_spec ay 9999); [|lia].
  reflexivity.
Qed.

Lemma remove_dups_nil {A} `{EqDecision A} (l : list A) :
  remove_dups l <> [] <-> exists x, In x l.
Proof.
  split.
  - intros H. destruct (remove_dups l) as [|x l'] eqn:E; [congruence|].
    exists x. apply list_elem_of_In, elem_of_remove_dups. rewrite E. now left.
  - intros [x Hx] E.
    apply list_elem_of_In, elem_of_remove_dups in Hx. rewrite E in Hx.
    now apply elem_of_nil in Hx.
Qed.

End Clashes.

(** C7.  For an academic-year start [ay] whose window June 1 of [ay] to
    May 31 of [ay + 1] exists, [_conflicts_in_ay], run for the faculty of
    the subject (subject-in-charge and mapped faculty), reports a clash for
    day [d] and slot [slot] exactly when some faculty member of the subject
    who is on record in [faculty] is also joined (mapped or in charge) to a
    different subject that has a session on [d] in the same slot, compared
    case-insensitively, with [d] inside the window; no session on [d] in
    that slot means no clash. *)
Theorem conflicts_in_ay_exact (db : Db.t) (ay : Z) (d : date) (slot : string) (sid : Z) :
  1 <= ay <= 9998 ->
  exists clashes,
    ScheduleCopy3._conflicts_in_ay db (ScheduleCopy3._faculty_ids_for_subject db sid)
                                   ay d slot sid = Return clashes
    /\ (clashes <> [] <->
        exists f ss,
          ScheduleCopy3.associated db sid f
          /\ In f (map fst (faculty (catalog db)))
          /\ In ss (sessions db)
          /\ Db.subject_id ss <> sid
          /\ ScheduleCopy3.teaches db f (Db.subject_id ss)
          /\ session_date ss = d
          /\ Text.lower (Db.slot ss) = Text.lower slot
          /\ ScheduleCopy3.in_ay_window ay d)
    /\ ((forall ss, In ss (sessions db) -> session_date ss = d ->
                    Text.lower (Db.slot ss) <> Text.lower slot) ->
        clashes = []).
Proof.
  intros Hay.
  assert (Hiff : forall clashes,
             ScheduleCopy3._conflicts_in_ay db (ScheduleCopy3._faculty_ids_for_subject db sid)
                                            ay d slot sid = Return clashes ->
             (clashes <> [] <->
              exists f ss,
                ScheduleCopy3.associated db sid f
                /\ In f (map fst (faculty (catalog db)))
                /\ In ss (sessions db)
                /\ Db.subject_id ss <> sid
                /\ ScheduleCopy3.teaches db f (Db.subject_id ss)
                /\ session_date ss = d
                /\ Text.lower (Db.slot ss) = Text.lower slot
                /\ ScheduleCopy3.in_ay_window ay d)).
  { intros clashes. unfold ScheduleCopy3._conflicts_in_ay.
    destruct (ScheduleCopy3._faculty_ids_for_subject db sid) as [|f0 ids'] eqn:Eids.
    - intros [= <-]. split; [congruence|].
      intros (f & ss & Hassoc & _). apply faculty_ids_for_subject_spec in Hassoc.
      rewrite Eids in Hassoc. contradiction.
    - rewrite <- Eids. clear f0 ids' Eids.
      rewrite mk_june_first, mk_may_last by lia. cbn [obind].
      set (s := days_before_year ay + days_before_month ay 6 + 1).
      set (e := days_before_year (ay + 1) + days_before_month (ay + 1) 5 + 31).
      intros [= <-]. rewrite remove_dups_nil. split.
      + intros [c Hc]. apply in_app_or in Hc as [Hc|Hc].
        * apply in_via_map in Hc
            as (ss & m & f & Hss & Hm & Hf & H1 & H2 & H3 & H4 & _).
          apply hit_true in H3 as (Hd & Hsl & Hne & Hw). rewrite lower_idem in Hsl.
          exists (fst f), ss. rewrite H2.
          split; [now apply faculty_ids_for_subject_spec|].
          split; [rewrite <- H2; now apply in_map|].
          split; [assumption|]. split; [assumption|].
          split; [left; now exists m|].
          split; [assumption|]. split; [assumption|].
          exists s, e. rewrite mk_june_first, mk_may_last by lia.
          split; [reflexivity|]. split; [reflexivity|]. now rewrite <- Hd.
        * apply in_via_sic in Hc
            as (ss & sc & f & Hss & Hsc & Hf & H1 & H2 & H3 & H4 & _).
          apply hit_true in H3 as (Hd & Hsl & Hne & Hw). rewrite lower_idem in Hsl.
          exists (fst f), ss.
          split; [now apply faculty_ids_for_subject_spec|].
          split; [now apply in_map|].
          split; [assumption|]. split; [assumption|].
          split; [right; now exists sc|].
          split; [assumption|]. split; [assumption|].
          exists s, e. rewrite mk_june_first, mk_may_last by lia.
          split; [reflexivity|]. split; [reflexivity|]. now rewrite <- Hd.
      + intros (f & ss & Hassoc & Hf & Hss & Hne & Hteach & Hd & Hsl & Hwin).
        apply faculty_ids_for_subject_spec in Hassoc.
        apply in_map_iff in Hf as [[fid name] [Hfid Hf]]. simpl in Hfid. subst fid.
        destruct Hwin as (s' & e' & Hs' & He' & Hw).
        rewrite mk_june_first in Hs' by lia. rewrite mk_may_last in He' by lia.
        injection Hs' as <-. injection He' as <-. fold s e in Hw.
        assert (Hhit : ScheduleCopy3.hit d (Text.lower slot) sid s e ss = true).
        { apply hit_true. rewrite lower_idem, Hd. tauto. }
        destruct Hteach as [(m & Hm & Hms & Hmf)|(sc & Hsc & Hscs & Hsic)].
        * eexists. apply in_or_app. left. apply in_via_map.
          exists ss, m, (f, name). simpl. rewrite Hmf. tauto.
        * eexists. apply in_or_app. right. apply in_via_sic.
          exists ss, sc, (f, name). simpl. tauto. }
  assert (Hret : exists clashes,
             ScheduleCopy3._conflicts_in_ay db (ScheduleCopy3._faculty_ids_for_subject db sid)
                                            ay d slot sid = Return clashes).
  { unfold ScheduleCopy3._conflicts_in_ay.
    destruct (ScheduleCopy3._faculty_ids_for_subject db sid); [eauto|].
    rewrite mk_june_first, mk_may_last by lia. cbn [obind]. eauto. }
  destruct Hret as [clashes Hc]. exists clashes.
  split; [exact Hc|]. split; [now apply Hiff|].
  intros Hnone. destruct clashes as [|c cs]; [reflexivity|]. exfalso.
  assert (Hne : c :: cs <> []) by discriminate.
  apply (Hiff _ Hc) in Hne as (f & ss & _ & _ & Hss & _ & _ & Hd & Hsl & _).
  exact (Hnone ss Hss Hd Hsl).
Qed.

Section ClashNotices.

Import ScheduleCopy3.




Lemma notif_rows ids sid msg db :
  notifications_table (catalog db) = true ->
  notifications_seen_by (catalog db) = true ->
  notifications (_notif ids sid msg db)
  = notifications db
    ++ map (fun f => {| n_subject_id := sid; n_message := msg;
                        seen_by_faculty_id := Some f |}) (List.filter truthy ids).
Proof.
  intros Ht Hs. unfold _notif.
  destruct (List.filter truthy ids) as [|f l]; [now rewrite app_nil_r|].
  now rewrite Ht, Hs.
Qed.



End ClashNotices.

Section ClashAfterSave.

Import ScheduleCopy3.





End ClashAfterSave.




Lemma conflicts_in_ay_exact_witness :
  1 <= 2025 <= 9998
  /\ ScheduleCopy3._conflicts_in_ay
       Fixtures.subject_a_scheduled
       (ScheduleCopy3._faculty_ids_for_subject Fixtures.subject_a_scheduled 2)
       2025 Fixtures.jul10 "morning" 2
     = Return [(1, Fixtures.jul10, "morning", 7, "F")]
  /\ ScheduleCopy3._conflicts_in_ay
       Fixtures.subject_a_scheduled
       (ScheduleCopy3._faculty_ids_for_subject Fixtures.subject_a_scheduled 2)
       2025 Fixtures.jul10 "afternoon" 2
     = Return [].
Proof.
  assert (Hay : 1 <= 2025 <= 9998) by lia.
  split; [exact Hay|].
  destruct (conflicts_in_ay_exact Fixtures.subject_a_scheduled 2025 Fixtures.jul10
              "morning" 2 Hay) as (c1 & E1 & _ & _).
  destruct (conflicts_in_ay_exact Fixtures.subject_a_scheduled 2025 Fixtures.jul10
              "afternoon" 2 Hay) as (c2 & E2 & _ & Hnone).
  split.
  - rewrite E1. f_equal. apply (f_equal (fun o => match o with Return l => l | _ => [] end)) in E1.
    rewrite <- E1. vm_compute. reflexivity.
  - rewrite E2. f_equal. apply Hnone. vm_compute.
    intros ss [<-|[<-|[]]] _; discriminate.
Defined.

(** ** Further behaviour the statements above leave open *)

(** The rows a second run re-inserts get fresh ids: the sessions agree,
    the tables with ids do not. *)
Example regenerated_rows_get_fresh_ids :
  let go := Schedule.run_call (Fixtures.monday_call 1) in
  map fst (subject_sessions (go Fixtures.empty_db)) = [1]
  /\ map fst (subject_sessions (go (go Fixtures.empty_db))) = [2]
  /\ sessions (go (go Fixtures.empty_db)) = sessions (go Fixtures.empty_db).
Proof. vm_compute. repeat split; reflexivity. Qed.

(** Two equal rows in one batch, as an editor save or an import can
    build, are both inserted. *)
Example repeated_row_in_one_batch :
  length (sessions
            (fst (Schedule._merge_and_save
                    1 Fixtures.jan01 Fixtures.jan14
                    [Fixtures.lecture_row 1 Fixtures.jan01 "morning";
                     Fixtures.lecture_row 1 Fixtures.jan01 "Morning"]
                    2024 1 (Some 1) None "Editor save" Fixtures.empty_db))) = 2%nat.
Proof. vm_compute. reflexivity. Qed.

(** A batch with an assignment id, as the editor and the import can build
    it: the stored session that collides with the row is deleted, the
    insert raises [TypeError], and the table is left without either. *)
Example assignment_id_loses_the_session :
  let db1 := Schedule.run_call (Fixtures.monday_call 1) Fixtures.empty_db in
  let res := Schedule._merge_and_save 1 Fixtures.jan01 Fixtures.jan14
               [FixturesRest.assigned_row] 2024 1 (Some 1) None "Editor save" db1 in
  length (sessions db1) = 1%nat
  /\ snd res = Raise TypeError
  /\ sessions (fst res) = [].
Proof. vm_compute. repeat split; reflexivity. Qed.

(** A lecture count beyond 64 bits: the deletes are done and the insert
    raises [OverflowError]. *)
Example huge_count_raises :
  let db1 := Schedule.run_call (Fixtures.monday_call 1) Fixtures.empty_db in
  let res := Schedule._merge_and_save 1 Fixtures.jan01 Fixtures.jan14
               [FixturesRest.huge_row] 2024 1 (Some 1) None "Import" db1 in
  snd res = Raise OverflowError /\ sessions (fst res) = [].
Proof. vm_compute. repeat split; reflexivity. Qed.

(** A batch whose rows all fall on holidays of the window saves nothing;
    when the subject is then short of its target, [ins[0]] raises. *)
Example batch_of_holidays_raises :
  Schedule._merge_and_save
    1 Fixtures.jan01 Fixtures.jan14 [Fixtures.lecture_row 1 738888 "morning"]
    2024 1 None None "Editor save"
    (Fixtures.with_catalog (Fixtures.design_on_holiday [("Principal", 9)]) Fixtures.empty_db)
  = (Fixtures.with_catalog (Fixtures.design_on_holiday [("Principal", 9)]) Fixtures.empty_db,
     Raise IndexError).
Proof. vm_compute. reflexivity. Qed.

(** The shortfall block of the Copy (3) screen: the sums run over all
    sessions of the subject in the window, whatever their batch, semester
    and branch, and the recipients are the subject's faculty, the principal
    and the branch head handed in. *)
Lemma copy3_shortfall_rows sid sd ed by_ sem bh label db c :
  Db.criteria_of db sid = Some c ->
  notifications_table (catalog db) = true ->
  notifications_seen_by (catalog db) = true ->
  let cur := ScheduleCopy3._sessions_for db sid sd ed in
  let want_lec := ifnull (sc_lectures c) 0 in
  let want_stu := ifnull (sc_studios c) 0 in
  let have_lec := Db.sum (map lectures cur) in
  let have_stu := Db.sum (map studios cur) in
  notifications (ScheduleCopy3.shortfall_phase sid sd ed by_ sem bh label db)
  = notifications db
    ++ (if (have_lec <? want_lec) || (have_stu <? want_stu) then
          map (fun f =>
                 {| n_subject_id := sid;
                    n_message :=
                      ScheduleCopy3.shortfall_message
                        label (Text.str_opt (sc_code c)) (Text.str_opt (sc_name c)) by_ sem
                        (Z.max 0 (want_lec - have_lec)) (Z.max 0 (want_stu - have_stu));
                    seen_by_faculty_id := Some f |})
              (List.filter truthy
                 (sorted_set
                    (List.filter truthy
                       (ScheduleCopy3._faculty_ids_for_subject db sid
                        ++ ScheduleCopy3.principal_id db ++ ScheduleCopy3.head_id bh))))
        else []).
Proof.
  intros Hc Ht Hs cur want_lec want_stu have_lec have_stu.
  unfold ScheduleCopy3.shortfall_phase. rewrite Hc.
  fold cur. fold want_lec. fold want_stu. fold have_lec. fold have_stu.
  rewrite !truthy_max.
  destruct ((have_lec <? want_lec) || (have_stu <? want_stu)); [|now rewrite app_nil_r].
  now apply notif_rows.
Qed.

Lemma copy3_shortfall_no_criteria sid sd ed by_ sem bh label db :
  Db.criteria_of db sid = None ->
  ScheduleCopy3.shortfall_phase sid sd ed by_ sem bh label db = db.
Proof. intros H. unfold ScheduleCopy3.shortfall_phase. now rewrite H. Qed.


(** ** The batches of the simple-pattern button *)

Section PatternBatches.

Import Schedule.

(** The rows the simple generator returns are pairwise distinct on
    [row_key]: their dates are strictly ascending. *)
Lemma generate_simple_rows_distinct scr holi wd slot kind rows :
  _generate_simple scr holi wd slot kind = Return rows ->
  List.NoDup (map row_key rows).
Proof.
  unfold _generate_simple.
  destruct (add_days (scr_sd scr) _) as [lim| |]; cbn [obind]; try discriminate.
  rewrite generate_loop_dates.
  destruct (Scheduler.simple_loop _ _ _ _ _ []) as [days| |] eqn:E; try discriminate.
  intros [= <-]. cbn [app]. rewrite map_map.
  apply simple_loop_sound in E as [Hs _]. apply sorted_lt_NoDup in Hs.
  apply NoDup_map_inj; [|exact Hs].
  intros x y H. unfold row_key, new_row in H. cbn in H. congruence.
Qed.

(** The button keeps the stored sessions pairwise distinct on
    [session_key]. *)
Lemma simple_go_keeps_keys_distinct scr wd slot kind db :
  List.NoDup (map session_key (sessions db)) ->
  List.NoDup (map session_key (sessions (fst (simple_go scr wd slot kind db)))).
Proof.
  intros Hdb. unfold simple_go. destruct (_ >? _); [exact Hdb|].
  destruct (_generate_simple scr _ wd slot kind) as [rows| |] eqn:E; try exact Hdb.
  apply generate_simple_rows_distinct in E.
  exact (run_call_keeps_keys_distinct
           {| call_subject_id := scr_subject_id scr;
              call_sd := scr_sd scr;
              call_ed := scr_ed scr;
              call_rows := rows;
              call_batch_year := scr_batch_year scr;
              call_sem_abs := scr_sem_choice scr;
              call_branch_id := scr_branch_id scr;
              call_action_label := "Pattern generate" |} db Hdb E).
Qed.

Lemma merge_and_save_total sid sd ed rows by_ sem br bh label db :
  snd (_merge_and_save sid sd ed rows by_ sem br bh label db) <> Diverged.
Proof.
  destruct rows as [|r0 rows]; [discriminate|].
  rewrite merge_and_save_run by discriminate. cbv zeta.
  destruct (savable _); [|discriminate].
  unfold shortfall_check.
  destruct (_subject_targets _ sid) as [reqL reqS].
  destruct (truthy reqL || truthy reqS); [|discriminate].
  destruct (planned _ sid by_ sem br sd ed) as [curL curS].
  destruct (truthy _ || truthy _); [|discriminate].
  destruct (stamped_batch db sd ed (r0 :: rows) by_ sem br); discriminate.
Qed.

(** The button returns or raises. *)
Lemma simple_go_total scr wd slot kind db :
  snd (simple_go scr wd slot kind db) <> Diverged.
Proof.
  unfold simple_go. destruct (_ >? _); [discriminate|].
  destruct (_generate_simple scr _ wd slot kind) as [rows| |] eqn:E.
  - apply merge_and_save_total.
  - discriminate.
  - now apply generate_simple_total in E.
Qed.

End PatternBatches.

(* ================================================================== *)
(** * Further properties of the code *)

(** ** Weekday names, semesters and academic years *)

Section NamesAndYears.

Import PyDate SchedulerRest.

Lemma weekday_cases d :
  weekday d = 0 \/ weekday d = 1 \/ weekday d = 2 \/ weekday d = 3
  \/ weekday d = 4 \/ weekday d = 5 \/ weekday d = 6.
Proof.
  unfold weekday. pose proof (Z.mod_pos_bound (d + 6) 7 ltac:(lia)). lia.
Qed.

(** X1.  [weekday_name] never reaches its [strftime] fallback: for every
    date it is the entry of [WEEKDAY_NAMES] at the date's weekday index,
    and looking the name up again gives the index back.  The name of a
    Monday to Saturday selects exactly that weekday in the pattern buttons
    of the schedule screen; Sunday selects nothing there. *)
Theorem weekday_name_round_trip (strftime_a : date -> string) (d : date) :
  py_index WEEKDAY_NAMES (weekday d) = Some (weekday_name strftime_a d)
  /\ Schedule.index_of (weekday_name strftime_a d) WEEKDAY_NAMES = Some (weekday d)
  /\ Schedule.picks_of [weekday_name strftime_a d]
     = (if weekday d =? 6 then ∅ else {[ weekday d ]}).
Proof.
  unfold weekday_name.
  destruct (weekday_cases d) as [H|[H|[H|[H|[H|[H|H]]]]]]; rewrite H;
    (split; [reflexivity|split; [reflexivity|]]);
    unfold Schedule.picks_of; cbn; try reflexivity;
    apply (right_id_L (∅ : gset Z) (∪)).
Qed.

(** X2.  [year_sem12_to_abs_sem] and the screen's [_abs_sems_for_year] are
    two views of one numbering: the year of an absolute semester is
    [(s + 1) // 2], a sem-in-year other than 1 counts as 2, the pair the
    screen offers for a year is the two semesters of that year, and a year
    below 1 is offered the semesters of year 1. *)
Theorem abs_sem_numbering (year sem12 : Z) :
  (year_sem12_to_abs_sem year sem12 + 1) / 2 = year
  /\ year_sem12_to_abs_sem year sem12
     = year_sem12_to_abs_sem year (if sem12 =? 1 then 1 else 2)
  /\ ScheduleRest._abs_sems_for_year year
     = (year_sem12_to_abs_sem (Z.max 1 year) 1, year_sem12_to_abs_sem (Z.max 1 year) 2)
  /\ ScheduleCopy3Rest._abs_sems_for_year year (year_sem12_to_abs_sem year 2)
     = [year_sem12_to_abs_sem year 1; year_sem12_to_abs_sem year 2].
Proof.
  unfold year_sem12_to_abs_sem, ScheduleRest._abs_sems_for_year,
    ScheduleCopy3Rest._abs_sems_for_year.
  cbv zeta. repeat split.
  - destruct (Z.eqb_spec sem12 1); Z.div_mod_to_equations; lia.
  - destruct (Z.eqb_spec sem12 1); reflexivity.
  - change (1 =? 1) with true. change (2 =? 1) with false. cbv iota.
    destruct (Z.leb_spec year 0).
    + replace (Z.max 1 year) with 1 by lia. reflexivity.
    + replace (Z.max 1 year) with year by lia. f_equal; lia.
  - change (1 =? 1) with true. change (2 =? 1) with false. cbn [List.filter].
    destruct (Z.leb_spec (2 * (year - 1) + 1) ((year - 1) * 2 + 2)); [|lia].
    destruct (Z.leb_spec (2 * (year - 1) + 2) ((year - 1) * 2 + 2)); [|lia].
    f_equal; [lia|f_equal; lia].
Qed.

(** X3.  The academic-year start computed from the program year, from an
    absolute semester of that year, and by the Copy (3) screen (also as its
    clash check derives it from the semester) agree for every program year
    from 1 on.  Below 1 the helpers of [core/db.py] clamp to the batch year,
    while [_ay_for_year_of_batch] goes before it. *)
Theorem academic_year_starts_agree (batch_year year sem12 : Z) :
  (1 <= year ->
   CoreDb.compute_ay_start_abs_sem batch_year (year_sem12_to_abs_sem year sem12)
   = CoreDb.compute_ay_start_year batch_year year
   /\ CoreDb.compute_ay_start_year batch_year year
      = ScheduleCopy3._ay_for_year_of_batch batch_year year
   /\ CoreDb.academic_year_start batch_year (year_sem12_to_abs_sem year sem12)
      = CoreDb.compute_ay_start batch_year year
   /\ ScheduleCopy3.ay_of batch_year (year_sem12_to_abs_sem year sem12)
      = CoreDb.compute_ay_start_year batch_year year)
  /\ (year < 1 ->
      CoreDb.compute_ay_start_year batch_year year = batch_year
      /\ CoreDb.compute_ay_start_abs_sem batch_year year = batch_year
      /\ ScheduleCopy3._ay_for_year_of_batch batch_year year < batch_year).
Proof.
  unfold CoreDb.academic_year_start, CoreDb.compute_ay_start,
    CoreDb.compute_ay_start_abs_sem, CoreDb.compute_ay_start_year,
    ScheduleCopy3.ay_of, ScheduleCopy3._ay_for_year_of_batch, year_sem12_to_abs_sem.
  cbv zeta. split; intros H.
  - assert (E : (Z.max 1 ((year - 1) * 2 + (if sem12 =? 1 then 1 else 2)) - 1) / 2
                = year - 1)
      by (destruct (sem12 =? 1); Z.div_mod_to_equations; lia).
    assert (E' : ((year - 1) * 2 + (if sem12 =? 1 then 1 else 2) + 1) / 2 = year)
      by (destruct (sem12 =? 1); Z.div_mod_to_equations; lia).
    rewrite E, E'. lia.
  - replace (Z.max 1 year) with 1 by lia.
    replace (Z.max 0 (year - 1)) with 0 by lia.
    change ((1 - 1) / 2) with 0. lia.
Qed.

Lemma academic_year_starts_agree_witness :
  1 <= 3
  /\ CoreDb.compute_ay_start_abs_sem 2021 (year_sem12_to_abs_sem 3 2)
     = CoreDb.compute_ay_start_year 2021 3
  /\ 0 < 1
  /\ CoreDb.compute_ay_start_year 2021 0 = 2021.
Proof.
  split; [lia|]. split; [apply (academic_year_starts_agree 2021 3 2); lia|].
  split; [lia|]. apply (academic_year_starts_agree 2021 0 1); lia.
Defined.

Lemma days_before_year_succ y :
  days_before_year (y + 1) = days_before_year y + (if is_leap y then 366 else 365).
Proof.
  unfold days_before_year, is_leap. cbv zeta.
  replace (y + 1 - 1) with y by lia.
  destruct (Z.eqb_spec (y mod 4) 0), (Z.eqb_spec (y mod 100) 0),
    (Z.eqb_spec (y mod 400) 0); cbn [andb orb negb];
    Z.div_mod_to_equations; lia.
Qed.

Lemma days_before_june y :
  days_before_month y 6 = 151 + (if is_leap y then 1 else 0)
  /\ days_before_month y 5 = 120 + (if is_leap y then 1 else 0).
Proof.
  unfold days_before_month.
  change (Z.to_nat (6 - 1)) with 5%nat. change (Z.to_nat (5 - 1)) with 4%nat.
  cbn [days_before_month_aux]. unfold days_in_month.
  change (Z.of_nat 1) with 1. change (Z.of_nat 2) with 2. change (Z.of_nat 3) with 3.
  change (Z.of_nat 4) with 4. change (Z.of_nat 5) with 5.
  destruct (is_leap y); split; reflexivity.
Qed.

Lemma days_before_year_bounds y :
  1 <= y <= 9999 -> 0 <= days_before_year y <= 3651694.
Proof.
  intros H. unfold days_before_year. cbv zeta. Z.div_mod_to_equations. lia.
Qed.

Lemma academic_year_window_run by_ y :
  1 <= by_ + (Z.max 1 y - 1) <= 9998 ->
  academic_year_window by_ y
  = Return (days_before_year (by_ + (Z.max 1 y - 1))
            + days_before_month (by_ + (Z.max 1 y - 1)) 6 + 1,
            days_before_year (by_ + Z.max 1 y) + days_before_month (by_ + Z.max 1 y) 5 + 31).
Proof.
  intros H. unfold academic_year_window. cbv zeta.
  rewrite (mk_june_first (by_ + (Z.max 1 y - 1))) by lia. cbn [obind].
  rewrite (mk_may_last (by_ + Z.max 1 y)) by lia. reflexivity.
Qed.

Lemma mk_year_out_of_range y m d :
  c_int y = true -> c_int m = true -> c_int d = true -> ~ 1 <= y <= 9999 ->
  PyDate.mk y m d = Raise ValueError.
Proof.
  intros Hy Hm Hd H. unfold PyDate.mk. rewrite Hy, Hm, Hd. cbn [andb negb].
  destruct (Z.leb_spec 1 y); cbn [andb]; [|reflexivity].
  destruct (Z.leb_spec y 9999); [lia|reflexivity].
Qed.

Lemma mk_year_overflow y m d :
  c_int y = false -> PyDate.mk y m d = Raise OverflowError.
Proof. intros Hy. unfold PyDate.mk. now rewrite Hy. Qed.

(** X4.  [academic_year_window] returns for exactly the batch and program
    years whose two calendar years are years of [date]; a program year
    below 1 counts as 1.  Otherwise it raises [ValueError] when the first
    calendar year is a C [int], and [OverflowError] when it is not.  The
    window it returns is a whole year of 365 or 366 days, the window of the
    next program year starts the day after it ends, and it is the range in
    which the Copy (3) screen looks for clashes of that academic year. *)
Theorem academic_year_window_spec (by_ y : Z) :
  let Y := by_ + (Z.max 1 y - 1) in
  academic_year_window by_ y = academic_year_window by_ (Z.max 1 y)
  /\ (~ 1 <= Y <= 9998 ->
      academic_year_window by_ y
      = Raise (if c_int Y then ValueError else OverflowError))
  /\ (1 <= Y <= 9998 ->
      exists s e,
        academic_year_window by_ y = Return (s, e)
        /\ valid s /\ valid e
        /\ days_between e s + 1 = (if is_leap (Y + 1) then 366 else 365)
        /\ (Y + 1 <= 9998 ->
            exists e', academic_year_window by_ (Z.max 1 y + 1) = Return (e + 1, e'))
        /\ forall d, s <= d <= e
                     <-> ScheduleCopy3.in_ay_window (CoreDb.compute_ay_start_year by_ y) d).
Proof.
  cbv zeta. split; [|split].
  - unfold academic_year_window. cbv zeta.
    replace (Z.max 1 (Z.max 1 y)) with (Z.max 1 y) by lia. reflexivity.
  - intros H. unfold academic_year_window. cbv zeta.
    destruct (c_int (by_ + (Z.max 1 y - 1))) eqn:Ec.
    + destruct (Z_le_gt_dec 1 (by_ + (Z.max 1 y - 1))) as [Hlo|Hlo].
      * destruct (Z_le_gt_dec (by_ + (Z.max 1 y - 1)) 9999) as [Hhi|Hhi].
        -- assert (HY : by_ + (Z.max 1 y - 1) = 9999) by lia.
           rewrite HY. replace (by_ + Z.max 1 y) with 10000 by lia. reflexivity.
        -- rewrite mk_year_out_of_range by (try reflexivity; try assumption; lia).
           reflexivity.
      * rewrite mk_year_out_of_range by (try reflexivity; try assumption; lia).
        reflexivity.
    + rewrite mk_year_overflow by assumption. reflexivity.
  - intros H. rewrite (academic_year_window_run by_ y H).
    set (Y := by_ + (Z.max 1 y - 1)) in *.
    replace (by_ + Z.max 1 y) with (Y + 1) by (subst Y; lia).
    pose proof (days_before_year_succ Y) as Hs.
    pose proof (days_before_year_succ (Y + 1)) as Hs1.
    destruct (days_before_june Y) as [J6 _].
    destruct (days_before_june (Y + 1)) as [J6' J5].
    pose proof (days_before_year_bounds Y ltac:(lia)) as B.
    pose proof (days_before_year_bounds (Y + 1) ltac:(lia)) as B1.
    eexists _, _. split; [reflexivity|].
    assert (Hlen : days_between (days_before_year (Y + 1) + days_before_month (Y + 1) 5 + 31)
                     (days_before_year Y + days_before_month Y 6 + 1) + 1
                   = if is_leap (Y + 1) then 366 else 365).
    { unfold days_between. rewrite Hs, J6, J5.
      destruct (is_leap Y), (is_leap (Y + 1)); lia. }
    split; [|split; [|split; [exact Hlen|split]]].
    + unfold valid, MINORD, MAXORD. rewrite J6. destruct (is_leap Y); lia.
    + unfold valid, MINORD, MAXORD. rewrite J5. destruct (is_leap (Y + 1)); lia.
    + intros H2.
      assert (H3 : 1 <= by_ + (Z.max 1 (Z.max 1 y + 1) - 1) <= 9998) by (subst Y; lia).
      rewrite (academic_year_window_run _ _ H3).
      replace (by_ + (Z.max 1 (Z.max 1 y + 1) - 1)) with (Y + 1) by (subst Y; lia).
      eexists. f_equal. f_equal. rewrite J6', J5. lia.
    + intros d. unfold ScheduleCopy3.in_ay_window, CoreDb.compute_ay_start_year.
      replace (by_ + Z.max 0 (y - 1)) with Y by (subst Y; lia).
      rewrite (mk_june_first Y) by lia. rewrite (mk_may_last (Y + 1)) by lia.
      split.
      * intros Hd. eexists _, _. split; [reflexivity|split; [reflexivity|exact Hd]].
      * intros (s & e & E1 & E2 & Hd). injection E1 as <-. injection E2 as <-. exact Hd.
Qed.

Lemma academic_year_window_spec_witness :
  1 <= 2021 + (Z.max 1 2 - 1) <= 9998
  /\ (exists s e, academic_year_window 2021 2 = Return (s, e) /\ valid s /\ valid e)
  /\ ~ 1 <= 9999 + (Z.max 1 1 - 1) <= 9998
  /\ academic_year_window 9999 1 = Raise ValueError
  /\ ~ 1 <= 2147483648 + (Z.max 1 1 - 1) <= 9998
  /\ academic_year_window 2147483648 1 = Raise OverflowError.
Proof.
  assert (H1 : ~ 1 <= 9999 + (Z.max 1 1 - 1) <= 9998) by (vm_compute; intros [_ H]; now apply H).
  assert (H2 : ~ 1 <= 2147483648 + (Z.max 1 1 - 1) <= 9998)
    by (vm_compute; intros [_ H]; now apply H).
  split; [vm_compute; split; discriminate|].
  split.
  - destruct (academic_year_window_spec 2021 2) as (_ & _ & H).
    destruct (H ltac:(vm_compute; split; discriminate)) as (s & e & E & Vs & Ve & _).
    exists s, e. split; [exact E|split; [exact Vs|exact Ve]].
  - split; [exact H1|].
    split; [exact (proj1 (proj2 (academic_year_window_spec 9999 1)) H1)|].
    split; [exact H2|].
    exact (proj1 (proj2 (academic_year_window_spec 2147483648 1)) H2).
Defined.

End NamesAndYears.

(** ** The enumerators of [core/scheduler.py], continued *)

Section EnumeratorsAgain.

Import PyDate Scheduler SchedulerRest.

Lemma alternating_loop_same fuel start end_ W holi :
  forall d out,
    alternating_loop fuel start end_ W W holi d out = simple_loop fuel end_ W holi d out.
Proof.
  induction fuel as [|fuel IH]; intros d out; [reflexivity|].
  cbn [alternating_loop simple_loop]. cbv zeta.
  destruct (d <=? end_); [|reflexivity].
  destruct (_ mod 2 =? 0); destruct (add_days d 1); cbn [obind]; try reflexivity; apply IH.
Qed.

(** X5.  With the same weekdays for week A and week B the alternating
    enumerator is the simple one: same dates in the same order, and the same
    exception where the simple one raises. *)
Theorem alternating_with_equal_weeks (start end_ : date) (W : list Z) (H : list date) :
  generate_alternating_pattern start end_ W W H = generate_simple_pattern start end_ W H.
Proof.
  unfold generate_alternating_pattern, generate_simple_pattern.
  destruct (start >? end_); [reflexivity|]. apply alternating_loop_same.
Qed.

Lemma keep_more_holidays wd (holi : gset Z) h d :
  keep wd ({[ h ]} ∪ holi) d = keep wd holi d && not_day h d.
Proof.
  unfold keep, not_day. rewrite <- andb_assoc. f_equal.
  destruct (Z.eqb_spec d h) as [->|Hne].
  - rewrite andb_false_r. apply bool_decide_eq_false.
    intros Hn. apply Hn. apply elem_of_union_l, elem_of_singleton. reflexivity.
  - rewrite andb_true_r. apply bool_decide_ext.
    rewrite elem_of_union, elem_of_singleton. tauto.
Qed.

Lemma simple_loop_more_holidays fuel end_ wd (holi : gset Z) h :
  forall d days,
    simple_loop fuel end_ wd ({[ h ]} ∪ holi) d (List.filter (not_day h) days)
    = omap_outcome (List.filter (not_day h)) (simple_loop fuel end_ wd holi d days).
Proof.
  induction fuel as [|fuel IH]; intros d days; [reflexivity|].
  cbn [simple_loop]. cbv zeta.
  destruct (d <=? end_); [|reflexivity].
  rewrite keep_more_holidays.
  assert (E : (if keep wd holi d && not_day h d
               then List.filter (not_day h) days ++ [d]
               else List.filter (not_day h) days)
              = List.filter (not_day h) (if keep wd holi d then days ++ [d] else days)).
  { destruct (keep wd holi d); cbn [andb]; [|reflexivity].
    rewrite List.filter_app. cbn [List.filter].
    destruct (not_day h d); [reflexivity|now rewrite app_nil_r]. }
  rewrite E. destruct (add_days d 1); cbn [obind omap_outcome]; try reflexivity. apply IH.
Qed.

Lemma alternating_loop_more_holidays fuel start end_ a b (holi : gset Z) h :
  forall d out,
    alternating_loop fuel start end_ a b ({[ h ]} ∪ holi) d (List.filter (not_day h) out)
    = omap_outcome (List.filter (not_day h))
                   (alternating_loop fuel start end_ a b holi d out).
Proof.
  induction fuel as [|fuel IH]; intros d out; [reflexivity|].
  cbn [alternating_loop]. cbv zeta.
  destruct (d <=? end_); [|reflexivity].
  rewrite keep_more_holidays.
  set (w := if _ mod 2 =? 0 then a else b).
  assert (E : (if keep w holi d && not_day h d
               then List.filter (not_day h) out ++ [d]
               else List.filter (not_day h) out)
              = List.filter (not_day h) (if keep w holi d then out ++ [d] else out)).
  { destruct (keep w holi d); cbn [andb]; [|reflexivity].
    rewrite List.filter_app. cbn [List.filter].
    destruct (not_day h d); [reflexivity|now rewrite app_nil_r]. }
  rewrite E. destruct (add_days d 1); cbn [obind omap_outcome]; try reflexivity. apply IH.
Qed.

(** X6.  Declaring one more holiday [h] changes the answer of each
    enumerator in one way only: [h] is removed from the dates returned.
    The other dates, their order, and the exception raised if any stay as
    they were. *)
Theorem one_more_holiday (start end_ : date) (weeks_tail : Z) (W A B : list Z)
        (H : list date) (h : date) :
  generate_simple_pattern start end_ W (h :: H)
  = omap_outcome (List.filter (not_day h)) (generate_simple_pattern start end_ W H)
  /\ generate_alternating_pattern start end_ A B (h :: H)
     = omap_outcome (List.filter (not_day h))
                    (generate_alternating_pattern start end_ A B H)
  /\ backfill_last_weeks start end_ weeks_tail W (h :: H)
     = omap_outcome (List.filter (not_day h))
                    (backfill_last_weeks start end_ weeks_tail W H).
Proof.
  unfold generate_simple_pattern, generate_alternating_pattern, backfill_last_weeks,
    _normalize_holidays.
  cbv zeta. cbn [list_to_set].
  split; [|split].
  - destruct (start >? end_); [reflexivity|].
    apply (simple_loop_more_holidays _ _ _ _ h start []).
  - destruct (start >? end_); [reflexivity|].
    apply (alternating_loop_more_holidays _ _ _ _ _ _ h start []).
  - destruct ((start >? end_) || (weeks_tail <=? 0)); [reflexivity|].
    destruct (add_days end_ _) as [back| |]; cbn [obind omap_outcome]; try reflexivity.
    apply (simple_loop_more_holidays _ _ _ _ h _ []).
Qed.

(** X7.  [backfill_last_weeks] answers the empty list for an empty window
    or a non-positive number of weeks.  Otherwise it computes
    [end - (7 * weeks_tail - 1)] days first: when that date exists the answer
    is the simple pattern over the window from the later of it and [start]
    to [end], and when it lies before 0001-01-01 the call raises
    [OverflowError], although the tail is then clamped to [start]. *)
Theorem backfill_last_weeks_spec (start end_ : date) (weeks_tail : Z)
        (W : list Z) (H : list date) :
  (start > end_ \/ weeks_tail <= 0 ->
   backfill_last_weeks start end_ weeks_tail W H = Return [])
  /\ (start <= end_ -> 0 < weeks_tail -> valid end_ ->
      (MINORD <= end_ - (weeks_tail * 7 - 1) ->
       backfill_last_weeks start end_ weeks_tail W H
       = generate_simple_pattern (Z.max start (end_ - (weeks_tail * 7 - 1))) end_ W H)
      /\ (end_ - (weeks_tail * 7 - 1) < MINORD ->
          backfill_last_weeks start end_ weeks_tail W H = Raise OverflowError)).
Proof.
  unfold backfill_last_weeks. cbv zeta. split.
  - intros Hc. destruct (Z.gtb_spec start end_); [reflexivity|].
    destruct (Z.leb_spec weeks_tail 0); [reflexivity|lia].
  - intros Hse Hw Hv.
    destruct (Z.gtb_spec start end_); [lia|].
    destruct (Z.leb_spec weeks_tail 0); [lia|]. cbn [orb].
    unfold valid, MINORD, MAXORD in *. split; intros Hb.
    + rewrite add_days_ok by (unfold MINORD, MAXORD; lia). cbn [obind].
      unfold generate_simple_pattern.
      replace (end_ + - (weeks_tail * 7 - 1)) with (end_ - (weeks_tail * 7 - 1)) by lia.
      destruct (Z.gtb_spec (Z.max start (end_ - (weeks_tail * 7 - 1))) end_); [lia|].
      reflexivity.
    + unfold add_days, in_range, MINORD, MAXORD.
      destruct (Z.leb_spec 1 (end_ + - (weeks_tail * 7 - 1))); [lia|]. reflexivity.
Qed.

Lemma backfill_last_weeks_spec_witness :
  738886 <= 738899 /\ 0 < 1 /\ valid 738899
  /\ MINORD <= 738899 - (1 * 7 - 1)
  /\ backfill_last_weeks 738886 738899 1 [0; 2] []
     = generate_simple_pattern (Z.max 738886 (738899 - (1 * 7 - 1))) 738899 [0; 2] []
  /\ 1 <= 5 /\ valid 5 /\ 5 - (1 * 7 - 1) < MINORD
  /\ backfill_last_weeks 1 5 1 [0; 2] [] = Raise OverflowError.
Proof.
  assert (V1 : valid 738899) by (unfold valid, MINORD, MAXORD; lia).
  assert (V2 : valid 5) by (unfold valid, MINORD, MAXORD; lia).
  split; [lia|]. split; [lia|]. split; [exact V1|].
  split; [unfold MINORD; lia|].
  split.
  - apply (backfill_last_weeks_spec 738886 738899 1 [0; 2] []);
      [lia|lia|exact V1|unfold MINORD; lia].
  - split; [lia|]. split; [exact V2|]. split; [unfold MINORD; lia|].
    apply (backfill_last_weeks_spec 1 5 1 [0; 2] []);
      [lia|lia|exact V2|unfold MINORD; lia].
Defined.

Lemma days_from_app d n m :
  days_from d (n + m) = days_from d n ++ days_from (d + Z.of_nat n) m.
Proof.
  revert d. induction n as [|n IH]; intros d.
  - cbn. f_equal. lia.
  - cbn [Nat.add days_from app]. f_equal. rewrite IH. f_equal. f_equal. lia.
Qed.

(** X8.  Enumerating a window in two parts gives the same dates as
    enumerating it in one go: the simple pattern over [start..end] is the
    pattern over [start..mid] followed by the pattern over [mid+1..end]. *)
Theorem generate_simple_pattern_split (start mid end_ : date) (W : list Z) (H : list date) :
  valid start -> start <= mid -> mid < end_ -> end_ < MAXORD ->
  exists a b,
    generate_simple_pattern start mid W H = Return a
    /\ generate_simple_pattern (mid + 1) end_ W H = Return b
    /\ generate_simple_pattern start end_ W H = Return (a ++ b).
Proof.
  intros [Hs _] Hsm Hme He. unfold MINORD in Hs.
  unfold generate_simple_pattern. cbv zeta.
  destruct (Z.gtb_spec start mid); [lia|].
  destruct (Z.gtb_spec (mid + 1) end_); [lia|].
  destruct (Z.gtb_spec start end_); [lia|].
  set (wd := list_to_set W : gset Z). set (holi := _normalize_holidays H).
  set (n1 := Z.to_nat (mid - start + 1)). set (n2 := Z.to_nat (end_ - (mid + 1) + 1)).
  assert (Hn1 : Z.of_nat n1 = mid - start + 1) by (subst n1; lia).
  assert (Hn2 : Z.of_nat n2 = end_ - (mid + 1) + 1) by (subst n2; lia).
  exists (List.filter (keep wd holi) (days_from start n1)),
         (List.filter (keep wd holi) (days_from (mid + 1) n2)).
  split; [|split].
  - rewrite (simple_loop_run wd holi mid ltac:(lia) n1) by
        (unfold MINORD, span_fuel; fold n1; lia).
    reflexivity.
  - rewrite (simple_loop_run wd holi end_ He n2) by
        (unfold MINORD, span_fuel; fold n2; lia).
    reflexivity.
  - rewrite (simple_loop_run wd holi end_ He (n1 + n2)) by
        (unfold MINORD, span_fuel; lia).
    cbn [app]. rewrite days_from_app, List.filter_app.
    replace (start + Z.of_nat n1) with (mid + 1) by lia. reflexivity.
Qed.

Lemma generate_simple_pattern_split_witness :
  valid 738886 /\ 738886 <= 738892 /\ 738892 < 738899 /\ 738899 < MAXORD
  /\ exists a b,
      generate_simple_pattern 738886 738892 [0; 2] [738888] = Return a
      /\ generate_simple_pattern (738892 + 1) 738899 [0; 2] [738888] = Return b
      /\ generate_simple_pattern 738886 738899 [0; 2] [738888] = Return (a ++ b).
Proof.
  assert (V : valid 738886) by (unfold valid, MINORD, MAXORD; lia).
  split; [exact V|]. split; [lia|]. split; [lia|]. split; [unfold MAXORD; lia|].
  apply (generate_simple_pattern_split 738886 738892 738899 [0; 2] [738888]);
    [exact V|lia|lia|unfold MAXORD; lia].
Defined.

End EnumeratorsAgain.

(** ** The generators of the schedule screen *)

Section ScreenGenerators.

Import PyDate Scheduler SchedulerRest Schedule ScheduleRest.

(** X9.  The screen's [_generate_simple] is the core enumerator
    [generate_simple_pattern] run over the first weeks of the window, from
    the start date to the earlier of the end date and the last day of the
    chosen number of weeks, with the picked weekday names turned into
    indices and one row dict per date.  It raises where computing that last
    day or the core loop raises. *)
Theorem generate_simple_is_core_pattern
        (scr : Screen) (H : list date) (weekdays : list string) (slot kind : string) :
  _generate_simple scr (list_to_set H) weekdays slot kind
  = do limit_ed <- add_days (scr_sd scr) (scr_pick_weeks_count scr * 7 - 1);
    omap_outcome (map (new_row scr slot kind))
                 (generate_simple_pattern
                    (scr_sd scr) (Z.min (scr_ed scr) limit_ed)
                    (omap (fun d => index_of d mon_to_sat) weekdays) H).
Proof.
  unfold _generate_simple.
  destruct (add_days (scr_sd scr) _) as [limit_ed| |]; cbn [obind]; try reflexivity.
  unfold generate_simple_pattern, picks_of, _normalize_holidays. cbv zeta.
  destruct (Z.gtb_spec (scr_sd scr) (Z.min (scr_ed scr) limit_ed)) as [Hgt|Hle].
  - unfold span_fuel. cbn [generate_loop].
    destruct (Z.leb_spec (scr_sd scr) (Z.min (scr_ed scr) limit_ed)); [lia|reflexivity].
  - rewrite generate_loop_dates.
    destruct (simple_loop _ _ _ _ _ _); reflexivity.
Qed.

Lemma ab_week_run ws sd last (use holi : gset Z) (mk : date -> Row) :
  forall days rows,
    (forall i, In i days -> MINORD <= ws + i <= MAXORD) ->
    ab_week days ws sd last use holi mk rows
    = Return (rows ++ map mk (List.filter (fun d => between d sd last && keep use holi d)
                                          (map (fun i => ws + i) days))).
Proof.
  induction days as [|i days IH]; intros rows Hr.
  - cbn. now rewrite app_nil_r.
  - cbn [ab_week map List.filter].
    rewrite add_days_ok by (apply Hr; now left). cbn [obind].
    rewrite IH by (intros j Hj; apply Hr; now right).
    f_equal. unfold between, keep.
    destruct (Z.ltb_spec (ws + i) sd), (Z.gtb_spec (ws + i) last),
      (Z.leb_spec sd (ws + i)), (Z.leb_spec (ws + i) last); try lia;
      cbn [orb andb]; try reflexivity.
    destruct (bool_decide _ && bool_decide _); [|reflexivity].
    cbn [map]. now rewrite <- app_assoc.
Qed.

Lemma ab_week_overflow ws sd last (use holi : gset Z) (mk : date -> Row) :
  forall days rows,
    (forall i, In i days -> MINORD <= ws + i) ->
    (exists i, In i days /\ MAXORD < ws + i) ->
    ab_week days ws sd last use holi mk rows = Raise OverflowError.
Proof.
  induction days as [|i days IH]; intros rows Hlo (j & Hj & Hov); [contradiction|].
  cbn [ab_week]. unfold add_days, in_range.
  destruct (Z.leb_spec MINORD (ws + i)); [|specialize (Hlo i (or_introl eq_refl)); lia].
  destruct (Z.leb_spec (ws + i) MAXORD); cbn [andb obind]; [|reflexivity].
  apply IH; [intros k Hk; apply Hlo; now right|].
  destruct Hj as [->|Hj]; [lia|]. exists j. split; assumption.
Qed.

Lemma range7_days ws : map (fun i => ws + i) range7 = days_from ws 7.
Proof.
  cbn. repeat (f_equal; try lia).
Qed.

Lemma week_of_day sd w d : sd + 7 * w <= d <= sd + 7 * w + 6 -> (d - sd) / 7 = w.
Proof. intros H. Z.div_mod_to_equations. lia. Qed.

Lemma ab_loop_run sd last (A B holi : gset Z) (mk : date -> Row) :
  MINORD <= sd ->
  forall k fuel w rows,
    0 <= w -> (k < fuel)%nat ->
    last < sd + 7 * (w + Z.of_nat k) ->
    ((0 < k)%nat -> sd + 7 * (w + Z.of_nat k - 1) <= last) ->
    sd + 7 * (w + Z.of_nat k) <= MAXORD ->
    ab_loop fuel sd last A B holi mk w (sd + 7 * w) rows
    = Return (rows ++ map mk (List.filter (keep_alt sd A B holi)
                                (days_from (sd + 7 * w)
                                           (Z.to_nat (last - (sd + 7 * w) + 1))))).
Proof.
  intros Hsd. induction k as [|k IH]; intros fuel w rows Hw Hf Hlt Hge Hmax.
  - destruct fuel as [|fuel]; [lia|]. cbn [ab_loop].
    destruct (Z.leb_spec (sd + 7 * w) last); [lia|].
    replace (Z.to_nat (last - (sd + 7 * w) + 1)) with 0%nat by lia.
    cbn. now rewrite app_nil_r.
  - destruct fuel as [|fuel]; [lia|]. cbn [ab_loop].
    specialize (Hge ltac:(lia)).
    destruct (Z.leb_spec (sd + 7 * w) last); [|lia].
    unfold MINORD in *.
    rewrite add_days_ok by (unfold MINORD; lia). cbn [obind].
    rewrite ab_week_run
      by (intros i Hi; unfold MINORD; cbn in Hi; lia).
    cbn [obind]. rewrite add_days_ok by (unfold MINORD; lia). cbn [obind].
    rewrite (IH fuel (w + 1) _ ltac:(lia) ltac:(lia) ltac:(lia) ltac:(lia) ltac:(lia)).
    rewrite <- app_assoc, <- map_app. f_equal. f_equal. f_equal.
    rewrite range7_days.
    set (ws := sd + 7 * w).
    set (use := if w mod 2 =? 0 then A else B).
    assert (Hweek : forall d, ws <= d <= ws + 6 ->
                              keep_alt sd A B holi d = keep use holi d).
    { intros d Hd. unfold keep_alt, days_between.
      rewrite (week_of_day sd w d) by (subst ws; lia). reflexivity. }
    destruct k as [|k].
    + replace (Z.to_nat (last - (sd + 7 * (w + 1)) + 1)) with 0%nat by lia.
      change (days_from (sd + 7 * (w + 1)) 0) with (@nil date).
      cbn [List.filter]. rewrite app_nil_r.
      set (n := Z.to_nat (last - ws + 1)).
      assert (Hn : (n <= 7)%nat) by (subst n ws; lia).
      replace 7%nat with (n + (7 - n))%nat by lia.
      rewrite days_from_app, List.filter_app.
      rewrite (filter_nil_of_none _ (days_from (ws + Z.of_nat n) (7 - n))).
      * rewrite app_nil_r. apply filter_ext_in'. intros d Hd.
        apply in_days_from in Hd. rewrite Hweek by (subst n; lia).
        unfold between.
        destruct (Z.leb_spec sd d); [|subst ws; lia].
        destruct (Z.leb_spec d last); [|subst n ws; lia]. reflexivity.
      * intros d Hd. apply in_days_from in Hd. unfold between.
        destruct (Z.leb_spec d last); [subst n ws; lia|].
        now rewrite andb_false_r.
    + replace (Z.to_nat (last - ws + 1))
        with (7 + Z.to_nat (last - (sd + 7 * (w + 1)) + 1))%nat by (subst ws; lia).
      rewrite days_from_app, List.filter_app.
      replace (ws + Z.of_nat 7) with (sd + 7 * (w + 1)) by (subst ws; lia).
      f_equal. apply filter_ext_in'. intros d Hd.
      apply in_days_from in Hd. rewrite Hweek by lia.
      unfold between.
      destruct (Z.leb_spec sd d); [|subst ws; lia].
      destruct (Z.leb_spec d last); [|subst ws; lia]. reflexivity.
Qed.

Lemma ab_loop_overflow sd last (A B holi : gset Z) (mk : date -> Row) :
  MINORD <= sd -> last <= MAXORD ->
  forall k fuel w rows,
    0 <= w -> (S k < fuel)%nat ->
    sd + 7 * (w + Z.of_nat k) <= last < sd + 7 * (w + Z.of_nat k + 1) ->
    MAXORD < sd + 7 * (w + Z.of_nat k + 1) ->
    ab_loop fuel sd last A B holi mk w (sd + 7 * w) rows = Raise OverflowError.
Proof.
  intros Hsd Hlast. induction k as [|k IH]; intros fuel w rows Hw Hf Hin Hov;
    (destruct fuel as [|fuel]; [lia|]); cbn [ab_loop];
    (destruct (Z.leb_spec (sd + 7 * w) last); [|lia]);
    unfold MINORD in *;
    rewrite add_days_ok by (unfold MINORD; lia); cbn [obind].
  - destruct (Z_le_gt_dec (sd + 7 * w + 6) MAXORD) as [Hfit|Hout].
    + rewrite ab_week_run by (intros i Hi; unfold MINORD; cbn in Hi; lia).
      cbn [obind]. rewrite add_days_overflow by lia. reflexivity.
    + rewrite ab_week_overflow; [reflexivity| |].
      * intros i Hi. unfold MINORD. cbn in Hi. lia.
      * exists 6. split; [cbn; tauto|lia].
  - rewrite ab_week_run by (intros i Hi; unfold MINORD, MAXORD in *; cbn in Hi; lia).
    cbn [obind]. rewrite add_days_ok by (unfold MINORD, MAXORD in *; lia). cbn [obind].
    apply IH; lia.
Qed.

(** X10.  The screen's [_generate_ab] walks week by week and computes every
    day of a week before it tests the day against the window.  When the
    Monday-style start of the week after the last one is still a date, it
    returns the rows of the core [generate_alternating_pattern] over the
    same window; when it is not, the call raises [OverflowError]. *)
Theorem generate_ab_is_core_pattern
        (scr : Screen) (H : list date) (weekA weekB : list string) (slot kind : string)
        (limit_ed : date) :
  valid (scr_sd scr) ->
  add_days (scr_sd scr) (scr_pick_weeks_count scr * 7 - 1) = Return limit_ed ->
  let last := Z.min (scr_ed scr) limit_ed in
  let after := scr_sd scr + 7 * ((last - scr_sd scr) / 7 + 1) in
  (scr_sd scr > last \/ after <= MAXORD ->
   _generate_ab scr (list_to_set H) weekA weekB slot kind
   = omap_outcome (map (new_row scr slot kind))
                  (generate_alternating_pattern
                     (scr_sd scr) last
                     (omap (fun d => index_of d mon_to_sat) weekA)
                     (omap (fun d => index_of d mon_to_sat) weekB) H))
  /\ (scr_sd scr <= last -> MAXORD < after ->
      _generate_ab scr (list_to_set H) weekA weekB slot kind = Raise OverflowError).
Proof.
  intros [Hsd Hsd'] Hlim last after.
  assert (Hlimv : limit_ed <= MAXORD).
  { unfold add_days, in_range in Hlim.
    destruct (Z.leb_spec MINORD (scr_sd scr + (scr_pick_weeks_count scr * 7 - 1)));
      [|discriminate].
    destruct (Z.leb_spec (scr_sd scr + (scr_pick_weeks_count scr * 7 - 1)) MAXORD);
      [|discriminate].
    injection Hlim as <-. assumption. }
  unfold _generate_ab. rewrite Hlim. cbn [obind]. fold last.
  unfold generate_alternating_pattern, picks_of, _normalize_holidays. cbv zeta.
  assert (E0 : scr_sd scr + 7 * 0 = scr_sd scr) by lia.
  split.
  - intros Hc. destruct (Z.gtb_spec (scr_sd scr) last) as [Hgt|Hle].
    + unfold span_fuel. cbn [ab_loop].
      destruct (Z.leb_spec (scr_sd scr) last); [lia|reflexivity].
    + destruct Hc as [Hc|Hc]; [lia|]. subst after.
      assert (Hq : 0 <= (last - scr_sd scr) / 7) by (apply Z.div_pos; lia).
      assert (Hq' : 7 * ((last - scr_sd scr) / 7) <= last - scr_sd scr
                    < 7 * ((last - scr_sd scr) / 7) + 7)
        by (Z.div_mod_to_equations; lia).
      pose proof (ab_loop_run (scr_sd scr) last
                    (list_to_set (omap (fun d => index_of d mon_to_sat) weekA))
                    (list_to_set (omap (fun d => index_of d mon_to_sat) weekB))
                    (list_to_set H) (new_row scr slot kind) Hsd
                    (Z.to_nat ((last - scr_sd scr) / 7 + 1))
                    (span_fuel (scr_sd scr) last) 0 []) as R.
      rewrite E0 in R. rewrite R by (unfold span_fuel; lia).
      rewrite (alternating_loop_run _ _ _ _ last ltac:(lia)
                 (Z.to_nat (last - scr_sd scr + 1)))
        by (unfold span_fuel; lia).
      reflexivity.
  - intros Hle Hov. subst after.
    assert (Hq : 0 <= (last - scr_sd scr) / 7) by (apply Z.div_pos; lia).
    assert (Hq' : 7 * ((last - scr_sd scr) / 7) <= last - scr_sd scr
                  < 7 * ((last - scr_sd scr) / 7) + 7)
      by (Z.div_mod_to_equations; lia).
    pose proof (ab_loop_overflow (scr_sd scr) last
                  (list_to_set (omap (fun d => index_of d mon_to_sat) weekA))
                  (list_to_set (omap (fun d => index_of d mon_to_sat) weekB))
                  (list_to_set H) (new_row scr slot kind) Hsd ltac:(subst last; lia)
                  (Z.to_nat ((last - scr_sd scr) / 7))
                  (span_fuel (scr_sd scr) last) 0 []) as R.
    rewrite E0 in R. apply R; unfold span_fuel; lia.
Qed.

Lemma generate_ab_is_core_pattern_witness :
  valid (scr_sd Fixtures.two_weeks)
  /\ add_days (scr_sd Fixtures.two_weeks) (scr_pick_weeks_count Fixtures.two_weeks * 7 - 1)
     = Return 738899
  /\ _generate_ab Fixtures.two_weeks (list_to_set [738888]) ["Mon"; "Wed"] ["Tue"]
                  "morning" "lecture"
     = omap_outcome (map (new_row Fixtures.two_weeks "morning" "lecture"))
                    (generate_alternating_pattern
                       738886 738899
                       (omap (fun d => index_of d mon_to_sat) ["Mon"; "Wed"])
                       (omap (fun d => index_of d mon_to_sat) ["Tue"]) [738888])
  /\ valid (scr_sd FixturesRest.last_week)
  /\ add_days (scr_sd FixturesRest.last_week)
              (scr_pick_weeks_count FixturesRest.last_week * 7 - 1) = Return MAXORD
  /\ _generate_ab FixturesRest.last_week (list_to_set []) ["Mon"] ["Tue"] "morning" "lecture"
     = Raise OverflowError.
Proof.
  assert (V1 : valid (scr_sd Fixtures.two_weeks)) by (vm_compute; split; discriminate).
  assert (V2 : valid (scr_sd FixturesRest.last_week)) by (vm_compute; split; discriminate).
  split; [exact V1|]. split; [reflexivity|]. split.
  - apply (generate_ab_is_core_pattern Fixtures.two_weeks [738888] ["Mon"; "Wed"] ["Tue"]
             "morning" "lecture" 738899 V1 eq_refl).
    right. vm_compute. discriminate.
  - split; [exact V2|]. split; [reflexivity|].
    apply (generate_ab_is_core_pattern FixturesRest.last_week [] ["Mon"] ["Tue"]
             "morning" "lecture" MAXORD V2 eq_refl).
    + vm_compute. discriminate.
    + vm_compute. reflexivity.
Defined.

Lemma tail_week_is_ab_week ws sd ed (idxs holi : gset Z) (mk : date -> Row) :
  forall days rows,
    tail_week days ws sd ed idxs holi mk rows = ab_week days ws sd ed idxs holi mk rows.
Proof.
  induction days as [|i days IH]; intros rows; [reflexivity|].
  cbn [tail_week ab_week]. destruct (add_days ws i); cbn [obind]; [apply IH|reflexivity|reflexivity].
Qed.

Lemma tail_rows_run (per : gmap Z (list string)) sd ed (holi : gset Z) (mk : date -> Row) :
  forall pw rows,
    (forall w, In w pw -> MINORD <= sd + 7 * (w - 1) /\ sd + 7 * (w - 1) + 6 <= MAXORD) ->
    tail_rows pw per sd ed holi mk rows
    = Return (rows ++ map mk
                (flat_map
                   (fun w => List.filter
                               (fun d => between d sd ed
                                         && keep (idxs_of (default [] (per !! w))) holi d)
                               (days_from (sd + 7 * (w - 1)) 7))
                   pw)).
Proof.
  induction pw as [|w pw IH]; intros rows Hw.
  - cbn. now rewrite app_nil_r.
  - cbn [tail_rows flat_map].
    destruct (Hw w (or_introl eq_refl)) as [Hlo Hhi]. unfold MINORD, MAXORD in *.
    rewrite add_days_ok by (unfold MINORD, MAXORD; lia). cbn [obind].
    rewrite tail_week_is_ab_week.
    rewrite ab_week_run by (intros i Hi; unfold MINORD, MAXORD; cbn in Hi; lia).
    cbn [obind]. rewrite IH by (intros v Hv; apply Hw; now right).
    rewrite range7_days, map_app, app_assoc. reflexivity.
Qed.

(** X11.  The tail-weeks button, for picked weeks that lie within the dates
    of [date]: it produces one row for each day that is in a picked week,
    inside the window, not a holiday, and on a weekday chosen for that
    week; a week with no entry in the per-week choices contributes
    nothing.  Picked weeks that are all different give no date twice. *)
Theorem tail_weeks_rows
        (pick_weeks : list Z) (per_wk_days : gmap Z (list string)) (sd ed : date)
        (holi : gset Z) (mk : date -> Row) :
  (forall w, In w pick_weeks ->
             MINORD <= sd + 7 * (w - 1) /\ sd + 7 * (w - 1) + 6 <= MAXORD) ->
  exists dates,
    tail_rows pick_weeks per_wk_days sd ed holi mk [] = Return (map mk dates)
    /\ (forall d, In d dates <->
                  exists w, In w pick_weeks
                            /\ sd + 7 * (w - 1) <= d <= sd + 7 * (w - 1) + 6
                            /\ sd <= d <= ed
                            /\ weekday d ∈ idxs_of (default [] (per_wk_days !! w))
                            /\ d ∉ holi)
    /\ (List.NoDup pick_weeks -> List.NoDup dates).
Proof.
  intros Hw. eexists. split; [apply (tail_rows_run _ _ _ _ _ _ [] Hw)|].
  assert (Hin : forall pw d,
             In d (flat_map
                     (fun w => List.filter
                                 (fun d => between d sd ed
                                           && keep (idxs_of (default [] (per_wk_days !! w)))
                                                   holi d)
                                 (days_from (sd + 7 * (w - 1)) 7)) pw)
             <-> exists w, In w pw
                           /\ sd + 7 * (w - 1) <= d <= sd + 7 * (w - 1) + 6
                           /\ sd <= d <= ed
                           /\ weekday d ∈ idxs_of (default [] (per_wk_days !! w))
                           /\ d ∉ holi).
  { intros pw d. rewrite in_flat_map. split.
    - intros (w & Hin & Hd). exists w. split; [exact Hin|].
      apply List.filter_In in Hd. destruct Hd as [Hd Hk].
      apply in_days_from in Hd. apply andb_prop in Hk. destruct Hk as [Hb Hk].
      apply between_true in Hb. unfold keep in Hk. apply andb_prop in Hk.
      destruct Hk as [K1 K2]. apply bool_decide_eq_true in K1, K2.
      repeat split; try lia; assumption.
    - intros (w & Hin & Hd & Hb & K1 & K2). exists w. split; [exact Hin|].
      apply List.filter_In. split; [apply in_days_from; lia|].
      apply andb_true_intro. split; [apply between_true; exact Hb|].
      unfold keep. apply andb_true_intro.
      split; apply bool_decide_eq_true; assumption. }
  split; [apply Hin|].
  clear Hw. induction pick_weeks as [|w pw IH]; intros Hnd; [constructor|].
  cbn [flat_map]. inversion Hnd as [|? ? Hnot Hnd']; subst.
  apply List.NoDup_app.
  - apply sorted_lt_NoDup, filter_sorted, days_from_sorted.
  - apply IH, Hnd'.
  - intros d Hd1 Hd2. apply Hin in Hd2. destruct Hd2 as (w' & Hw' & Hr & _).
    apply List.filter_In in Hd1. destruct Hd1 as [Hd1 _]. apply in_days_from in Hd1.
    assert (w' = w) by lia. subst w'. contradiction.
Qed.

Lemma tail_weeks_rows_witness :
  (forall w, In w [2] ->
             MINORD <= 738886 + 7 * (w - 1) /\ 738886 + 7 * (w - 1) + 6 <= MAXORD)
  /\ exists dates,
      tail_rows [2] FixturesRest.week_two_days 738886 738899 ∅
                (new_row Fixtures.two_weeks "morning" "lecture") []
      = Return (map (new_row Fixtures.two_weeks "morning" "lecture") dates)
      /\ (List.NoDup [2] -> List.NoDup dates).
Proof.
  assert (Hw : forall w, In w [2] ->
                         MINORD <= 738886 + 7 * (w - 1)
                         /\ 738886 + 7 * (w - 1) + 6 <= MAXORD).
  { intros w [<-|[]]. unfold MINORD, MAXORD. lia. }
  split; [exact Hw|].
  destruct (tail_weeks_rows [2] FixturesRest.week_two_days 738886 738899 ∅
              (new_row Fixtures.two_weeks "morning" "lecture") Hw)
    as (dates & E & _ & Hnd).
  exists dates. split; [exact E|exact Hnd].
Defined.

End ScreenGenerators.

(** ** The editor buttons of the schedule screen *)

Section EditorButtons.

Import PyDate Schedule ScheduleRest.

Lemma shortfall_check_returns sid sd ed p ins by_ sem br label db :
  snd (shortfall_check sid sd ed (p :: ins) by_ sem br label db) = Return tt.
Proof.
  unfold shortfall_check.
  destruct (_subject_targets db sid) as [reqL reqS].
  destruct (truthy reqL || truthy reqS); [|reflexivity].
  destruct (planned db sid by_ sem br sd ed) as [curL curS].
  destruct (truthy _ || truthy _); reflexivity.
Qed.

Lemma not_holiday_in_window db sd ed d :
  bool_decide (d ∈ _holidays_between db sd ed) = false ->
  bool_decide (d ∉ (list_to_set (_holidays_between db sd ed) : gset Z)) = true.
Proof.
  intros H. apply bool_decide_eq_false in H. apply bool_decide_eq_true.
  intros Hin. apply H. now apply elem_of_list_to_set in Hin.
Qed.

Lemma holiday_in_window db sd ed d :
  d ∈ _holidays_between db sd ed <-> In d (holidays (catalog db)) /\ sd <= d <= ed.
Proof.
  rewrite <- holidays_between_spec. now rewrite elem_of_list_to_set.
Qed.

(** The "Add" button on a date it accepts. *)
Lemma add_one_day_accepts scr d slot kind L S db :
  scr_sd scr <= d <= scr_ed scr ->
  ~ In d (holidays (catalog db)) ->
  add_one_day scr d slot kind L S db
  = let p := stamp (scr_batch_year scr) (scr_sem_choice scr) (scr_branch_id scr)
                   (added_row scr d slot kind L S) in
    let del := delete_sessions (day_slot scr d slot) db in
    if sqlite_int L && sqlite_int S
    then (fst (shortfall_check (scr_subject_id scr) (scr_sd scr) (scr_ed scr) [p]
                               (scr_batch_year scr) (scr_sem_choice scr) (scr_branch_id scr)
                               "Add one day" (insert_sessions [to_session p] del)),
          Return (st_success "Added."))
    else (del, Return (add_failed OverflowError)).
Proof.
  intros Hd Hh. unfold add_one_day.
  destruct (Z.gtb_spec (scr_sd scr) (scr_ed scr)); [lia|].
  destruct (Z.ltb_spec d (scr_sd scr)); [lia|].
  destruct (Z.gtb_spec d (scr_ed scr)); [lia|]. cbn [orb].
  match goal with |- context [@bool_decide ?P ?D] => destruct (@bool_decide P D) eqn:Eh end.
  { apply bool_decide_eq_true in Eh. apply holiday_in_window in Eh. tauto. }
  rewrite merge_and_save_run by discriminate. cbv zeta.
  unfold stamped_batch. cbv zeta. cbn [List.filter].
  change (r_session_date (added_row scr d slot kind L S)) with d.
  rewrite (not_holiday_in_window _ _ _ _ Eh). cbn [map].
  set (p := stamp _ _ _ _).
  assert (Es : savable [p] = sqlite_int L && sqlite_int S).
  { unfold savable. cbn [forallb].
    rewrite bool_decide_eq_true_2 by reflexivity. cbn [andb].
    now rewrite andb_true_r. }
  rewrite Es.
  change (delete_collisions (scr_batch_year scr) (scr_sem_choice scr) (scr_branch_id scr)
                            [p] db)
    with (delete_sessions (day_slot scr d slot) db).
  destruct (sqlite_int L && sqlite_int S); [|reflexivity].
  pose proof (shortfall_check_returns (scr_subject_id scr) (scr_sd scr) (scr_ed scr) p []
                (scr_batch_year scr) (scr_sem_choice scr) (scr_branch_id scr)
                "Add one day"
                (insert_sessions [to_session p] (delete_sessions (day_slot scr d slot) db)))
    as Hr.
  destruct (shortfall_check _ _ _ [p] _ _ _ _ _) as [db' o].
  cbn [fst snd] in *. subst o. reflexivity.
Qed.

(** The session table after the "Add" button has accepted a date. *)
Lemma add_one_day_run scr d slot kind L S db :
  scr_sd scr <= d <= scr_ed scr ->
  ~ In d (holidays (catalog db)) ->
  if sqlite_int L && sqlite_int S
  then snd (add_one_day scr d slot kind L S db) = Return (st_success "Added.")
       /\ exists k,
           subject_sessions (fst (add_one_day scr d slot kind L S db))
           = List.filter (fun x => negb (day_slot scr d slot (snd x))) (subject_sessions db)
             ++ [(k, to_session (stamp (scr_batch_year scr) (scr_sem_choice scr)
                                       (scr_branch_id scr)
                                       (added_row scr d slot kind L S)))]
  else snd (add_one_day scr d slot kind L S db) = Return (add_failed OverflowError)
       /\ subject_sessions (fst (add_one_day scr d slot kind L S db))
          = List.filter (fun x => negb (day_slot scr d slot (snd x))) (subject_sessions db).
Proof.
  intros Hd Hh. rewrite (add_one_day_accepts scr d slot kind L S db Hd Hh). cbv zeta.
  destruct (sqlite_int L && sqlite_int S); cbn [fst snd].
  - split; [reflexivity|].
    match goal with
    | |- context [shortfall_check ?a ?b ?c ?i ?e ?f ?g ?h ?x] =>
        destruct (shortfall_check_frame a b c i e f g h x) as (_ & -> & _)
    end.
    eexists. reflexivity.
  - split; reflexivity.
Qed.

Lemma add_one_day_rejects scr d slot kind L S db :
  ~ (scr_sd scr <= d <= scr_ed scr /\ ~ In d (holidays (catalog db))) ->
  fst (add_one_day scr d slot kind L S db) = db
  /\ exists msg, snd (add_one_day scr d slot kind L S db) = Return (st_error msg).
Proof.
  intros Hn. unfold add_one_day.
  destruct (Z.gtb_spec (scr_sd scr) (scr_ed scr)); [split; [reflexivity|eexists; reflexivity]|].
  destruct (Z.ltb_spec d (scr_sd scr)); [split; [reflexivity|eexists; reflexivity]|].
  destruct (Z.gtb_spec d (scr_ed scr)); [split; [reflexivity|eexists; reflexivity]|].
  cbn [orb].
  match goal with |- context [@bool_decide ?P ?D] => destruct (@bool_decide P D) eqn:Eh end;
    [split; [reflexivity|eexists; reflexivity]|].
  exfalso. apply Hn. split; [lia|]. intros Hin.
  apply bool_decide_eq_false in Eh. apply Eh. apply holiday_in_window. split; [exact Hin|lia].
Qed.

Lemma in_holidays_dec (d : date) (l : list date) : In d l \/ ~ In d l.
Proof. destruct (in_dec Z.eq_dec d l); [now left|now right]. Qed.



(** A lecture count of [2^63], which the widget (0 to 10) does not give:
    the date is accepted, the insert raises, and the handler reports it. *)
Example add_one_day_huge_count :
  add_one_day Fixtures.two_weeks 738887 "morning" "lecture" 9223372036854775808 0
              Fixtures.empty_db
  = (Fixtures.empty_db, Return (add_failed OverflowError)).
Proof. vm_compute. reflexivity. Qed.

Lemma filter_permutation {A} (f : A -> bool) l l' :
  Permutation l l' -> Permutation (List.filter f l) (List.filter f l').
Proof.
  induction 1 as [|x l l' _ IH|x y l|l l' l'' _ IH1 _ IH2]; cbn [List.filter].
  - constructor.
  - destruct (f x); [now constructor|exact IH].
  - destruct (f x), (f y); try reflexivity. constructor.
  - now transitivity (List.filter f l').
Qed.

Lemma filter_map_comm {A B} (f : B -> bool) (g : A -> B) l :
  List.filter f (map g l) = map g (List.filter (fun x => f (g x)) l).
Proof.
  induction l as [|x l IH]; [reflexivity|]. cbn [map List.filter].
  destruct (f (g x)); cbn [map]; now rewrite IH.
Qed.

(** What the editor shows, up to the order of the rows. *)
Lemma sessions_for_permutation db sid topic by_ sem br start end_ :
  Permutation (_sessions_for db sid topic by_ sem br start end_)
              (map show (List.filter (fun x => in_view sid topic by_ sem br start end_ (snd x))
                                     (subject_sessions db))).
Proof.
  unfold _sessions_for. apply Permutation_map. apply merge_sort_Permutation.
Qed.

Lemma day_slot_in_view scr d ds start end_ s :
  in_view (scr_subject_id scr) (scr_topic_id scr) (scr_batch_year scr)
          (scr_sem_choice scr) (scr_branch_id scr) start end_ s = true ->
  day_slot scr d ds s = (session_date s =? d) && lower_eq (slot s) ds.
Proof.
  unfold in_view, day_slot. intros H.
  repeat (apply andb_prop in H; destruct H as [H ?]).
  rewrite H, H1, H2, H3, H4. cbn [andb]. f_equal.
  unfold lower_eq. now rewrite lower_idem.
Qed.

Lemma day_slot_added scr d slot kind L S :
  day_slot scr d slot
           (to_session (stamp (scr_batch_year scr) (scr_sem_choice scr) (scr_branch_id scr)
                              (added_row scr d slot kind L S))) = true.
Proof.
  unfold day_slot, to_session, stamp, added_row, null_eq, col_eq, lower_eq.
  cbn. rewrite !Z.eqb_refl, lower_idem, String.eqb_refl. reflexivity.
Qed.

(** X13.  After the "Add" button has accepted a date, with lecture and
    studio counts that SQLite can hold, the editor's query for the
    screen's window shows exactly one session on that day and slot: the one
    just added, with the slot and kind in lower case and the lecture and
    studio counts that were entered.  With a larger count it shows none on
    that day and slot. *)
Theorem add_one_day_shown
        (scr : Screen) (d : date) (slot kind : string) (L S : Z) (db : Db.t) :
  scr_sd scr <= d <= scr_ed scr ->
  ~ In d (holidays (catalog db)) ->
  exists k,
    List.filter (fun v => (v_session_date v =? d) && lower_eq (v_slot v) slot)
                (_sessions_for (fst (add_one_day scr d slot kind L S db))
                               (scr_subject_id scr) (scr_topic_id scr) (scr_batch_year scr)
                               (scr_sem_choice scr) (scr_branch_id scr)
                               (scr_sd scr) (scr_ed scr))
    = if sqlite_int L && sqlite_int S
      then [{| v_id := k;
               v_session_date := d;
               v_slot := Text.lower slot;
               v_kind := Text.lower kind;
               v_lectures := L;
               v_studios := S;
               v_lecture_notes := "";
               v_studio_notes := "";
               v_assignment_id := None;
               v_due_date := None;
               v_completed := "" |}]
      else [].
Proof.
  intros Hd Hh.
  pose proof (add_one_day_run scr d slot kind L S db Hd Hh) as Hrun.
  assert (Hold : forall x,
             negb (day_slot scr d slot (snd x))
             && (in_view (scr_subject_id scr) (scr_topic_id scr) (scr_batch_year scr)
                         (scr_sem_choice scr) (scr_branch_id scr) (scr_sd scr) (scr_ed scr)
                         (snd x)
                 && ((v_session_date (show x) =? d) && lower_eq (v_slot (show x)) slot))
             = false).
  { intros x.
    destruct (in_view _ _ _ _ _ _ _ (snd x)) eqn:Ei; [|now rewrite andb_false_r].
    rewrite (day_slot_in_view scr d slot _ _ _ Ei).
    unfold show. cbn [v_session_date v_slot].
    destruct ((session_date (snd x) =? d) && lower_eq (Db.slot (snd x)) slot); reflexivity. }
  destruct (sqlite_int L && sqlite_int S).
  - destruct Hrun as (_ & k & Hss). exists k.
    set (new := to_session _) in Hss.
    unfold _sessions_for. rewrite filter_map_comm, Hss.
    assert (Hnew : in_view (scr_subject_id scr) (scr_topic_id scr) (scr_batch_year scr)
                           (scr_sem_choice scr) (scr_branch_id scr) (scr_sd scr) (scr_ed scr)
                           (snd (k, new)) = true).
    { subst new. unfold in_view, to_session, stamp, added_row, null_eq, col_eq, between.
      cbn. rewrite !Z.eqb_refl. cbn [andb].
      destruct (Z.leb_spec (scr_sd scr) d); [|lia].
      destruct (Z.leb_spec d (scr_ed scr)); [|lia]. reflexivity. }
    assert (Hq : (v_session_date (show (k, new)) =? d)
                 && lower_eq (v_slot (show (k, new))) slot = true).
    { subst new. unfold show, to_session, stamp, added_row, lower_eq. cbn.
      now rewrite Z.eqb_refl, lower_idem, String.eqb_refl. }
    match goal with |- map show ?l = _ => assert (Hp : Permutation l [(k, new)]) end.
    { etransitivity; [apply filter_permutation, merge_sort_Permutation|].
      rewrite !List.filter_app. cbn [List.filter]. rewrite Hnew. cbn [List.filter].
      rewrite Hq. rewrite !filter_filter_both.
      rewrite filter_nil_of_none; [reflexivity|].
      intros x _. apply Hold. }
    apply Permutation_sym, Permutation_length_1_inv in Hp. rewrite Hp. reflexivity.
  - destruct Hrun as (_ & Hss). exists 0.
    unfold _sessions_for. rewrite filter_map_comm, Hss.
    match goal with |- map show ?l = _ => assert (Hp : Permutation l []) end.
    { etransitivity; [apply filter_permutation, merge_sort_Permutation|].
      rewrite !filter_filter_both.
      rewrite filter_nil_of_none; [reflexivity|].
      intros x _. apply Hold. }
    apply Permutation_sym, Permutation_nil in Hp. rewrite Hp. reflexivity.
Qed.

Lemma add_one_day_shown_witness :
  scr_sd Fixtures.two_weeks <= 738887 <= scr_ed Fixtures.two_weeks
  /\ ~ In 738887 (holidays (catalog Fixtures.empty_db))
  /\ exists k,
      List.filter (fun v => (v_session_date v =? 738887) && lower_eq (v_slot v) "Morning")
                  (_sessions_for
                     (fst (add_one_day Fixtures.two_weeks 738887 "Morning" "Lecture" 1 0
                                       Fixtures.empty_db))
                     (scr_subject_id Fixtures.two_weeks) (scr_topic_id Fixtures.two_weeks)
                     (scr_batch_year Fixtures.two_weeks) (scr_sem_choice Fixtures.two_weeks)
                     (scr_branch_id Fixtures.two_weeks)
                     (scr_sd Fixtures.two_weeks) (scr_ed Fixtures.two_weeks))
      = [{| v_id := k;
            v_session_date := 738887;
            v_slot := Text.lower "Morning";
            v_kind := Text.lower "Lecture";
            v_lectures := 1;
            v_studios := 0;
            v_lecture_notes := "";
            v_studio_notes := "";
            v_assignment_id := None;
            v_due_date := None;
            v_completed := "" |}].
Proof.
  assert (H1 : scr_sd Fixtures.two_weeks <= 738887 <= scr_ed Fixtures.two_weeks)
    by (vm_compute; split; discriminate).
  assert (H2 : ~ In 738887 (holidays (catalog Fixtures.empty_db))) by (simpl; tauto).
  split; [exact H1|]. split; [exact H2|].
  exact (add_one_day_shown Fixtures.two_weeks 738887 "Morning" "Lecture" 1 0
           Fixtures.empty_db H1 H2).
Defined.

(** X14.  "Delete selected day" undoes "Add": deleting the day and slot
    that was just added leaves the session table, ids included, as
    deleting that day and slot from the table before the addition, whether
    the addition was accepted or refused. *)
Theorem add_then_delete
        (scr : Screen) (d : date) (slot kind : string) (L S : Z) (db : Db.t) :
  subject_sessions
    (delete_one_day scr d slot (fst (add_one_day scr d slot kind L S db)))
  = subject_sessions (delete_one_day scr d slot db).
Proof.
  destruct (in_holidays_dec d (holidays (catalog db))) as [Hh|Hh];
    [rewrite (proj1 (add_one_day_rejects scr d slot kind L S db ltac:(tauto)));
     reflexivity|].
  destruct (Z_le_dec (scr_sd scr) d) as [H1|H1];
    [|rewrite (proj1 (add_one_day_rejects scr d slot kind L S db ltac:(lia)));
      reflexivity].
  destruct (Z_le_dec d (scr_ed scr)) as [H2|H2];
    [|rewrite (proj1 (add_one_day_rejects scr d slot kind L S db ltac:(lia)));
      reflexivity].
  pose proof (add_one_day_run scr d slot kind L S db ltac:(lia) Hh) as Hrun.
  unfold delete_one_day. destruct (Z.gtb_spec (scr_sd scr) (scr_ed scr)); [lia|].
  unfold delete_sessions. cbn [subject_sessions].
  destruct (sqlite_int L && sqlite_int S).
  - destruct Hrun as (_ & k & Hss). rewrite Hss.
    rewrite List.filter_app, filter_idem. cbn [List.filter snd].
    rewrite day_slot_added. cbn [negb]. apply app_nil_r.
  - destruct Hrun as (_ & Hss). rewrite Hss. apply filter_idem.
Qed.

(** X15.  "Delete selected day", with the start date not after the end
    date: from what the editor shows for the screen's subject, topic,
    batch, semester and branch, over any range of dates, it removes the
    sessions of that day and slot (the slot compared without regard to
    case) and nothing else.  Sessions of other subjects or other days stay
    in the table, and deleting a second time changes nothing. *)
Theorem delete_one_day_view
        (scr : Screen) (dd : date) (ds : string) (db : Db.t) (start end_ : date) :
  scr_sd scr <= scr_ed scr ->
  Permutation
    (_sessions_for (delete_one_day scr dd ds db)
                   (scr_subject_id scr) (scr_topic_id scr) (scr_batch_year scr)
                   (scr_sem_choice scr) (scr_branch_id scr) start end_)
    (List.filter (fun v => negb ((v_session_date v =? dd) && lower_eq (v_slot v) ds))
                 (_sessions_for db
                                (scr_subject_id scr) (scr_topic_id scr) (scr_batch_year scr)
                                (scr_sem_choice scr) (scr_branch_id scr) start end_))
  /\ (forall x, In x (subject_sessions db) ->
                Db.subject_id (snd x) <> scr_subject_id scr \/ session_date (snd x) <> dd ->
                In x (subject_sessions (delete_one_day scr dd ds db)))
  /\ delete_one_day scr dd ds (delete_one_day scr dd ds db) = delete_one_day scr dd ds db.
Proof.
  intros Hw. unfold delete_one_day.
  destruct (Z.gtb_spec (scr_sd scr) (scr_ed scr)); [lia|].
  split; [|split].
  - etransitivity; [apply sessions_for_permutation|].
    unfold _sessions_for. rewrite filter_map_comm. apply Permutation_map.
    etransitivity; [|apply filter_permutation, Permutation_sym, merge_sort_Permutation].
    unfold delete_sessions. cbn [subject_sessions].
    rewrite !filter_filter_both.
    erewrite filter_ext_in'; [reflexivity|].
    intros x _. cbv beta.
    destruct (in_view _ _ _ _ _ _ _ (snd x)) eqn:Ei.
    + rewrite (day_slot_in_view scr dd ds _ _ _ Ei). cbn [andb]. unfold show.
      cbn [v_session_date v_slot]. now rewrite andb_true_r.
    + now rewrite andb_false_r.
  - intros x Hx Hne. unfold delete_sessions. cbn [subject_sessions].
    apply List.filter_In. split; [exact Hx|]. unfold day_slot.
    destruct Hne as [Hne|Hne].
    + destruct (Z.eqb_spec (Db.subject_id (snd x)) (scr_subject_id scr)); [contradiction|].
      reflexivity.
    + destruct (Z.eqb_spec (session_date (snd x)) dd); [contradiction|].
      now rewrite andb_false_r.
  - unfold delete_sessions. cbn [subject_sessions catalog sessions_seq notifications].
    now rewrite filter_idem.
Qed.

Lemma delete_one_day_view_witness :
  scr_sd Fixtures.two_weeks <= scr_ed Fixtures.two_weeks
  /\ delete_one_day Fixtures.two_weeks 738886 "morning"
       (delete_one_day Fixtures.two_weeks 738886 "morning"
          (Schedule.run_call (Fixtures.monday_call 1) Fixtures.empty_db))
     = delete_one_day Fixtures.two_weeks 738886 "morning"
         (Schedule.run_call (Fixtures.monday_call 1) Fixtures.empty_db).
Proof.
  assert (H : scr_sd Fixtures.two_weeks <= scr_ed Fixtures.two_weeks)
    by (vm_compute; discriminate).
  split; [exact H|].
  apply (delete_one_day_view Fixtures.two_weeks 738886 "morning"
           (Schedule.run_call (Fixtures.monday_call 1) Fixtures.empty_db)
           738886 738899 H).
Defined.

Lemma to_repair_view scr start end_ s :
  0 < scr_sem_choice scr ->
  to_repair scr s = true ->
  in_view (scr_subject_id scr) (scr_topic_id scr) (scr_batch_year scr)
          (scr_sem_choice scr) (scr_branch_id scr) start end_ s = false
  /\ in_view (scr_subject_id scr) (scr_topic_id scr) (scr_batch_year scr)
             (scr_sem_choice scr) (scr_branch_id scr) start end_
             (set_semester (scr_sem_choice scr) s)
     = between (session_date s) start end_
  /\ to_repair scr (set_semester (scr_sem_choice scr) s) = false.
Proof.
  intros Hsem H. unfold to_repair in H.
  repeat (apply andb_prop in H; destruct H as [H ?]).
  unfold in_view, to_repair, set_semester, legacy_semester, col_eq in *.
  cbn [Db.subject_id Db.topic_id Db.batch_year Db.branch_id semester session_date].
  rewrite H, H2, H3, H1, Z.eqb_refl. cbn [andb]. split; [|split].
  - destruct (semester s) as [v|]; [|reflexivity].
    destruct (Z.leb_spec v 0); [|discriminate].
    destruct (Z.eqb_spec v (scr_sem_choice scr)); [lia|reflexivity].
  - reflexivity.
  - destruct (Z.leb_spec (scr_sem_choice scr) 0); [lia|reflexivity].
Qed.

Lemma repair_view scr start end_ ss :
  0 < scr_sem_choice scr ->
  Permutation
    (map show
       (List.filter
          (fun x => in_view (scr_subject_id scr) (scr_topic_id scr) (scr_batch_year scr)
                            (scr_sem_choice scr) (scr_branch_id scr) start end_ (snd x))
          (map (fun x => if to_repair scr (snd x)
                         then (fst x, set_semester (scr_sem_choice scr) (snd x)) else x)
               ss)))
    (map show
       (List.filter
          (fun x => in_view (scr_subject_id scr) (scr_topic_id scr) (scr_batch_year scr)
                            (scr_sem_choice scr) (scr_branch_id scr) start end_ (snd x))
          ss)
     ++ map show
          (List.filter
             (fun x => to_repair scr (snd x) && between (session_date (snd x)) start end_)
             ss)).
Proof.
  intros Hsem. induction ss as [|x ss IH]; [constructor|].
  cbn [map List.filter].
  destruct (to_repair scr (snd x)) eqn:Er.
  - destruct (to_repair_view scr start end_ (snd x) Hsem Er) as (E1 & E2 & _).
    cbn [snd fst]. rewrite E1, E2. cbn [andb].
    destruct (between _ start end_); [|exact IH].
    cbn [map]. etransitivity; [|apply Permutation_middle].
    constructor. exact IH.
  - cbn [andb]. destruct (in_view _ _ _ _ _ _ _ (snd x)); [|exact IH].
    cbn [map app]. constructor. exact IH.
Qed.

(** X16.  "Repair legacy semester values", with a semester choice from 1
    on: the sessions of the screen's subject, topic, batch and branch
    whose semester is [NULL] or not positive get the chosen semester.  In
    the editor they now appear next to the sessions that were shown
    before, and nothing else changes in what it shows.  No row is added or
    removed, rows with a positive semester are untouched, and a second
    repair changes nothing. *)
Theorem repair_semesters_spec (scr : Screen) (db : Db.t) (start end_ : date) :
  scr_sd scr <= scr_ed scr ->
  0 < scr_sem_choice scr ->
  Permutation
    (_sessions_for (repair_semesters scr db)
                   (scr_subject_id scr) (scr_topic_id scr) (scr_batch_year scr)
                   (scr_sem_choice scr) (scr_branch_id scr) start end_)
    (_sessions_for db
                   (scr_subject_id scr) (scr_topic_id scr) (scr_batch_year scr)
                   (scr_sem_choice scr) (scr_branch_id scr) start end_
     ++ map show
          (List.filter
             (fun x => to_repair scr (snd x) && between (session_date (snd x)) start end_)
             (subject_sessions db)))
  /\ map fst (subject_sessions (repair_semesters scr db)) = map fst (subject_sessions db)
  /\ (forall x, In x (subject_sessions db) -> legacy_semester (snd x) = false ->
                In x (subject_sessions (repair_semesters scr db)))
  /\ repair_semesters scr (repair_semesters scr db) = repair_semesters scr db.
Proof.
  intros Hw Hsem. unfold repair_semesters.
  destruct (Z.gtb_spec (scr_sd scr) (scr_ed scr)); [lia|].
  split; [|split; [|split]].
  - etransitivity; [apply sessions_for_permutation|].
    unfold update_semester. cbn [subject_sessions].
    etransitivity; [apply repair_view, Hsem|].
    apply Permutation_app_tail, Permutation_sym, sessions_for_permutation.
  - unfold update_semester. cbn [subject_sessions]. rewrite map_map.
    apply map_ext. intros x. destruct (to_repair scr (snd x)); reflexivity.
  - intros x Hx Hl. unfold update_semester. cbn [subject_sessions].
    apply in_map_iff. exists x. split; [|exact Hx].
    unfold to_repair. rewrite Hl. now rewrite andb_false_r.
  - unfold update_semester. cbn [subject_sessions catalog sessions_seq notifications].
    f_equal. rewrite map_map. apply map_ext. intros x.
    destruct (to_repair scr (snd x)) eqn:Er; [|now rewrite Er].
    cbn [snd fst].
    destruct (to_repair_view scr start end_ (snd x) Hsem Er) as (_ & _ & ->). reflexivity.
Qed.

Lemma repair_semesters_spec_witness :
  scr_sd Fixtures.two_weeks <= scr_ed Fixtures.two_weeks
  /\ 0 < scr_sem_choice Fixtures.two_weeks
  /\ repair_semesters Fixtures.two_weeks
       (repair_semesters Fixtures.two_weeks FixturesRest.legacy_db)
     = repair_semesters Fixtures.two_weeks FixturesRest.legacy_db
  /\ map fst (subject_sessions (repair_semesters Fixtures.two_weeks FixturesRest.legacy_db))
     = map fst (subject_sessions FixturesRest.legacy_db).
Proof.
  assert (H1 : scr_sd Fixtures.two_weeks <= scr_ed Fixtures.two_weeks)
    by (vm_compute; discriminate).
  assert (H2 : 0 < scr_sem_choice Fixtures.two_weeks) by reflexivity.
  split; [exact H1|]. split; [exact H2|].
  destruct (repair_semesters_spec Fixtures.two_weeks FixturesRest.legacy_db
              738886 738899 H1 H2) as (_ & Hids & _ & Hidem).
  split; [exact Hidem|exact Hids].
Defined.

Lemma ab_go_catalog scr A B sl kd db :
  catalog (fst (ab_go scr A B sl kd db)) = catalog db.
Proof.
  unfold ab_go. destruct (_ >? _); [reflexivity|].
  destruct (_generate_ab scr _ A B sl kd); try reflexivity. apply merge_and_save_catalog.
Qed.

Lemma tail_weeks_go_catalog scr pw per sl kd db :
  catalog (fst (tail_weeks_go scr pw per sl kd db)) = catalog db.
Proof.
  unfold tail_weeks_go. destruct (_ >? _); [reflexivity|].
  destruct (tail_rows pw per _ _ _ _ _); try reflexivity. apply merge_and_save_catalog.
Qed.

Lemma add_one_day_fst scr d sl kd L S db :
  fst (add_one_day scr d sl kd L S db)
  = if (scr_sd scr >? scr_ed scr) || (d <? scr_sd scr) || (d >? scr_ed scr)
       || bool_decide (d ∈ _holidays_between db (scr_sd scr) (scr_ed scr))
    then db
    else fst (_merge_and_save (scr_subject_id scr) (scr_sd scr) (scr_ed scr)
                              [added_row scr d sl kd L S]
                              (scr_batch_year scr) (scr_sem_choice scr) (scr_branch_id scr)
                              None "Add one day" db).
Proof.
  unfold add_one_day. destruct (_ >? _); [reflexivity|]. cbn [orb].
  destruct ((d <? scr_sd scr) || (d >? scr_ed scr)); [reflexivity|]. cbn [orb].
  match goal with |- context [@bool_decide ?P ?D] => destruct (@bool_decide P D) end;
    [reflexivity|].
  destruct (_merge_and_save _ _ _ _ _ _ _ _ _ db) as [db' [u|e|]]; reflexivity.
Qed.

(** X17.  The other session-writing buttons are idempotent as well:
    pressing "Generate (A/B)", "Add sessions for selected tail weeks" or
    "Add" a second time with the same inputs leaves the same sessions, the
    [id]s apart, as pressing it once. *)
Theorem other_buttons_idempotent
        (scr : Screen) (weekA weekB : list string) (pick_weeks : list Z)
        (per_wk_days : gmap Z (list string)) (sl kd : string) (d : date) (L S : Z)
        (db : Db.t) :
  let ab := fun x => fst (ab_go scr weekA weekB sl kd x) in
  let tail := fun x => fst (tail_weeks_go scr pick_weeks per_wk_days sl kd x) in
  let add := fun x => fst (add_one_day scr d sl kd L S x) in
  sessions (ab (ab db)) = sessions (ab db)
  /\ sessions (tail (tail db)) = sessions (tail db)
  /\ sessions (add (add db)) = sessions (add db).
Proof.
  cbv zeta. split; [|split].
  - assert (Hc := ab_go_catalog scr weekA weekB sl kd db).
    set (d1 := fst (ab_go scr weekA weekB sl kd db)) in *.
    unfold ab_go at 1.
    rewrite (holidays_between_catalog d1 db) by exact Hc.
    subst d1. unfold ab_go. destruct (_ >? _); [reflexivity|].
    destruct (_generate_ab scr _ weekA weekB sl kd) as [rows| |]; try reflexivity.
    apply merge_and_save_twice.
  - assert (Hc := tail_weeks_go_catalog scr pick_weeks per_wk_days sl kd db).
    set (d1 := fst (tail_weeks_go scr pick_weeks per_wk_days sl kd db)) in *.
    unfold tail_weeks_go at 1.
    rewrite (holidays_between_catalog d1 db) by exact Hc.
    subst d1. unfold tail_weeks_go. destruct (_ >? _); [reflexivity|].
    destruct (tail_rows pick_weeks per_wk_days _ _ _ _ _) as [rows| |]; try reflexivity.
    apply merge_and_save_twice.
  - rewrite (add_one_day_fst scr d sl kd L S (fst (add_one_day scr d sl kd L S db))).
    rewrite (holidays_between_catalog (fst (add_one_day scr d sl kd L S db)) db).
    + rewrite (add_one_day_fst scr d sl kd L S db).
      destruct (_ || _ || _ || _); [reflexivity|]. apply merge_and_save_twice.
    + rewrite add_one_day_fst. destruct (_ || _ || _ || _); [reflexivity|].
      apply merge_and_save_catalog.
Qed.

Lemma length_set_order ids : length (set_order ids) = length (remove_dups ids).
Proof.
  unfold set_order, sorted_set. apply Permutation_length, merge_sort_Permutation.
Qed.

Lemma in_set_order f ids : In f (set_order ids) <-> In f ids.
Proof.
  unfold set_order, sorted_set.
  rewrite <- !list_elem_of_In. rewrite merge_sort_Permutation. apply elem_of_remove_dups.
Qed.

(** X18.  [_notify_faculty] writes nothing when the notifications table is
    missing.  With the [seen_by_faculty_id] column it writes one row for
    each different recipient, so none for an empty list.  Without that
    column it writes exactly one row with no recipient, also when the list
    of recipients is empty.  Every row carries the subject and the message,
    and the sessions are not touched. *)
Theorem notify_faculty_rows_written
        (faculty_ids : list Z) (subject_id : Z) (message : string) (db : Db.t) :
  exists written,
    notifications (_notify_faculty faculty_ids subject_id message db)
    = notifications db ++ written
    /\ List.Forall (fun n => n_subject_id n = subject_id /\ n_message n = message) written
    /\ length written
       = (if negb (notifications_table (catalog db)) then 0
          else if notifications_seen_by (catalog db)
               then length (remove_dups faculty_ids) else 1)%nat
    /\ (forall f, In (Some f) (map seen_by_faculty_id written)
                  <-> notifications_table (catalog db) = true
                      /\ notifications_seen_by (catalog db) = true /\ In f faculty_ids)
    /\ subject_sessions (_notify_faculty faculty_ids subject_id message db)
       = subject_sessions db.
Proof.
  unfold _notify_faculty.
  destruct (notifications_table (catalog db)); cbn [negb].
  - destruct (notifications_seen_by (catalog db)).
    + exists (map (fun fid => {| n_subject_id := subject_id; n_message := message;
                                 seen_by_faculty_id := Some fid |})
                  (set_order faculty_ids)).
      split; [|split; [|split; [|split]]].
      * destruct (set_order faculty_ids); [cbn; now rewrite app_nil_r|reflexivity].
      * apply List.Forall_forall. intros n Hn. apply in_map_iff in Hn.
        destruct Hn as (f & <- & _). split; reflexivity.
      * rewrite length_map. apply length_set_order.
      * intros f. rewrite map_map. cbn [seen_by_faculty_id]. rewrite in_map_iff. split.
        -- intros (g & Hg & Hin). injection Hg as ->.
           split; [reflexivity|split; [reflexivity|now apply in_set_order]].
        -- intros (_ & _ & Hin). exists f. split; [reflexivity|now apply in_set_order].
      * destruct (set_order faculty_ids); reflexivity.
    + eexists. split; [reflexivity|]. split; [|split; [reflexivity|split]].
      * constructor; [split; reflexivity|constructor].
      * intros f. cbn. split; [intros [H|[]]; discriminate|intros (_ & H & _); discriminate].
      * reflexivity.
  - exists []. split; [now rewrite app_nil_r|]. split; [constructor|].
    split; [reflexivity|]. split; [|reflexivity].
    intros f. cbn. split; [tauto|intros (H & _); discriminate].
Qed.

End EditorButtons.

(** ** The Copy (3) screen *)

Section CopyScreen.

Import PyDate ScheduleCopy3 ScheduleCopy3Rest.








Lemma copy3_view_frame (p : Session -> bool) (q : Z * Session -> bool) ss :
  (forall x, q x = true -> p (snd x) = false) ->
  List.filter q (List.filter (fun x => negb (p (snd x))) ss) = List.filter q ss.
Proof.
  intros H. rewrite filter_filter_both. apply filter_ext_in'. intros x _.
  destruct (q x) eqn:E; [|now rewrite andb_false_r]. now rewrite (H x E).
Qed.

(** X21.  [_delete_sessions] empties what [_sessions_for] returns for the
    subject over the range and over every range inside it.  The sessions of
    other subjects, and those of the subject on dates outside the range, are
    returned as before, and deleting again changes nothing. *)
Theorem delete_sessions_range (sid : Z) (start end_ : date) (db : Db.t) :
  (forall a b, start <= a -> b <= end_ ->
               _sessions_for (_delete_sessions sid start end_ db) sid a b = [])
  /\ (forall sid' a b, sid' <> sid \/ b < start \/ end_ < a ->
                       _sessions_for (_delete_sessions sid start end_ db) sid' a b
                       = _sessions_for db sid' a b)
  /\ _delete_sessions sid start end_ (_delete_sessions sid start end_ db)
     = _delete_sessions sid start end_ db.
Proof.
  unfold _delete_sessions, _sessions_for, delete_sessions. cbn [subject_sessions].
  split; [|split].
  - intros a b Ha Hb. rewrite filter_filter_both.
    rewrite filter_nil_of_none; [reflexivity|].
    intros x _. unfold between.
    destruct (Z.eqb_spec (Db.subject_id (snd x)) sid); [|now rewrite andb_false_r].
    cbn [andb negb].
    destruct (Z.leb_spec start (session_date (snd x))),
      (Z.leb_spec (session_date (snd x)) end_),
      (Z.leb_spec a (session_date (snd x))),
      (Z.leb_spec (session_date (snd x)) b); cbn [andb negb]; try reflexivity; lia.
  - intros sid' a b Hc.
    rewrite (copy3_view_frame
               (fun s => (Db.subject_id s =? sid) && between (session_date s) start end_));
      [reflexivity|].
    intros x Hx. apply andb_prop in Hx. destruct Hx as [H1 H2].
    apply Z.eqb_eq in H1. apply between_true in H2.
    destruct (Z.eqb_spec (Db.subject_id (snd x)) sid); [|reflexivity].
    cbn [andb]. unfold between.
    destruct (Z.leb_spec start (session_date (snd x))); [|reflexivity].
    destruct (Z.leb_spec (session_date (snd x)) end_); [|reflexivity].
    exfalso. destruct Hc as [Hc|Hc]; [congruence|lia].
  - cbn [catalog sessions_seq notifications]. now rewrite filter_idem.
Qed.

Lemma delete_sessions_range_witness :
  Fixtures.jul10 <= Fixtures.jul10 /\ Fixtures.jul11 <= Fixtures.jul11
  /\ _sessions_for (_delete_sessions 1 Fixtures.jul10 Fixtures.jul11
                                     Fixtures.subject_a_scheduled)
                   1 Fixtures.jul10 Fixtures.jul11 = []
  /\ (2 <> 1 \/ Fixtures.jul11 < Fixtures.jul10 \/ Fixtures.jul11 < Fixtures.jul10)
  /\ _sessions_for (_delete_sessions 1 Fixtures.jul10 Fixtures.jul11
                                     Fixtures.subject_a_scheduled)
                   2 Fixtures.jul10 Fixtures.jul11
     = _sessions_for Fixtures.subject_a_scheduled 2 Fixtures.jul10 Fixtures.jul11.
Proof.
  assert (H : 2 <> 1 \/ Fixtures.jul11 < Fixtures.jul10 \/ Fixtures.jul11 < Fixtures.jul10)
    by (left; discriminate).
  split; [reflexivity|]. split; [reflexivity|]. split.
  - apply (delete_sessions_range 1 Fixtures.jul10 Fixtures.jul11
             Fixtures.subject_a_scheduled); reflexivity.
  - split; [exact H|].
    apply (delete_sessions_range 1 Fixtures.jul10 Fixtures.jul11
             Fixtures.subject_a_scheduled). exact H.
Defined.

Lemma copy3_repair_view sem sid sd ed (ss : list (Z * Session)) :
  Permutation
    (List.filter (fun x => (Db.subject_id (snd x) =? sid)
                           && between (session_date (snd x)) sd ed)
       (map (fun x => if (Db.subject_id (snd x) =? sid)
                         && between (session_date (snd x)) sd ed
                      then (fst x, ScheduleRest.set_semester sem (snd x)) else x) ss))
    (map (fun x : Z * Session => (fst x, ScheduleRest.set_semester sem (snd x)))
         (List.filter (fun x => (Db.subject_id (snd x) =? sid)
                                && between (session_date (snd x)) sd ed) ss)).
Proof.
  induction ss as [|x ss IH]; [constructor|].
  cbn [map List.filter].
  destruct ((Db.subject_id (snd x) =? sid) && between (session_date (snd x)) sd ed) eqn:E.
  - cbn [snd fst ScheduleRest.set_semester Db.subject_id session_date]. rewrite E.
    cbn [map]. constructor. exact IH.
  - rewrite E. exact IH.
Qed.

(** X22.  "Repair legacy semesters" of the Copy (3) screen, with the end
    date not before the start date: every session of the subject in the
    range gets the chosen semester, whatever semester it had, and is
    otherwise unchanged.  What [_sessions_for] returns for another subject
    stays the same, no row is added or removed, and a second repair changes
    nothing. *)
Theorem copy3_repair_semesters (sem sid : Z) (sd ed : date) (db : Db.t) :
  sd <= ed ->
  Permutation (_sessions_for (repair_semesters sem sid sd ed db) sid sd ed)
              (map (ScheduleRest.set_semester sem) (_sessions_for db sid sd ed))
  /\ (forall sid' a b, sid' <> sid ->
                       _sessions_for (repair_semesters sem sid sd ed db) sid' a b
                       = _sessions_for db sid' a b)
  /\ map fst (subject_sessions (repair_semesters sem sid sd ed db))
     = map fst (subject_sessions db)
  /\ repair_semesters sem sid sd ed (repair_semesters sem sid sd ed db)
     = repair_semesters sem sid sd ed db.
Proof.
  intros Hw. unfold repair_semesters.
  destruct (Z.ltb_spec ed sd); [lia|].
  unfold ScheduleRest.update_semester, _sessions_for. cbn [subject_sessions].
  split; [|split; [|split]].
  - etransitivity; [apply Permutation_map, merge_sort_Permutation|].
    etransitivity; [apply Permutation_map, copy3_repair_view|].
    rewrite map_map. cbn [snd].
    rewrite <- (map_map snd (ScheduleRest.set_semester sem)).
    apply Permutation_map, Permutation_map, Permutation_sym, merge_sort_Permutation.
  - intros sid' a b Hne. f_equal. f_equal.
    induction (subject_sessions db) as [|x ss IH]; [reflexivity|].
    cbn [map List.filter].
    destruct (Z.eqb_spec (Db.subject_id (snd x)) sid) as [Es|Es]; cbn [andb].
    + destruct (between (session_date (snd x)) sd ed);
        cbn [snd ScheduleRest.set_semester Db.subject_id];
        (destruct (Z.eqb_spec (Db.subject_id (snd x)) sid'); [congruence|]);
        cbn [andb]; exact IH.
    + now rewrite IH.
  - rewrite map_map. apply map_ext. intros x.
    destruct ((Db.subject_id (snd x) =? sid) && between (session_date (snd x)) sd ed);
      reflexivity.
  - cbn [catalog sessions_seq notifications]. f_equal. rewrite map_map. apply map_ext.
    intros x.
    destruct ((Db.subject_id (snd x) =? sid) && between (session_date (snd x)) sd ed) eqn:E;
      [|now rewrite E].
    cbn [snd fst ScheduleRest.set_semester Db.subject_id session_date]. now rewrite E.
Qed.

Lemma copy3_repair_semesters_witness :
  Fixtures.jan01 <= Fixtures.jan14
  /\ repair_semesters 1 1 Fixtures.jan01 Fixtures.jan14
       (repair_semesters 1 1 Fixtures.jan01 Fixtures.jan14 FixturesRest.legacy_db)
     = repair_semesters 1 1 Fixtures.jan01 Fixtures.jan14 FixturesRest.legacy_db.
Proof.
  assert (H : Fixtures.jan01 <= Fixtures.jan14) by (vm_compute; discriminate).
  split; [exact H|].
  apply (copy3_repair_semesters 1 1 Fixtures.jan01 Fixtures.jan14 FixturesRest.legacy_db H).
Defined.

Lemma strictly_sorted (l : list Z) :
  StronglySorted Z.le l -> List.NoDup l -> StronglySorted Z.lt l.
Proof.
  induction 1 as [|x l Hs IH Hall]; intros Hnd; [constructor|].
  inversion Hnd as [|? ? Hnot Hnd']; subst.
  constructor; [now apply IH|].
  apply List.Forall_forall. intros y Hy.
  rewrite List.Forall_forall in Hall. specialize (Hall y Hy).
  assert (x <> y) by (intros ->; contradiction). lia.
Qed.

Lemma sorted_set_sorted ids : StronglySorted Z.lt (sorted_set ids).
Proof.
  unfold sorted_set. apply strictly_sorted.
  - apply StronglySorted_merge_sort; apply _.
  - apply NoDup_ListNoDup. rewrite merge_sort_Permutation. apply NoDup_remove_dups.
Qed.

(** X23.  [_faculty_ids_for_subject] returns the subject-in-charge and the
    mapped faculty of the subject, each once, in strictly ascending
    order; for a subject with neither it returns the empty list. *)
Theorem faculty_ids_for_subject_sorted (db : Db.t) (sid : Z) :
  StronglySorted Z.lt (_faculty_ids_for_subject db sid)
  /\ List.NoDup (_faculty_ids_for_subject db sid)
  /\ (forall f, In f (_faculty_ids_for_subject db sid) <-> associated db sid f)
  /\ ((forall f, ~ associated db sid f) -> _faculty_ids_for_subject db sid = []).
Proof.
  assert (Hs : StronglySorted Z.lt (_faculty_ids_for_subject db sid))
    by apply sorted_set_sorted.
  split; [exact Hs|]. split; [now apply sorted_lt_NoDup|].
  split; [apply faculty_ids_for_subject_spec|].
  intros Hnone. destruct (_faculty_ids_for_subject db sid) as [|f l] eqn:E; [reflexivity|].
  exfalso. apply (Hnone f). apply faculty_ids_for_subject_spec. rewrite E. now left.
Qed.

Lemma faculty_ids_for_subject_sorted_witness :
  (forall f, ~ associated Fixtures.empty_db 1 f)
  /\ _faculty_ids_for_subject Fixtures.empty_db 1 = [].
Proof.
  assert (H : forall f, ~ associated Fixtures.empty_db 1 f).
  { intros f [H|(m & H & _)]; exact H. }
  split; [exact H|].
  apply (faculty_ids_for_subject_sorted Fixtures.empty_db 1). exact H.
Defined.

(** X24.  [_notif] writes one row for every recipient id that is not 0,
    repeated ids included, and nothing when no such id is given or the
    table is missing.  When the [seen_by_faculty_id] column is missing the
    fallback writes the same number of rows, none of them naming a
    recipient.  Every row carries the subject and the message, and the
    sessions are not touched. *)
Theorem notif_rows_written
        (recipient_faculty_ids : list Z) (subject_id : Z) (message : string) (db : Db.t) :
  exists written,
    notifications (_notif recipient_faculty_ids subject_id message db)
    = notifications db ++ written
    /\ List.Forall (fun n => n_subject_id n = subject_id /\ n_message n = message) written
    /\ length written
       = (if notifications_table (catalog db)
          then length (List.filter truthy recipient_faculty_ids) else 0)%nat
    /\ map seen_by_faculty_id written
       = (if negb (notifications_table (catalog db)) then []
          else if notifications_seen_by (catalog db)
               then map Some (List.filter truthy recipient_faculty_ids)
               else map (fun _ => None) (List.filter truthy recipient_faculty_ids))
    /\ subject_sessions (_notif recipient_faculty_ids subject_id message db)
       = subject_sessions db.
Proof.
  unfold _notif.
  destruct (List.filter truthy recipient_faculty_ids) as [|f0 fs] eqn:E.
  { exists []. rewrite app_nil_r.
    split; [reflexivity|]. split; [constructor|].
    split; [now destruct (notifications_table _)|].
    split; [|reflexivity].
    destruct (notifications_table _); [|reflexivity].
    now destruct (notifications_seen_by _). }
  destruct (notifications_table (catalog db)); cbn [negb].
  - destruct (notifications_seen_by (catalog db)).
    + eexists. split; [reflexivity|]. split; [|split; [|split]].
      * apply List.Forall_forall. intros n Hn. apply in_map_iff in Hn.
        destruct Hn as (f & <- & _). split; reflexivity.
      * now rewrite length_map.
      * rewrite map_map. reflexivity.
      * reflexivity.
    + eexists. split; [reflexivity|]. split; [|split; [|split]].
      * apply List.Forall_forall. intros n Hn. apply in_map_iff in Hn.
        destruct Hn as (f & <- & _). split; reflexivity.
      * now rewrite length_map.
      * rewrite map_map. reflexivity.
      * reflexivity.
  - exists []. rewrite app_nil_r.
    split; [reflexivity|]. split; [constructor|]. split; [reflexivity|].
    split; reflexivity.
Qed.

End CopyScreen.
